(** * BloomNet Kernel: the topology reconciliation endpoints of [backend/main.py]

    A shallow embedding of the node-registration, node-removal and
    cluster-formation handlers together with the target-file helper they
    share, and the properties of the specification that concern them.

    Conventions of the embedding:
    - a Python [str] is a [string]; each character stands for one code point
      below 256, and the character classes of [str.strip] and [str.lower]
      are the ones Python uses on that range;
    - a value produced by [json.load]/[json.loads] is a [json] tree; the
      decoder itself belongs to the Python library and is a parameter.  It
      fails in two ways that the handlers tell apart: by rejecting the
      text ([JSONDecodeError]), or by giving up on a text beyond the limits
      of the interpreter ([ValueError], [RecursionError]);
    - a command line goes to the shell unless it holds a NUL character,
      which the process library refuses with a [ValueError] before
      anything runs;
    - the three external stores (ledger, target files, command line tool)
      live in an explicit [World]; what the outside answers during one
      request (probe results, command results, ledger faults, clock) is an
      [Env];
    - a handler is a computation in a state-and-exception monad over
      [World]; [print] output is not part of the state. *)

From Stdlib Require Import ZArith String Ascii List Bool Lia DecimalString Floats.
From stdpp Require Import base option list gmap strings fin_maps.

Set Warnings "-register-all".

Local Open Scope Z_scope.
Local Open Scope string_scope.
Local Open Scope list_scope.

(** ** Python string primitives *)

Module PyStr.

(** [str.isspace] on one code point below 256. *)
Definition is_space (c : ascii) : bool :=
  let n := nat_of_ascii c in
  ((9 <=? n) && (n <=? 13) || (28 <=? n) && (n <=? 32)
   || (n =? 133) || (n =? 160))%nat.

Fixpoint lstrip (s : string) : string :=
  match s with
  | String c s' => if is_space c then lstrip s' else s
  | EmptyString => EmptyString
  end.

(** Drops the trailing white space: the tail is cleaned first, and a
    character in front of an empty cleaned tail goes when it is blank. *)
Fixpoint rstrip (s : string) : string :=
  match s with
  | EmptyString => EmptyString
  | String c s' =>
      match rstrip s' with
      | EmptyString => if is_space c then EmptyString else String c EmptyString
      | r => String c r
      end
  end.

(** [s.strip()] *)
Definition strip (s : string) : string := rstrip (lstrip s).

(** [str.lower] on one code point below 256. *)
Definition lower_char (c : ascii) : ascii :=
  let n := nat_of_ascii c in
  if ((65 <=? n) && (n <=? 90)
      || (192 <=? n) && (n <=? 222) && negb (n =? 215))%nat
  then ascii_of_nat (n + 32) else c.

Fixpoint lower (s : string) : string :=
  match s with
  | EmptyString => EmptyString
  | String c s' => String (lower_char c) (lower s')
  end.

Fixpoint starts_with (p s : string) : bool :=
  match p, s with
  | EmptyString, _ => true
  | String a p', String b s' => Ascii.eqb a b && starts_with p' s'
  | String _ _, EmptyString => false
  end.

(** [p in s] *)
Fixpoint contains (p s : string) : bool :=
  starts_with p s ||
  match s with
  | EmptyString => false
  | String _ s' => contains p s'
  end.

(** [s.split(sep)] for a non-empty [sep]: left-to-right, non-overlapping.
    [skip] counts the characters of a separator still to be passed over,
    [cur] is the piece being collected. *)
Fixpoint split_go (sep : string) (skip : nat) (cur : string) (s : string)
  : list string :=
  match s with
  | EmptyString => [cur]
  | String c s' =>
      match skip with
      | S k => split_go sep k cur s'
      | O =>
          if starts_with sep s
          then cur :: split_go sep (String.length sep - 1) EmptyString s'
          else split_go sep O (cur +:+ String c EmptyString) s'
      end
  end.

Definition split (sep s : string) : list string :=
  split_go sep O EmptyString s.

(** [sep.join(l)] *)
Definition join (sep : string) (l : list string) : string :=
  String.concat sep l.

(** [str(n)] for an [int]. *)
Definition of_int (n : Z) : string :=
  NilZero.string_of_int (Z.to_int n).

(** [x in l] for a list of strings. *)
Definition mem (x : string) (l : list string) : bool :=
  existsb (String.eqb x) l.

End PyStr.

(** ** JSON values as Python sees them *)

Inductive json : Type :=
| JNull
| JBool (b : bool)
| JInt (n : Z)
| JFloat (x : float)
| JStr (s : string)
| JList (l : list json)
| JDict (d : list (string * json)).

Module Py.

(** A [dict] keeps its keys in insertion order. *)
Fixpoint dict_lookup {A : Type} (k : string) (d : list (string * A)) : option A :=
  match d with
  | [] => None
  | (k', v) :: d' => if String.eqb k k' then Some v else dict_lookup k d'
  end.

(** [d[k] = v]: an existing key keeps its place, a new key goes last. *)
Fixpoint dict_set {A : Type} (k : string) (v : A) (d : list (string * A))
  : list (string * A) :=
  match d with
  | [] => [(k, v)]
  | (k', v') :: d' =>
      if String.eqb k k' then (k, v) :: d' else (k', v') :: dict_set k v d'
  end.

(** [list(d.values())] *)
Definition dict_values {A : Type} (d : list (string * A)) : list A := map snd d.

(** [d.get(k, default)] *)
Definition get_or (k : string) (default : json) (d : list (string * json)) : json :=
  match dict_lookup k d with
  | Some v => v
  | None => default
  end.

(** [d.get(k)]: Python's [None] is [JNull]. *)
Definition get (k : string) (d : list (string * json)) : json := get_or k JNull d.

(** [bool(v)] *)
Definition truthy (v : json) : bool :=
  match v with
  | JNull => false
  | JBool b => b
  | JInt n => negb (Z.eqb n 0)
  | JFloat x => negb (PrimFloat.eqb x 0%float)
  | JStr s => negb (String.eqb s EmptyString)
  | JList l => match l with [] => false | _ => true end
  | JDict d => match d with [] => false | _ => true end
  end.

(** [x or y] *)
Definition or_else (x y : json) : json := if truthy x then x else y.

(** [v != s] for a string [s]. *)
Definition ne_str (v : json) (s : string) : bool :=
  match v with
  | JStr s' => negb (String.eqb s' s)
  | _ => true
  end.

(** [v in l] for a list [l] of strings. *)
Definition in_strs (v : json) (l : list string) : bool :=
  match v with
  | JStr s => PyStr.mem s l
  | _ => false
  end.

(** [type(v).__name__] *)
Definition type_name (v : json) : string :=
  match v with
  | JNull => "NoneType"
  | JBool _ => "bool"
  | JInt _ => "int"
  | JFloat _ => "float"
  | JStr _ => "str"
  | JList _ => "list"
  | JDict _ => "dict"
  end.

End Py.

(** ** Exceptions *)

Inductive err_kind : Type :=
| AttributeError
| JSONDecodeError
| OSError
| DriverError
| ValueError
| RecursionError.

Inductive exn : Type :=
| HTTPException (status_code : Z) (detail : string)
| PyError (kind : err_kind) (msg : string).

Definition no_attribute (v : json) (attr : string) : exn :=
  PyError AttributeError
    ("'" +:+ Py.type_name v +:+ "' object has no attribute '" +:+ attr +:+ "'").

(** ** The topology ledger

    The graph store holds [MinIONode] nodes, [MinIOCluster] nodes and
    [MEMBER_OF] edges between them.  Graph nodes have an identity of their
    own, which the edges refer to. *)

Record NodeRec : Type := mkNode {
  node_id : nat;
  node_ip : string;
  node_name : string;
  node_status : string;
  node_last_seen : Z
}.

Record ClusterRec : Type := mkCluster {
  cluster_id : nat;
  cluster_name : string;
  cluster_created_at : Z
}.

Record Ledger : Type := mkLedger {
  nodes : list NodeRec;
  clusters : list ClusterRec;
  member_of : list (nat * nat);
  next_id : nat
}.

Definition empty_ledger : Ledger := mkLedger [] [] [] 0.

Module Cypher.

Definition has_ip (ip : string) (n : NodeRec) : bool := String.eqb (node_ip n) ip.
Definition has_name (name : string) (n : NodeRec) : bool := String.eqb (node_name n) name.
Definition is_cluster (name : string) (c : ClusterRec) : bool :=
  String.eqb (cluster_name c) name.

(** [MERGE (n:MinIONode {ip: $ip})
     SET n.name = $name, n.status = $status, n.last_seen = timestamp()] *)
Definition merge_node (ip name status : string) (now : Z) (L : Ledger) : Ledger :=
  if existsb (has_ip ip) (nodes L)
  then mkLedger
         (map (fun n => if has_ip ip n
                        then mkNode (node_id n) (node_ip n) name status now
                        else n) (nodes L))
         (clusters L) (member_of L) (next_id L)
  else mkLedger
         (nodes L ++ [mkNode (next_id L) ip name status now])
         (clusters L) (member_of L) (S (next_id L)).

(** [MATCH (n:MinIONode {name: $name}) DETACH DELETE n
     RETURN count(n) as deleted_count] *)
Definition delete_node (name : string) (L : Ledger) : nat * Ledger :=
  let gone := List.filter (has_name name) (nodes L) in
  let ids := map node_id gone in
  (length gone,
   mkLedger
     (List.filter (fun n => negb (has_name name n)) (nodes L))
     (clusters L)
     (List.filter (fun e => negb (existsb (Nat.eqb (fst e)) ids)) (member_of L))
     (next_id L)).

(** [MERGE (c:MinIOCluster {name: $name}) SET c.created_at = timestamp()] *)
Definition merge_cluster (name : string) (now : Z) (L : Ledger) : Ledger :=
  if existsb (is_cluster name) (clusters L)
  then mkLedger
         (nodes L)
         (map (fun c => if is_cluster name c
                        then mkCluster (cluster_id c) (cluster_name c) now
                        else c) (clusters L))
         (member_of L) (next_id L)
  else mkLedger
         (nodes L)
         (clusters L ++ [mkCluster (next_id L) name now])
         (member_of L) (S (next_id L)).

(** [MERGE (n)-[:MEMBER_OF]->(c)] for one pair. *)
Definition merge_edge (e : nat * nat) (es : list (nat * nat)) : list (nat * nat) :=
  if existsb (fun e' => Nat.eqb (fst e') (fst e) && Nat.eqb (snd e') (snd e)) es
  then es else es ++ [e].

(** [MATCH (c:MinIOCluster {name: $name}) UNWIND $ips AS ip
     MATCH (n:MinIONode {ip: ip}) MERGE (n)-[:MEMBER_OF]->(c)] *)
Definition link_members (name : string) (ips : list string) (L : Ledger) : Ledger :=
  let rows :=
    c ← List.filter (is_cluster name) (clusters L);
    ip ← ips;
    n ← List.filter (has_ip ip) (nodes L);
    [(node_id n, cluster_id c)] in
  mkLedger (nodes L) (clusters L)
           (fold_left (fun es e => merge_edge e es) rows (member_of L))
           (next_id L).

End Cypher.

(** ** The outside world *)

(** What a target file holds, as [json.load] finds it. *)
Inductive file_content : Type :=
| Empty                  (* a file of length zero: the decoder rejects it *)
| Malformed              (* any other text the decoder rejects *)
| Document (j : json)    (* text the decoder turns into [j] *)
| Excessive (deep : bool).
    (* text the decoder gives up on with an error of another class: an
       integer literal beyond the digit limit of the interpreter, or, when
       [deep], nesting beyond its recursion limit *)

Record CompletedProcess : Type := mkProc {
  returncode : Z;
  stdout : string;
  stderr : string
}.

(** The calls a handler makes to the outside, in the order it makes them. *)
Inductive Event : Type :=
| EvHttpGet (url : string)
| EvShell (cmd : string)
| EvConnect
| EvQuery (cypher : string)
| EvRead (path : string)
| EvWrite (path : string).

Record World : Type := mkWorld {
  ledger : Ledger;
  files : gmap string file_content;
  trace : list Event
}.

(** The answers of the outside during one request. *)
Record Env : Type := mkEnv {
  (** [requests.get(url, timeout=2)]: the status code, [None] when it raises *)
  http_get : string -> option Z;
  (** [subprocess.run(cmd, shell=True, capture_output=True, text=True)] *)
  shell : string -> CompletedProcess;
  (** the driver cannot be created or [verify_connectivity] raises *)
  connect_fails : bool;
  (** the [k]-th [session.run] of the request raises with this message *)
  query_error : nat -> option string;
  (** opening or reading this path raises (no permission, undecodable
      bytes, ...) *)
  io_fault : string -> bool;
  (** the ledger's [timestamp()] *)
  now : Z
}.

(** ** State and exceptions *)

Definition M (A : Type) : Type := World -> (exn + A) * World.

Definition ret {A : Type} (x : A) : M A := fun w => (inr x, w).

Definition raise {A : Type} (e : exn) : M A := fun w => (inl e, w).

Definition bind {A B : Type} (m : M A) (k : A -> M B) : M B :=
  fun w =>
    match m w with
    | (inl e, w') => (inl e, w')
    | (inr x, w') => k x w'
    end.

Notation "'let!' x ':=' m 'in' k" := (bind m (fun x => k))
  (at level 10, x name, m at level 100, k at level 200).

(** [try: m  except Exception as e: h e] *)
Definition try_except {A : Type} (m : M A) (h : exn -> M A) : M A :=
  fun w =>
    match m w with
    | (inl e, w') => h e w'
    | (inr x, w') => (inr x, w')
    end.

Definition kind_eqb (a b : err_kind) : bool :=
  match a, b with
  | AttributeError, AttributeError
  | JSONDecodeError, JSONDecodeError
  | OSError, OSError
  | DriverError, DriverError
  | ValueError, ValueError
  | RecursionError, RecursionError => true
  | _, _ => false
  end.

(** [try: m  except K: h] for one exception class [K]; the others pass. *)
Definition try_except_kind {A : Type} (k : err_kind) (m : M A) (h : M A) : M A :=
  try_except m (fun e =>
    match e with
    | PyError k' _ => if kind_eqb k k' then h else raise e
    | HTTPException _ _ => raise e
    end).

Definition lift {A : Type} (r : exn + A) : M A := fun w => (r, w).

Definition emit (ev : Event) : M unit :=
  fun w => (inr tt, mkWorld (ledger w) (files w) (trace w ++ [ev])).

Fixpoint for_each {A : Type} (body : A -> M unit) (l : list A) : M unit :=
  match l with
  | [] => ret tt
  | x :: l' => let! _ := body x in for_each body l'
  end.

(** ** File and process primitives *)

(** [os.path.exists(path)] *)
Definition path_exists (path : string) : M bool :=
  fun w => (inr (match files w !! path with Some _ => true | None => false end), w).

(** [open(path, 'r')] and reading it whole. *)
Definition open_read (env : Env) (path : string) : M file_content :=
  if io_fault env path then raise (PyError OSError ("cannot open " +:+ path))
  else
    let! _ := emit (EvRead path) in
    fun w =>
      match files w !! path with
      | Some c => (inr c, w)
      | None => (inl (PyError OSError ("No such file or directory: " +:+ path)), w)
      end.

(** [json.load(f)].  A [JSONDecodeError] is a [ValueError] in Python, but
    not the other way round: the errors of the last two cases are not
    caught by [except json.JSONDecodeError]. *)
Definition json_load (c : file_content) : M json :=
  match c with
  | Document j => ret j
  | Empty | Malformed => raise (PyError JSONDecodeError "Expecting value")
  | Excessive false =>
      raise (PyError ValueError "Exceeds the limit for integer string conversion")
  | Excessive true =>
      raise (PyError RecursionError "maximum recursion depth exceeded")
  end.

(** [with open(path, 'w') as f: json.dump(data, f, indent=2)]: once the
    file is open the dump is taken to complete. *)
Definition write_json (env : Env) (path : string) (data : list json) : M unit :=
  if io_fault env path then raise (PyError OSError ("cannot open " +:+ path))
  else
    let! _ := emit (EvWrite path) in
    fun w => (inr tt,
              mkWorld (ledger w) (<[path := Document (JList data)]> (files w)) (trace w)).

(** The character no command line can hold. *)
Definition NUL : string := String "000" EmptyString.

(** [subprocess.run(cmd, shell=True, capture_output=True, text=True)]: a
    command line that holds a NUL character is refused with a
    [ValueError] before anything runs.  Otherwise the shell is taken to
    start and its output to be text. *)
Definition subprocess_run (env : Env) (cmd : string) : M CompletedProcess :=
  if PyStr.contains NUL cmd
  then raise (PyError ValueError "embedded null byte")
  else
    let! _ := emit (EvShell cmd) in
    ret (shell env cmd).

(** ** The target-file helper *)

Definition TARGETS_MINIO_FILE : string := "targets_minio.json".
Definition TARGETS_NODE_FILE : string := "targets_node.json".

(** [t.get('labels', {}).get('alias')] *)
Definition entry_alias (t : json) : exn + json :=
  match t with
  | JDict d =>
      match Py.get_or "labels" (JDict []) d with
      | JDict labels => inr (Py.get "alias" labels)
      | v => inl (no_attribute v "get")
      end
  | v => inl (no_attribute v "get")
  end.

(** [[t for t in data if t.get('labels', {}).get('alias') != alias]] *)
Fixpoint drop_alias (alias : string) (data : list json) : exn + list json :=
  match data with
  | [] => inr []
  | t :: rest =>
      match entry_alias t with
      | inl e => inl e
      | inr a =>
          match drop_alias alias rest with
          | inl e => inl e
          | inr kept => inr (if Py.ne_str a alias then t :: kept else kept)
          end
      end
  end.

Definition update_target_file (env : Env) (filepath alias : string)
    (new_target : option (list (string * json))) : M unit :=
  try_except
    (let! data :=
       (let! there := path_exists filepath in
        if there
        then
          let! f := open_read env filepath in
          try_except_kind JSONDecodeError
            (let! data := json_load f in
             ret (match data with JList l => l | _ => [] end))
            (ret [])
        else ret []) in
     let! data := lift (drop_alias alias data) in
     let data :=
       match new_target with
       | Some t => if Py.truthy (JDict t) then data ++ [JDict t] else data
       | None => data
       end in
     write_json env filepath data)
    (fun _ => ret tt).

(** ** The handlers *)

Section Handlers.

(** [json.loads] of the Python library; [None] when it raises. *)
Variable json_loads : string -> option json.

(** [str(e)] for an [HTTPException], as the web framework renders it. *)
Variable http_exception_str : Z -> string -> string.

(** [str(e)] *)
Definition str_exn (e : exn) : string :=
  match e with
  | HTTPException code detail => http_exception_str code detail
  | PyError _ msg => msg
  end.

Definition get_db_session (env : Env) : M unit :=
  let! _ := emit EvConnect in
  if connect_fails env
  then raise (HTTPException 503 "Ledger is warming up, please wait.")
  else ret tt.

(** The [k]-th [session.run] of a request; the query is applied whole or
    not at all. *)
Definition session_run {A : Type} (env : Env) (k : nat) (cypher : string)
    (q : Ledger -> A * Ledger) : M A :=
  let! _ := emit (EvQuery cypher) in
  match query_error env k with
  | Some msg => raise (PyError DriverError msg)
  | None =>
      fun w =>
        let (a, L) := q (ledger w) in
        (inr a, mkWorld L (files w) (trace w))
  end.

Definition check_minio_health (env : Env) (ip : string) (port : Z) : M bool :=
  let url := "http://" +:+ ip +:+ ":" +:+ PyStr.of_int port +:+ "/minio/health/live" in
  let! _ := emit (EvHttpGet url) in
  ret (match http_get env url with
       | Some status_code => Z.eqb status_code 200
       | None => false
       end).

Definition MERGE_NODE : string :=
  "MERGE (n:MinIONode {ip: $ip}) SET n.name = $name, n.status = $status, n.last_seen = timestamp()".
Definition DELETE_NODE : string :=
  "MATCH (n:MinIONode {name: $name}) DETACH DELETE n RETURN count(n) as deleted_count".
Definition MERGE_CLUSTER : string :=
  "MERGE (c:MinIOCluster {name: $name}) SET c.created_at = timestamp()".
Definition LINK_MEMBERS : string :=
  "MATCH (c:MinIOCluster {name: $name}) UNWIND $ips AS ip MATCH (n:MinIONode {ip: ip}) MERGE (n)-[:MEMBER_OF]->(c)".

Definition node_status_of (is_a_alive is_b_alive : bool) : string :=
  if is_a_alive && is_b_alive then "active" else "degraded".

Definition minio_target (name ip : string) : list (string * json) :=
  [("targets", JList [JStr (ip +:+ ":9001"); JStr (ip +:+ ":9003")]);
   ("labels", JDict [("alias", JStr name)])].

Definition node_target (name ip : string) (node_port : Z) : list (string * json) :=
  [("targets", JList [JStr (ip +:+ ":" +:+ PyStr.of_int node_port)]);
   ("labels", JDict [("alias", JStr name)])].

Definition register_node (env : Env) (name ip : string) (node_port : Z) : M json :=
  let! is_a_alive := check_minio_health env ip 9001 in
  let! is_b_alive := check_minio_health env ip 9003 in
  let! _ :=
    try_except
      (let! _ := get_db_session env in
       let status := node_status_of is_a_alive is_b_alive in
       session_run env 0 MERGE_NODE
         (fun L => (tt, Cypher.merge_node ip name status (now env) L)))
      (fun e => raise (HTTPException 500 ("Neo4j Error: " +:+ str_exn e))) in
  let! _ := update_target_file env TARGETS_MINIO_FILE name
              (Some (minio_target name ip)) in
  let! _ := update_target_file env TARGETS_NODE_FILE name
              (Some (node_target name ip node_port)) in
  ret (JDict
         [("status", JStr "registered");
          ("node", JStr name);
          ("health", JDict [("instance_a", JBool is_a_alive);
                            ("instance_b", JBool is_b_alive)]);
          ("monitoring", JDict [("minio", JStr "enabled");
                                ("node", JStr "enabled")])]).

Definition delete_node (env : Env) (name : string) : M json :=
  let! _ :=
    try_except
      (let! _ := get_db_session env in
       let! deleted_count :=
         session_run env 0 DELETE_NODE (Cypher.delete_node name) in
       if Nat.eqb deleted_count 0
       then raise (HTTPException 404 ("Node '" +:+ name +:+ "' not found in registry."))
       else ret tt)
      (fun e =>
         match e with
         | HTTPException _ _ => raise e
         | _ => raise (HTTPException 500 ("Neo4j Delete Failed: " +:+ str_exn e))
         end) in
  let! _ := update_target_file env TARGETS_MINIO_FILE name None in
  let! _ := update_target_file env TARGETS_NODE_FILE name None in
  ret (JDict [("status", JStr "deleted"); ("node", JStr name)]).

(** [[a.strip() for a in aliases.split(',') if a.strip()]] *)
Definition parse_aliases (aliases : string) : list string :=
  a ← PyStr.split "," aliases;
  if negb (String.eqb (PyStr.strip a) EmptyString) then [PyStr.strip a] else [].

(** [url.split("://")[-1].split(":")[0]] *)
Definition ip_part (url : string) : string :=
  List.hd EmptyString (PyStr.split ":" (List.last (PyStr.split "://" url) EmptyString)).

(** The body of the loop over the lines of the alias listing; whatever
    is raised inside is dropped by the bare [except]. *)
Definition resolve_line (alias_list : list string)
    (alias_map : list (string * string)) (line : string)
  : list (string * string) :=
  match json_loads line with
  | Some (JDict data) =>
      let a_name := Py.get "alias" data in
      let url := Py.or_else (Py.get_or "URL" (JStr EmptyString) data)
                            (Py.get_or "url" (JStr EmptyString) data) in
      if Py.in_strs a_name alias_list && Py.truthy url
      then
        match a_name, url with
        | JStr a, JStr u => Py.dict_set a (ip_part u) alias_map
        | _, _ => alias_map
        end
      else alias_map
  | _ => alias_map
  end.

(** The listing is read under [try ... except Exception], with the map
    still empty when the command is run. *)
Definition resolve_aliases (env : Env) (alias_list : list string)
  : M (list (string * string)) :=
  try_except
    (let! proc_list := subprocess_run env "mc alias list --json" in
     ret (if Z.eqb (returncode proc_list) 0
          then fold_left (resolve_line alias_list)
                 (PyStr.split (String "010" EmptyString)
                    (PyStr.strip (stdout proc_list))) []
          else []))
    (fun _ => ret []).

Definition create_cluster (env : Env) (name aliases : string) : M json :=
  let alias_list := parse_aliases aliases in
  if (length alias_list <? 2)%nat
  then raise (HTTPException 400 "Cluster requires at least 2 aliases.")
  else
    let! _ :=
      for_each
        (fun alias =>
           let! _ := subprocess_run env
                       ("mc admin replicate rm --all --force " +:+ alias) in
           ret tt)
        alias_list in
    let cmd_replicate := "mc admin replicate add " +:+ PyStr.join " " alias_list in
    let! res := subprocess_run env cmd_replicate in
    let! _ :=
      if negb (Z.eqb (returncode res) 0)
      then
        if negb (PyStr.contains "already" (PyStr.lower (stderr res)))
        then raise (HTTPException 500 ("Cluster formation failed: " +:+ stderr res))
        else ret tt
      else ret tt in
    let! alias_map := resolve_aliases env alias_list in
    let! _ :=
      try_except
        (let! _ := get_db_session env in
         let found_ips := Py.dict_values alias_map in
         let! _ := session_run env 0 MERGE_CLUSTER
                     (fun L => (tt, Cypher.merge_cluster name (now env) L)) in
         match found_ips with
         | [] => ret tt
         | _ => session_run env 1 LINK_MEMBERS
                  (fun L => (tt, Cypher.link_members name found_ips L))
         end)
        (fun _ => ret tt) in
    ret (JDict
           [("status", JStr "success");
            ("cluster", JStr name);
            ("members", JList (map JStr alias_list));
            ("resolved_ips",
              JDict (map (fun kv => (fst kv, JStr (snd kv))) alias_map))]).

(** *** Names for what the handlers do, used in the statements below *)

Definition LIST_CMD : string := "mc alias list --json".

Definition reset_cmd (alias : string) : string :=
  "mc admin replicate rm --all --force " +:+ alias.

Definition join_cmd (alias_list : list string) : string :=
  "mc admin replicate add " +:+ PyStr.join " " alias_list.

(** The alias map built from the listing. *)
Definition resolved (env : Env) (alias_list : list string)
  : list (string * string) :=
  if Z.eqb (returncode (shell env LIST_CMD)) 0
  then fold_left (resolve_line alias_list)
         (PyStr.split (String "010" EmptyString) (PyStr.strip (stdout (shell env LIST_CMD))))
         []
  else [].

Inductive request : Type :=
| Register (name ip : string) (node_port : Z)
| Deregister (name : string)
| FormCluster (name aliases : string).

Definition handle (env : Env) (req : request) : M json :=
  match req with
  | Register name ip node_port =>
      register_node env name ip node_port
  | Deregister name => delete_node env name
  | FormCluster name aliases => create_cluster env name aliases
  end.

(** The worlds the service can be in, starting from an empty ledger. *)
Inductive reachable : World -> Prop :=
| reachable_start fs tr : reachable (mkWorld empty_ledger fs tr)
| reachable_step env req w :
    reachable w -> reachable (snd (handle env req w)).

End Handlers.

(** ** Vocabulary of the properties *)

(** The node records kept for one address. *)
Definition at_ip (ip : string) (L : Ledger) : list NodeRec :=
  List.filter (Cypher.has_ip ip) (nodes L).

(** The ledger keeps at most one node record per address. *)
Definition unique_ips (L : Ledger) : Prop :=
  forall ip, (length (at_ip ip L) <= 1)%nat.

Definition retarget (ip name status : string) (now : Z) (n : NodeRec) : NodeRec :=
  if Cypher.has_ip ip n then mkNode (node_id n) (node_ip n) name status now else n.

(** The entry carries the alias label [alias]. *)
Definition labelled (alias : string) (t : json) : bool :=
  match t with
  | JDict d =>
      match Py.dict_lookup "labels" d with
      | Some (JDict labels) =>
          match Py.dict_lookup "alias" labels with
          | Some (JStr a) => String.eqb a alias
          | _ => false
          end
      | _ => false
      end
  | _ => false
  end.

(** The entry belongs to some other alias, or to none. *)
Definition other (alias : string) (t : json) : bool := negb (labelled alias t).

(** An entry the helper can inspect: an object whose [labels], when
    present, is an object too. *)
Definition entry_wellformed (t : json) : bool :=
  match t with
  | JDict d =>
      match Py.dict_lookup "labels" d with
      | Some (JDict _) | None => true
      | Some _ => false
      end
  | _ => false
  end.

(** The collection a store stands for: its entries when it holds a JSON
    list, nothing otherwise. *)
Definition collection (fs : gmap string file_content) (path : string) : list json :=
  match fs !! path with
  | Some (Document (JList l)) => l
  | _ => []
  end.

(** What an upsert appends. *)
Definition appended (new_target : option (list (string * json))) : list json :=
  match new_target with
  | Some t => if Py.truthy (JDict t) then [JDict t] else []
  | None => []
  end.

(** The decoder gets through the store, or there is no store: it
    decodes the text or rejects it as malformed. *)
Definition decodable (c : option file_content) : bool :=
  match c with
  | Some (Excessive _) => false
  | _ => true
  end.

(** The collection the helper writes back, when it gets to write. *)
Definition update_outcome (env : Env) (path alias : string)
    (new_target : option (list (string * json)))
    (fs : gmap string file_content) : option (list json) :=
  if io_fault env path then None
  else if negb (decodable (fs !! path)) then None
  else
    match drop_alias alias (collection fs path) with
    | inr kept => Some (kept ++ appended new_target)
    | inl _ => None
    end.

(** The files after the helper has run. *)
Definition apply_update (env : Env) (path alias : string)
    (new_target : option (list (string * json)))
    (fs : gmap string file_content) : gmap string file_content :=
  match update_outcome env path alias new_target fs with
  | Some data => <[path := Document (JList data)]> fs
  | None => fs
  end.

(** A store the helper reads as an empty collection: it is missing,
    empty, rejected by the decoder, or decoded to something that is not a
    list. *)
Definition unusable (c : option file_content) : bool :=
  match c with
  | None | Some Empty | Some Malformed => true
  | Some (Document (JList _)) => false
  | Some (Document _) => true
  | Some (Excessive _) => false
  end.

Definition health_url (ip : string) (port : Z) : string :=
  "http://" +:+ ip +:+ ":" +:+ PyStr.of_int port +:+ "/minio/health/live".

(** The outcome of one liveness probe. *)
Definition probe (env : Env) (ip : string) (port : Z) : bool :=
  match http_get env (health_url ip port) with
  | Some status_code => Z.eqb status_code 200
  | None => false
  end.

(** The ledger answers: the session opens and the first query runs. *)
Definition ledger_up (env : Env) : Prop :=
  connect_fails env = false /\ query_error env 0 = None.

Definition registered_response (env : Env) (name ip : string) : json :=
  JDict
    [("status", JStr "registered");
     ("node", JStr name);
     ("health", JDict [("instance_a", JBool (probe env ip 9001));
                       ("instance_b", JBool (probe env ip 9003))]);
     ("monitoring", JDict [("minio", JStr "enabled");
                           ("node", JStr "enabled")])].

(** The files after a registration. *)
Definition register_files (env : Env) (name ip : string) (node_port : Z)
    (fs : gmap string file_content) : gmap string file_content :=
  apply_update env TARGETS_NODE_FILE name (Some (node_target name ip node_port))
    (apply_update env TARGETS_MINIO_FILE name (Some (minio_target name ip)) fs).

(** The file system answers on both target files. *)
Definition feed_up (env : Env) : Prop :=
  io_fault env TARGETS_MINIO_FILE = false
  /\ io_fault env TARGETS_NODE_FILE = false.

(** The helper can work on the store: the decoder gets through it, and
    every entry of the collection can be inspected. *)
Definition inspectable (fs : gmap string file_content) (path : string) : bool :=
  decodable (fs !! path) && forallb entry_wellformed (collection fs path).

(** The helper can work on both target stores. *)
Definition feeds_wellformed (fs : gmap string file_content) : Prop :=
  inspectable fs TARGETS_MINIO_FILE = true
  /\ inspectable fs TARGETS_NODE_FILE = true.

(** The command line can be handed to the shell. *)
Definition startable (cmd : string) : bool := negb (PyStr.contains NUL cmd).

(** The join command ran, and it succeeded or failed with a message that
    says "already". *)
Definition join_accepted (env : Env) (alias_list : list string) : bool :=
  let res := shell env (join_cmd alias_list) in
  startable (join_cmd alias_list)
  && (Z.eqb (returncode res) 0
      || PyStr.contains "already" (PyStr.lower (stderr res))).

Definition cluster_response (name : string) (alias_list : list string)
    (alias_map : list (string * string)) : json :=
  JDict
    [("status", JStr "success");
     ("cluster", JStr name);
     ("members", JList (map JStr alias_list));
     ("resolved_ips",
       JDict (map (fun kv => (fst kv, JStr (snd kv))) alias_map))].

(** The ledger after the guarded ledger step of a cluster formation. *)
Definition cluster_ledger (env : Env) (name : string)
    (found_ips : list string) (L : Ledger) : Ledger :=
  if connect_fails env then L
  else
    match query_error env 0 with
    | Some _ => L
    | None =>
        let L1 := Cypher.merge_cluster name (now env) L in
        match found_ips with
        | [] => L1
        | _ =>
            match query_error env 1 with
            | Some _ => L1
            | None => Cypher.link_members name found_ips L1
            end
        end
    end.

(** ** Sample worlds and environments *)

Module Sample.

Definition newline : string := String "010" EmptyString.

(** Two lines of an alias listing (the quotes of the JSON text left out). *)
Definition line_a : string := "{alias: a, URL: http://10.0.0.1:9000}".
Definition line_b : string := "{alias: b, URL: http://10.0.0.2:9000}".

(** A decoder that knows these two lines and rejects everything else. *)
Definition loads (line : string) : option json :=
  if String.eqb line line_a
  then Some (JDict [("alias", JStr "a"); ("URL", JStr "http://10.0.0.1:9000")])
  else if String.eqb line line_b
  then Some (JDict [("alias", JStr "b"); ("URL", JStr "http://10.0.0.2:9000")])
  else None.

Definition http_str (code : Z) (detail : string) : string :=
  PyStr.of_int code +:+ ": " +:+ detail.

(** Every instance answers. *)
Definition all_alive (url : string) : option Z := Some 200.

(** Nothing answers. *)
Definition none_alive (url : string) : option Z := None.

Definition shell_with (join : CompletedProcess) (cmd : string) : CompletedProcess :=
  if String.eqb cmd "mc alias list --json"
  then mkProc 0 (line_a +:+ newline +:+ line_b +:+ newline) EmptyString
  else if String.eqb cmd "mc admin replicate add a b" then join
  else mkProc 0 EmptyString EmptyString.

Definition join_ok : CompletedProcess := mkProc 0 EmptyString EmptyString.
Definition join_already : CompletedProcess :=
  mkProc 1 EmptyString "mc: <ERROR> Unable to add sites. Site replication is Already configured".

Definition no_query_error (k : nat) : option string := None.
Definition no_io_fault (path : string) : bool := false.

Definition env_up : Env :=
  mkEnv all_alive (shell_with join_ok) false no_query_error no_io_fault 1000.
Definition env_later : Env :=
  mkEnv none_alive (shell_with join_already) false no_query_error no_io_fault 2000.
Definition env_down : Env :=
  mkEnv all_alive (shell_with join_ok) true no_query_error no_io_fault 2000.

Definition w_empty : World := mkWorld empty_ledger ∅ [].

(** Two registered nodes already joined in the cluster "prod". *)
Definition w_prod : World :=
  mkWorld
    (mkLedger
       [mkNode 0 "10.0.0.1" "A" "active" 50; mkNode 1 "10.0.0.2" "B" "active" 60]
       [mkCluster 2 "prod" 100]
       [(0, 2); (1, 2)]%nat
       3)
    ∅ [].

(** A target file that holds a JSON object instead of a list. *)
Definition w_object : World :=
  mkWorld empty_ledger
    {[ TARGETS_MINIO_FILE := Document (JDict [("note", JStr "not a list")]) ]} [].

(** A target file that holds one integer literal, longer than the
    interpreter converts. *)
Definition w_digits : World :=
  mkWorld empty_ledger {[ TARGETS_MINIO_FILE := Excessive false ]} [].

(** A storage feed whose only entry is a number. *)
Definition w_seven : World :=
  mkWorld empty_ledger {[ TARGETS_MINIO_FILE := Document (JList [JInt 7]) ]} [].

End Sample.

(** ** The remaining endpoints *)

(** The read queries and the cluster removal.  The graph store promises
    no order for the rows of a query; here they come in the order the
    ledger keeps its records and edges. *)
Module CypherMore.

(** The node records a [MEMBER_OF] edge into [c] starts from, edge by
    edge. *)
Definition members_of (L : Ledger) (c : ClusterRec) : list NodeRec :=
  e ← List.filter (fun e => Nat.eqb (snd e) (cluster_id c)) (member_of L);
  List.filter (fun n => Nat.eqb (node_id n) (fst e)) (nodes L).

Definition key_eqb (a b : string * Z) : bool :=
  String.eqb (fst a) (fst b) && Z.eqb (snd a) (snd b).

(** One more row for the aggregation: [collect(n)] gathers the members per
    value of the other two returned columns. *)
Fixpoint group_add (key : string * Z) (ms : list NodeRec)
    (groups : list ((string * Z) * list NodeRec))
  : list ((string * Z) * list NodeRec) :=
  match groups with
  | [] => [(key, ms)]
  | (k, ms0) :: rest =>
      if key_eqb k key then (k, ms0 ++ ms) :: rest
      else (k, ms0) :: group_add key ms rest
  end.

(** [MATCH (c:MinIOCluster)
     OPTIONAL MATCH (n:MinIONode)-[:MEMBER_OF]->(c)
     RETURN c.name AS cluster_name, c.created_at AS created_at,
            collect(n) AS members] *)
Definition cluster_rows (L : Ledger) : list ((string * Z) * list NodeRec) :=
  fold_left
    (fun groups c =>
       group_add (cluster_name c, cluster_created_at c) (members_of L c) groups)
    (clusters L) [].

(** [MATCH (c:MinIOCluster {name: $name}) RETURN c] *)
Definition match_cluster (name : string) (L : Ledger) : list ClusterRec :=
  List.filter (Cypher.is_cluster name) (clusters L).

(** [MATCH (c:MinIOCluster {name: $name})<-[:MEMBER_OF]-(n:MinIONode)
     RETURN n.ip as ip] *)
Definition member_ips (name : string) (L : Ledger) : list string :=
  c ← List.filter (Cypher.is_cluster name) (clusters L);
  map node_ip (members_of L c).

(** [MATCH (c:MinIOCluster {name: $name}) DETACH DELETE c] *)
Definition delete_cluster (name : string) (L : Ledger) : Ledger :=
  let ids := map cluster_id (List.filter (Cypher.is_cluster name) (clusters L)) in
  mkLedger
    (nodes L)
    (List.filter (fun c => negb (Cypher.is_cluster name c)) (clusters L))
    (List.filter (fun e => negb (existsb (Nat.eqb (snd e)) ids)) (member_of L))
    (next_id L).

End CypherMore.

Section OtherEndpoints.

Variable json_loads : string -> option json.

(** The exception [json.loads] raises on a text it does not decode: a
    [JSONDecodeError] for a text that is not JSON, an error of another
    class for one beyond the limits of the interpreter. *)
Variable json_loads_error : string -> err_kind * string.

Variable http_exception_str : Z -> string -> string.

(** [str(v)] for a decoded value that is not a string. *)
Variable py_str : json -> string.

(** [f"{v}"] *)
Definition format_value (v : json) : string :=
  match v with
  | JStr s => s
  | _ => py_str v
  end.

Definition health_check : M json :=
  ret (JDict [("status", JStr "BloomNet Kernel V2 Online");
              ("version", JStr "2.2")]).

Definition health_check_node (env : Env) (ip : string) (port : Z) : M json :=
  let! is_alive := check_minio_health env ip port in
  if is_alive
  then ret (JDict [("status", JStr "online");
                   ("target", JStr (ip +:+ ":" +:+ PyStr.of_int port))])
  else raise (HTTPException 503
                ("Node " +:+ ip +:+ ":" +:+ PyStr.of_int port +:+ " is unreachable")).

Definition MATCH_NODES : string :=
  "MATCH (n:MinIONode) RETURN n.name AS name, n.ip AS ip, n.status AS status".

(** One element of the node listing. *)
Definition node_entry (n : NodeRec) : json :=
  let ip := node_ip n in
  JDict
    [("name", JStr (node_name n));
     ("ip", JStr ip);
     ("status", JStr (node_status n));
     ("instances",
       JList
         [JDict [("type", JStr "Instance A"); ("port", JInt 9001);
                 ("api", JStr ("http://" +:+ ip +:+ ":9001"));
                 ("console", JStr ("http://" +:+ ip +:+ ":9002"))];
          JDict [("type", JStr "Instance B"); ("port", JInt 9003);
                 ("api", JStr ("http://" +:+ ip +:+ ":9003"));
                 ("console", JStr ("http://" +:+ ip +:+ ":9004"))]])].

Definition get_nodes (env : Env) : M json :=
  try_except
    (let! _ := get_db_session env in
     let! result := session_run env 0 MATCH_NODES (fun L => (nodes L, L)) in
     ret (JList (map node_entry result)))
    (fun e =>
       raise (HTTPException 500
                ("Database Query Failed: " +:+ str_exn http_exception_str e))).

Definition MATCH_CLUSTERS : string :=
  "MATCH (c:MinIOCluster) OPTIONAL MATCH (n:MinIONode)-[:MEMBER_OF]->(c) RETURN c.name AS cluster_name, c.created_at AS created_at, collect(n) AS members".

(** One element of a cluster's member list. *)
Definition member_entry (n : NodeRec) : json :=
  JDict [("name", JStr (node_name n));
         ("ip", JStr (node_ip n));
         ("status", JStr (node_status n))].

(** One element of the cluster listing.  Every record of this ledger
    carries properties, so the test [if node] keeps all collected
    members. *)
Definition cluster_entry (row : (string * Z) * list NodeRec) : json :=
  let members := map member_entry (snd row) in
  JDict
    [("name", JStr (fst (fst row)));
     ("created_at", JInt (snd (fst row)));
     ("node_count", JInt (Z.of_nat (length members)));
     ("nodes", JList members)].

Definition get_clusters (env : Env) : M json :=
  try_except
    (let! _ := get_db_session env in
     let! result := session_run env 0 MATCH_CLUSTERS
                      (fun L => (CypherMore.cluster_rows L, L)) in
     ret (JList (map cluster_entry result)))
    (fun e =>
       raise (HTTPException 500
                ("Database Query Failed: " +:+ str_exn http_exception_str e))).

Definition create_alias (env : Env) (alias ip : string) (port : Z)
    (user password : string) : M json :=
  let cmd := "mc alias set " +:+ alias +:+ " http://" +:+ ip +:+ ":"
             +:+ PyStr.of_int port +:+ " " +:+ user +:+ " " +:+ password in
  let! process := subprocess_run env cmd in
  if negb (Z.eqb (returncode process) 0)
  then raise (HTTPException 500
                ("Failed to set alias. Error: " +:+ stderr process))
  else
    ret (JDict
           [("status", JStr "success");
            ("alias", JStr alias);
            ("target", JStr ("http://" +:+ ip +:+ ":" +:+ PyStr.of_int port));
            ("message", JStr "Alias configured successfully")]).

(** [json.loads(line)] with the exception it raises. *)
Definition loads_line (line : string) : M json :=
  match json_loads line with
  | Some v => ret v
  | None => raise (PyError (fst (json_loads_error line)) (snd (json_loads_error line)))
  end.

(** The loop over the lines of the listing: a line the decoder rejects
    with a [JSONDecodeError] is passed over; any other error of the
    decoder leaves the loop. *)
Fixpoint decode_lines (lines : list string) (aliases : list json) : M (list json) :=
  match lines with
  | [] => ret aliases
  | line :: rest =>
      let! aliases :=
        try_except_kind JSONDecodeError
          (let! v := loads_line line in ret (aliases ++ [v]))
          (ret aliases) in
      decode_lines rest aliases
  end.

Definition list_aliases (env : Env) : M json :=
  let! process := subprocess_run env "mc alias list --json" in
  if negb (Z.eqb (returncode process) 0)
  then raise (HTTPException 500
                ("Failed to list aliases. Error: " +:+ stderr process))
  else
    let raw_output := PyStr.strip (stdout process) in
    let! aliases :=
      if negb (String.eqb raw_output EmptyString)
      then decode_lines (PyStr.split (String "010" EmptyString) raw_output) []
      else ret [] in
    ret (JDict [("count", JInt (Z.of_nat (length aliases)));
                ("aliases", JList aliases)]).

Definition remove_alias (env : Env) (alias : string) : M json :=
  let! process := subprocess_run env ("mc alias remove " +:+ alias) in
  if negb (Z.eqb (returncode process) 0)
  then raise (HTTPException 500
                ("Failed to remove alias '" +:+ alias +:+ "'. Error: "
                 +:+ stderr process))
  else
    ret (JDict
           [("status", JStr "success");
            ("alias", JStr alias);
            ("message", JStr "Alias removed successfully")]).

Definition MATCH_CLUSTER : string :=
  "MATCH (c:MinIOCluster {name: $name}) RETURN c".
Definition MATCH_MEMBER_IPS : string :=
  "MATCH (c:MinIOCluster {name: $name})<-[:MEMBER_OF]-(n:MinIONode) RETURN n.ip as ip".
Definition DELETE_CLUSTER : string :=
  "MATCH (c:MinIOCluster {name: $name}) DETACH DELETE c".

(** The body of the loop that builds the address-to-alias map of a
    dismantling; whatever is raised inside is dropped by the bare
    [except]. *)
Definition reverse_line (alias_map : list (string * json)) (line : string)
  : list (string * json) :=
  match json_loads line with
  | Some (JDict data) =>
      let alias := Py.get "alias" data in
      let url := Py.or_else (Py.get_or "URL" (JStr EmptyString) data)
                            (Py.get_or "url" (JStr EmptyString) data) in
      if Py.truthy url
      then
        match url with
        | JStr u => Py.dict_set (ip_part u) alias alias_map
        | _ => alias_map
        end
      else alias_map
  | _ => alias_map
  end.

Definition reverse_aliases (env : Env) : M (list (string * json)) :=
  try_except
    (let! proc := subprocess_run env "mc alias list --json" in
     ret (if Z.eqb (returncode proc) 0
          then fold_left reverse_line
                 (PyStr.split (String "010" EmptyString) (PyStr.strip (stdout proc))) []
          else []))
    (fun _ => ret []).

(** The loop over the member addresses of a dismantling; the log lines
    are collected in order. *)
Fixpoint reset_members (env : Env) (alias_map : list (string * json))
    (cluster_ips : list string) : M (list string) :=
  match cluster_ips with
  | [] => ret []
  | ip :: rest =>
      let alias := match Py.dict_lookup ip alias_map with
                   | Some v => v
                   | None => JNull
                   end in
      let! line :=
        (if Py.truthy alias
         then
           let! proc := subprocess_run env
                          ("mc admin replicate rm --all --force "
                           +:+ format_value alias) in
           ret ("Reset alias '" +:+ format_value alias +:+ "' (IP " +:+ ip
                +:+ "): Return Code " +:+ PyStr.of_int (returncode proc))
         else
           ret ("Warning: No local alias found for IP " +:+ ip
                +:+ ". Valid manual reset required.")) in
      let! logs := reset_members env alias_map rest in
      ret (line :: logs)
  end.

(** The handler opens two sessions; [connect_fails] speaks for the whole
    request, so the second opens whenever the first did, and the last
    query can still fail on its own ([query_error env 2]). *)
Definition delete_cluster (env : Env) (name : string) : M json :=
  let! cluster_ips :=
    try_except
      (let! _ := get_db_session env in
       let! check := session_run env 0 MATCH_CLUSTER
                       (fun L => (CypherMore.match_cluster name L, L)) in
       match check with
       | [] => raise (HTTPException 404 ("Cluster '" +:+ name +:+ "' not found."))
       | _ :: _ =>
           session_run env 1 MATCH_MEMBER_IPS
             (fun L => (CypherMore.member_ips name L, L))
       end)
      (fun e =>
         match e with
         | HTTPException _ _ => raise e
         | _ => raise (HTTPException 500
                         ("Database Query Failed: "
                          +:+ str_exn http_exception_str e))
         end) in
  let! alias_map := reverse_aliases env in
  let! logs := reset_members env alias_map cluster_ips in
  let! _ :=
    try_except
      (let! _ := get_db_session env in
       session_run env 2 DELETE_CLUSTER
         (fun L => (tt, CypherMore.delete_cluster name L)))
      (fun _ => ret tt) in
  ret (JDict
         [("status", JStr "deleted");
          ("cluster", JStr name);
          ("member_count", JInt (Z.of_nat (length cluster_ips)));
          ("logs", JList (map JStr logs))]).

Definition wipe_alias (env : Env) (alias : string) : M json :=
  let! logs :=
    try_except
      (let! proc_wipe := subprocess_run env
                           ("mc rb --force --dangerous " +:+ alias) in
       if Z.eqb (returncode proc_wipe) 0
       then ret ["Success: " +:+ PyStr.strip (stdout proc_wipe)]
       else
         let logs := ["Result: " +:+ PyStr.strip (stdout proc_wipe) +:+ " "
                      +:+ PyStr.strip (stderr proc_wipe)] in
         if negb (Z.eqb (returncode proc_wipe) 0)
            && negb (PyStr.contains "does not exist" (stderr proc_wipe))
         then raise (HTTPException 500
                       ("Wipe failed: " +:+ stderr proc_wipe))
         else ret logs)
      (fun e =>
         raise (HTTPException 500
                  ("Wipe failed: " +:+ str_exn http_exception_str e))) in
  ret (JDict
         [("status", JStr "wiped");
          ("alias", JStr alias);
          ("logs", JList (map JStr logs))]).

(** Every endpoint of the service. *)
Inductive call : Type :=
| CallHealth
| CallProbe (ip : string) (port : Z)
| CallNodes
| CallClusters
| CallDeregister (name : string)
| CallRegister (name ip : string) (node_port : Z)
| CallSetAlias (alias ip : string) (port : Z) (user password : string)
| CallListAliases
| CallRemoveAlias (alias : string)
| CallFormCluster (name aliases : string)
| CallDismantle (name : string)
| CallWipe (alias : string).

Definition serve (env : Env) (c : call) : M json :=
  match c with
  | CallHealth => health_check
  | CallProbe ip port => health_check_node env ip port
  | CallNodes => get_nodes env
  | CallClusters => get_clusters env
  | CallDeregister name => delete_node http_exception_str env name
  | CallRegister name ip node_port =>
      register_node http_exception_str env name ip node_port
  | CallSetAlias alias ip port user password =>
      create_alias env alias ip port user password
  | CallListAliases => list_aliases env
  | CallRemoveAlias alias => remove_alias env alias
  | CallFormCluster name aliases => create_cluster json_loads env name aliases
  | CallDismantle name => delete_cluster env name
  | CallWipe alias => wipe_alias env alias
  end.

(** The worlds the whole service can be in, starting from an empty
    ledger. *)
Inductive served : World -> Prop :=
| served_start fs tr : served (mkWorld empty_ledger fs tr)
| served_step env c w : served w -> served (snd (serve env c w)).

End OtherEndpoints.

(** ** Further vocabulary and samples *)

(** Every node record carries one of the two statuses a registration
    writes. *)
Definition statuses_known (L : Ledger) : Prop :=
  forall n, List.In n (nodes L) ->
            node_status n = "active" \/ node_status n = "degraded".

(** The cluster records kept under one name. *)
Definition named (name : string) (L : Ledger) : list ClusterRec :=
  List.filter (Cypher.is_cluster name) (clusters L).

(** The ledger keeps at most one cluster record per name. *)
Definition unique_clusters (L : Ledger) : Prop :=
  forall name, (length (named name L) <= 1)%nat.

(** The ledger as one query of the service can leave it. *)
Inductive ledger_step : Ledger -> Ledger -> Prop :=
| step_same L : ledger_step L L
| step_merge_node ip name a b now L :
    ledger_step L (Cypher.merge_node ip name (node_status_of a b) now L)
| step_delete_node name L :
    ledger_step L (snd (Cypher.delete_node name L))
| step_merge_cluster name now L :
    ledger_step L (Cypher.merge_cluster name now L)
| step_link_members name ips L :
    ledger_step L (Cypher.link_members name ips L)
| step_delete_cluster name L :
    ledger_step L (CypherMore.delete_cluster name L)
| step_then L1 L2 L3 :
    ledger_step L1 L2 -> ledger_step L2 L3 -> ledger_step L1 L3.

(** The ledger queries all answer. *)
Definition ledger_all_up (env : Env) : Prop :=
  connect_fails env = false /\ forall k, query_error env k = None.

(** What [str(e)] gives for the failure of the first ledger step of a
    request. *)
Definition ledger_failure_text (http_exception_str : Z -> string -> string)
    (env : Env) : string :=
  if connect_fails env
  then http_exception_str 503 "Ledger is warming up, please wait."
  else match query_error env 0 with
       | Some msg => msg
       | None => EmptyString
       end.

(** The files after a removal. *)
Definition deregister_files (env : Env) (name : string)
    (fs : gmap string file_content) : gmap string file_content :=
  apply_update env TARGETS_NODE_FILE name None
    (apply_update env TARGETS_MINIO_FILE name None fs).

(** The pairs the linking query merges an edge for. *)
Definition link_rows (name : string) (ips : list string) (L : Ledger)
  : list (nat * nat) :=
  c ← List.filter (Cypher.is_cluster name) (clusters L);
  ip ← ips;
  n ← List.filter (Cypher.has_ip ip) (nodes L);
  [(node_id n, cluster_id c)].

(** The edge is among the edges. *)
Definition edge_in (e : nat * nat) (es : list (nat * nat)) : bool :=
  existsb (fun e' => Nat.eqb (fst e') (fst e) && Nat.eqb (snd e') (snd e)) es.

(** What [MERGE ... SET c.created_at] does to one cluster record. *)
Definition touch (name : string) (now : Z) (c : ClusterRec) : ClusterRec :=
  if Cypher.is_cluster name c
  then mkCluster (cluster_id c) (cluster_name c) now else c.

(** The address-to-alias map a dismantling builds from the listing. *)
Definition reversed (json_loads : string -> option json) (env : Env)
  : list (string * json) :=
  if Z.eqb (returncode (shell env LIST_CMD)) 0
  then fold_left (reverse_line json_loads)
         (PyStr.split (String "010" EmptyString)
            (PyStr.strip (stdout (shell env LIST_CMD)))) []
  else [].

(** Every alias of the map can go on a command line. *)
Definition aliases_startable (py_str : json -> string)
    (alias_map : list (string * json)) : bool :=
  forallb (fun kv => startable (reset_cmd (format_value py_str (snd kv))))
    alias_map.

(** The first line of a listing on which the decoder fails with an
    error that is not a [JSONDecodeError]. *)
Definition first_fatal (json_loads : string -> option json)
    (json_loads_error : string -> err_kind * string) (lines : list string)
  : option string :=
  List.find
    (fun line =>
       match json_loads line with
       | Some _ => false
       | None => negb (kind_eqb JSONDecodeError (fst (json_loads_error line)))
       end)
    lines.

(** What holds of an alias map while the listing is read. *)
Definition alias_map_ok (alias_list : list string) (m : list (string * string))
  : Prop :=
  List.NoDup (map fst m)
  /\ List.Forall
       (fun kv => List.In (fst kv) alias_list
                  /\ PyStr.contains ":" (snd kv) = false) m.

Module SampleMore.

Definition entry_a : json := JDict (minio_target "A" "10.0.0.1").
Definition entry_b : json := JDict (minio_target "B" "10.0.0.2").

(** The two registered nodes of [Sample.w_prod] with their storage
    targets in the feed. *)
Definition w_feed : World :=
  mkWorld (ledger Sample.w_prod)
    {[ TARGETS_MINIO_FILE := Document (JList [entry_a; entry_b]) ]} [].

Definition foreign_entries : list json := [JInt 7; entry_a].

(** A storage feed with a number among its entries. *)
Definition w_foreign : World :=
  mkWorld (ledger Sample.w_prod)
    {[ TARGETS_MINIO_FILE := Document (JList foreign_entries) ]} [].

(** A new storage target for alias A, and one for a third node C. *)
Definition moved_a : list (string * json) := minio_target "A" "10.0.0.9".
Definition target_c : list (string * json) := minio_target "C" "10.0.0.3".

Definition query_fails (k : nat) : option string := Some "connection reset".
Definition last_query_fails (k : nat) : option string :=
  if Nat.eqb k 2 then Some "connection reset" else None.
Definition io_down (path : string) : bool := true.

Definition env_query_fails : Env :=
  mkEnv Sample.all_alive (Sample.shell_with Sample.join_ok) false query_fails
    Sample.no_io_fault 3000.
Definition env_last_query_fails : Env :=
  mkEnv Sample.all_alive (Sample.shell_with Sample.join_ok) false
    last_query_fails Sample.no_io_fault 3000.
Definition env_io_down : Env :=
  mkEnv Sample.all_alive (Sample.shell_with Sample.join_ok) false
    Sample.no_query_error io_down 3000.

Definition py_str (v : json) : string := Py.type_name v.

(** A decoder whose every failure is a rejection of the text. *)
Definition loads_error (line : string) : err_kind * string :=
  (JSONDecodeError, "Expecting value").

(** A line that stands for an integer literal longer than the
    interpreter converts, and a decoder that gives up on it. *)
Definition line_digits : string := "99999999".
Definition loads_error_digits (line : string) : err_kind * string :=
  if String.eqb line line_digits
  then (ValueError, "Exceeds the limit for integer string conversion")
  else (JSONDecodeError, "Expecting value").

(** A listing with a line that is no JSON, the overlong literal, and an
    alias after it. *)
Definition shell_digits (cmd : string) : CompletedProcess :=
  mkProc 0
    (Sample.line_a +:+ Sample.newline +:+ "mc: note" +:+ Sample.newline
     +:+ line_digits +:+ Sample.newline +:+ Sample.line_b +:+ Sample.newline)
    EmptyString.
Definition env_digits : Env :=
  mkEnv Sample.all_alive shell_digits false Sample.no_query_error
    Sample.no_io_fault 3000.

(** A request string with a NUL character in its second alias. *)
Definition aliases_nul : string := "a, b" +:+ NUL.

(** The world after one registration on an empty ledger. *)
Definition w_served : World :=
  snd (serve Sample.loads loads_error Sample.http_str py_str Sample.env_up
         (CallRegister "A" "10.0.0.1" 9100) Sample.w_empty).

End SampleMore.

(** ** Checks of the string primitives *)

Example split_commas : PyStr.split "," "a, b,,c" = ["a"; " b"; EmptyString; "c"].
Proof. reflexivity. Qed.

Example split_scheme :
  PyStr.split "://" "http://10.0.0.1:9000" = ["http"; "10.0.0.1:9000"].
Proof. reflexivity. Qed.

Example strip_blank : PyStr.strip "  a b 	" = "a b".
Proof. reflexivity. Qed.

Example lower_mixed : PyStr.lower "Already Exists" = "already exists".
Proof. reflexivity. Qed.

Example of_int_port : PyStr.of_int 9100 = "9100".
Proof. reflexivity. Qed.

(** ** Facts about the ledger queries *)

Section LedgerFacts.

Import Cypher.

Lemma filter_map_commute {A : Type} (p : A -> bool) (f : A -> A) (l : list A) :
  (forall x, p (f x) = p x) ->
  List.filter p (map f l) = map f (List.filter p l).
Proof.
  intros Hp. induction l as [|x l IH]; simpl; [reflexivity|].
  rewrite Hp. destruct (p x); simpl; now rewrite IH.
Qed.

Lemma filter_none {A : Type} (p : A -> bool) (l : list A) :
  existsb p l = false -> List.filter p l = [].
Proof.
  induction l as [|x l IH]; simpl; [reflexivity|].
  destruct (p x); simpl; [discriminate|exact IH].
Qed.

Lemma filter_some {A : Type} (p : A -> bool) (l : list A) :
  existsb p l = true -> List.filter p l <> [].
Proof.
  induction l as [|x l IH]; simpl; [discriminate|].
  destruct (p x); simpl; [discriminate|exact IH].
Qed.

Lemma filter_all {A : Type} (p : A -> bool) (l : list A) :
  List.filter p l = [] -> List.filter (fun x => negb (p x)) l = l.
Proof.
  induction l as [|x l IH]; simpl; [reflexivity|].
  destruct (p x); simpl; [discriminate|]. intros H. now rewrite IH.
Qed.

Lemma has_ip_retarget ip' ip name status now n :
  has_ip ip' (retarget ip name status now n) = has_ip ip' n.
Proof. unfold retarget. destruct (has_ip ip n); reflexivity. Qed.

Lemma has_ip_eq ip n : has_ip ip n = true -> node_ip n = ip.
Proof. unfold has_ip. apply String.eqb_eq. Qed.

(** The two branches of [MERGE] on a node, seen from one address. *)
Lemma at_ip_merge_node_hit ip' ip name status now L :
  existsb (has_ip ip) (nodes L) = true ->
  at_ip ip' (merge_node ip name status now L)
  = map (retarget ip name status now) (at_ip ip' L).
Proof.
  intros Hex. unfold at_ip, merge_node. rewrite Hex. simpl.
  apply (filter_map_commute (has_ip ip') (retarget ip name status now)).
  intros n. apply has_ip_retarget.
Qed.

Lemma at_ip_merge_node_miss ip' ip name status now L :
  existsb (has_ip ip) (nodes L) = false ->
  at_ip ip' (merge_node ip name status now L)
  = at_ip ip' L ++
    (if String.eqb ip ip' then [mkNode (next_id L) ip name status now] else []).
Proof.
  intros Hex. unfold at_ip, merge_node. rewrite Hex. simpl.
  rewrite List.filter_app. simpl. unfold has_ip at 2. simpl.
  reflexivity.
Qed.

Lemma merge_node_unique ip name status now L :
  unique_ips L -> unique_ips (merge_node ip name status now L).
Proof.
  intros HL ip'.
  destruct (existsb (has_ip ip) (nodes L)) eqn:Hex.
  - rewrite at_ip_merge_node_hit by exact Hex.
    rewrite length_map. apply HL.
  - rewrite at_ip_merge_node_miss by exact Hex.
    rewrite length_app.
    destruct (String.eqb ip ip') eqn:E; simpl.
    + apply String.eqb_eq in E. subst ip'.
      unfold at_ip. rewrite (filter_none _ _ Hex). simpl. lia.
    + specialize (HL ip'). lia.
Qed.

(** After the upsert the address has exactly one record, and it carries
    the values of this registration. *)
Lemma merge_node_single ip name status now L :
  unique_ips L ->
  exists id,
    at_ip ip (merge_node ip name status now L) = [mkNode id ip name status now]
    /\ (forall n0, at_ip ip L = [n0] -> id = node_id n0)
    /\ (at_ip ip L = [] -> id = next_id L).
Proof.
  intros HL.
  destruct (existsb (has_ip ip) (nodes L)) eqn:Hex.
  - rewrite at_ip_merge_node_hit by exact Hex.
    pose proof (filter_some _ _ Hex) as Hne.
    specialize (HL ip). unfold at_ip in *.
    destruct (List.filter (has_ip ip) (nodes L)) as [|n0 [|n1 rest]] eqn:Hf;
      [congruence| |simpl in HL; lia].
    assert (Hin : List.In n0 (List.filter (has_ip ip) (nodes L)))
      by (rewrite Hf; left; reflexivity).
    apply List.filter_In in Hin. destruct Hin as [_ Hip].
    exists (node_id n0). simpl. unfold retarget. rewrite Hip.
    rewrite (has_ip_eq _ _ Hip).
    split; [reflexivity|]. split; [|discriminate].
    intros n0' Heq. now inversion Heq.
  - rewrite at_ip_merge_node_miss by exact Hex.
    unfold at_ip. rewrite (filter_none _ _ Hex). rewrite String.eqb_refl.
    exists (next_id L). simpl. split; [reflexivity|].
    split; [discriminate|reflexivity].
Qed.

Lemma merge_node_length_hit ip name status now L :
  at_ip ip L <> [] ->
  length (nodes (merge_node ip name status now L)) = length (nodes L).
Proof.
  intros Hne. unfold merge_node.
  destruct (existsb (has_ip ip) (nodes L)) eqn:Hex; simpl.
  - apply length_map.
  - exfalso. apply Hne. apply filter_none. exact Hex.
Qed.

(** Records at other addresses are left as they are. *)
Lemma merge_node_other ip' ip name status now L :
  ip' <> ip ->
  at_ip ip' (merge_node ip name status now L) = at_ip ip' L.
Proof.
  intros Hne.
  destruct (existsb (has_ip ip) (nodes L)) eqn:Hex.
  - rewrite at_ip_merge_node_hit by exact Hex.
    unfold at_ip.
    rewrite (List.map_ext_in (retarget ip name status now) id);
      [apply List.map_id|].
    intros a Ha. apply List.filter_In in Ha. destruct Ha as [_ Ha].
    unfold retarget, id.
    destruct (has_ip ip a) eqn:E; [|reflexivity].
    apply has_ip_eq in Ha. apply has_ip_eq in E. congruence.
  - rewrite at_ip_merge_node_miss by exact Hex.
    destruct (String.eqb ip ip') eqn:E.
    + apply String.eqb_eq in E. congruence.
    + apply List.app_nil_r.
Qed.

Lemma delete_node_unique name L :
  unique_ips L -> unique_ips (snd (delete_node name L)).
Proof.
  intros HL ip. specialize (HL ip). unfold at_ip in *. simpl.
  assert (H : forall l : list NodeRec,
             (length (List.filter (has_ip ip)
                        (List.filter (fun n => negb (has_name name n)) l))
              <= length (List.filter (has_ip ip) l))%nat).
  { induction l as [|n l IH]; simpl; [lia|].
    destruct (has_name name n); simpl; destruct (has_ip ip n); simpl; lia. }
  specialize (H (nodes L)). lia.
Qed.

(** Deleting a name no record carries changes nothing and counts zero. *)
Lemma delete_node_absent name L :
  existsb (has_name name) (nodes L) = false ->
  delete_node name L = (0%nat, L).
Proof.
  intros Hex. unfold delete_node.
  rewrite (filter_none _ _ Hex). simpl.
  rewrite (filter_all (has_name name) (nodes L)) by (apply filter_none; exact Hex).
  rewrite (List.forallb_filter_id (fun _ => true)).
  - destruct L; reflexivity.
  - apply List.forallb_forall. reflexivity.
Qed.

Lemma merge_cluster_nodes name now L :
  nodes (merge_cluster name now L) = nodes L.
Proof. unfold merge_cluster. destruct (existsb _ _); reflexivity. Qed.

Lemma link_members_nodes name ips L :
  nodes (link_members name ips L) = nodes L.
Proof. reflexivity. Qed.

Lemma link_members_clusters name ips L :
  clusters (link_members name ips L) = clusters L.
Proof. reflexivity. Qed.

(** Every cluster record with the merged name carries the time of the
    merge. *)
Lemma merge_cluster_created_at name now L c :
  List.In c (clusters (merge_cluster name now L)) ->
  is_cluster name c = true ->
  cluster_created_at c = now.
Proof.
  unfold merge_cluster.
  destruct (existsb (is_cluster name) (clusters L)) eqn:Hex; simpl.
  - intros Hin Hc. apply List.in_map_iff in Hin.
    destruct Hin as [c0 [Heq Hin]].
    destruct (is_cluster name c0) eqn:E; subst c; [reflexivity|].
    congruence.
  - intros Hin Hc. apply List.in_app_iff in Hin. destruct Hin as [Hin|Hin].
    + assert (existsb (is_cluster name) (clusters L) = true)
        by (apply List.existsb_exists; exists c; auto).
      congruence.
    + simpl in Hin. destruct Hin as [<-|[]]. reflexivity.
Qed.

End LedgerFacts.

(** ** Facts about the target-file helper *)

(** Closes a goal that asks for the events a run has added to the trace. *)
Ltac close_trace :=
  eexists; rewrite <- ?List.app_assoc; reflexivity.

Section TargetFacts.

Lemma entry_alias_other alias t a :
  entry_alias t = inr a -> Py.ne_str a alias = other alias t.
Proof.
  unfold entry_alias, other, labelled, Py.get, Py.get_or.
  destruct t as [| | | | |l|d]; try discriminate.
  destruct (Py.dict_lookup "labels" d) as [[| | | | |l|labels]|];
    try discriminate.
  - intros [= <-].
    destruct (Py.dict_lookup "alias" labels) as [[]|]; reflexivity.
  - intros [= <-]. reflexivity.
Qed.


Lemma entry_alias_wellformed t :
  entry_wellformed t = true -> exists a, entry_alias t = inr a.
Proof.
  unfold entry_wellformed, entry_alias, Py.get_or.
  destruct t as [| | | | |l|d]; try discriminate.
  destruct (Py.dict_lookup "labels" d) as [[| | | | |l|labels]|];
    try discriminate; intros _; eexists; reflexivity.
Qed.

Lemma drop_alias_wellformed alias data :
  forallb entry_wellformed data = true ->
  drop_alias alias data = inr (List.filter (other alias) data).
Proof.
  induction data as [|t rest IH]; simpl; [reflexivity|].
  intros H. apply andb_prop in H. destruct H as [Ht Hrest].
  destruct (entry_alias_wellformed t Ht) as [a Ea]. rewrite Ea.
  rewrite (IH Hrest). rewrite (entry_alias_other alias t a Ea). reflexivity.
Qed.

Lemma filter_other_idem alias (l : list json) :
  List.filter (other alias) (List.filter (other alias) l)
  = List.filter (other alias) l.
Proof.
  induction l as [|t l IH]; simpl; [reflexivity|].
  destruct (other alias t) eqn:E; simpl; [rewrite E, IH|]; auto.
Qed.

Lemma filter_labelled_other alias (l : list json) :
  List.filter (labelled alias) (List.filter (other alias) l) = [].
Proof.
  induction l as [|t l IH]; simpl; [reflexivity|]. unfold other at 1.
  destruct (labelled alias t) eqn:E; simpl; [|rewrite E]; auto.
Qed.

Lemma forallb_wellformed_filter (p : json -> bool) (l : list json) :
  forallb entry_wellformed l = true ->
  forallb entry_wellformed (List.filter p l) = true.
Proof.
  induction l as [|t l IH]; simpl; [reflexivity|].
  intros H. apply andb_prop in H. destruct H as [Ht Hl].
  destruct (p t); simpl; [rewrite Ht|]; auto.
Qed.

(** The helper as a function on the world: it never raises, it leaves
    the ledger and every other file alone, and it either writes
    [update_outcome] to the store or leaves the store as it was. *)
Lemma update_target_file_run env path alias new_target w :
  exists tr,
    update_target_file env path alias new_target w
    = (inr tt,
       mkWorld (ledger w)
         (apply_update env path alias new_target (files w))
         (trace w ++ tr)).
Proof.
  unfold update_target_file, apply_update, update_outcome, collection, try_except,
    try_except_kind, try_except, bind, path_exists, open_read, write_json,
    json_load, lift, emit, ret, raise, bind.
  destruct w as [L fs tr0]. simpl.
  destruct (fs !! path) as [c|] eqn:Hf; simpl;
    (destruct (io_fault env path) eqn:Hio; simpl;
     [exists []; now rewrite List.app_nil_r|]).
  - rewrite Hf.
    destruct c as [| |j|[]]; simpl; try close_trace.
    destruct j as [| | | | |l|d]; simpl; try close_trace.
    destruct (drop_alias alias l) as [e|kept]; simpl; [close_trace|].
    destruct new_target as [[|kv t]|]; simpl; rewrite ?List.app_nil_r;
      close_trace.
  - close_trace.
Qed.

Lemma update_target_file_never_raises env path alias new_target w :
  fst (update_target_file env path alias new_target w) = inr tt.
Proof.
  destruct (update_target_file_run env path alias new_target w) as [tr ->].
  reflexivity.
Qed.

Lemma collection_insert fs path data :
  collection (<[path := Document (JList data)]> fs) path = data.
Proof. unfold collection. now rewrite lookup_insert_eq. Qed.

Lemma collection_insert_ne fs path p c :
  p <> path -> collection (<[path := c]> fs) p = collection fs p.
Proof. intros H. unfold collection. now rewrite lookup_insert_ne. Qed.

Lemma apply_update_other env path alias new_target fs p :
  p <> path -> apply_update env path alias new_target fs !! p = fs !! p.
Proof.
  intros H. unfold apply_update.
  destruct (update_outcome env path alias new_target fs); [|reflexivity].
  now rewrite lookup_insert_ne.
Qed.

Lemma collection_apply_update_other env path alias new_target fs p :
  p <> path ->
  collection (apply_update env path alias new_target fs) p = collection fs p.
Proof.
  intros H. unfold collection. now rewrite apply_update_other.
Qed.

(** On a store whose entries can all be inspected, and with the file
    system answering, the helper writes the other aliases' entries
    followed by the new one. *)
Lemma collection_apply_update env path alias new_target fs :
  io_fault env path = false ->
  inspectable fs path = true ->
  collection (apply_update env path alias new_target fs) path
  = List.filter (other alias) (collection fs path) ++ appended new_target.
Proof.
  intros Hio Hwf. apply andb_prop in Hwf. destruct Hwf as [Hdec Hwf].
  unfold apply_update, update_outcome. rewrite Hio, Hdec. cbn [negb].
  rewrite (drop_alias_wellformed alias _ Hwf).
  apply collection_insert.
Qed.

(** A store the decoder gives up on is left as it is. *)
Lemma apply_update_undecodable env path alias new_target fs :
  decodable (fs !! path) = false ->
  apply_update env path alias new_target fs = fs.
Proof.
  intros Hdec. unfold apply_update, update_outcome. rewrite Hdec.
  now destruct (io_fault env path).
Qed.

Lemma inspectable_insert fs path data :
  inspectable (<[path := Document (JList data)]> fs) path
  = forallb entry_wellformed data.
Proof.
  unfold inspectable. rewrite collection_insert, lookup_insert_eq. reflexivity.
Qed.

Lemma inspectable_apply_update_other env path alias new_target fs p :
  p <> path ->
  inspectable (apply_update env path alias new_target fs) p = inspectable fs p.
Proof.
  intros H. unfold inspectable.
  now rewrite apply_update_other, collection_apply_update_other.
Qed.

(** With an entry that can itself be inspected, the helper leaves a
    store it can work on as one it can work on. *)
Lemma inspectable_apply_update env path alias new_target fs :
  forallb entry_wellformed (appended new_target) = true ->
  inspectable fs path = true ->
  inspectable (apply_update env path alias new_target fs) path = true.
Proof.
  intros Hnew Hwf. unfold apply_update, update_outcome.
  destruct (io_fault env path); [exact Hwf|].
  pose proof Hwf as Hwf'. apply andb_prop in Hwf'. destruct Hwf' as [Hdec Hall].
  rewrite Hdec. cbn [negb].
  rewrite (drop_alias_wellformed alias _ Hall).
  rewrite inspectable_insert, List.forallb_app.
  now rewrite (forallb_wellformed_filter _ _ Hall), Hnew.
Qed.


(** C9, as the code has it.  The helper never raises, whatever the store
    holds and whatever the file system does.  With the file system
    answering, a store that is missing, empty, rejected by the decoder
    as malformed, or decoded to something that is not a list is read as
    the empty collection: the helper writes just what an upsert or a
    removal leaves of an empty collection, the same as it writes over a
    store holding the empty list.  A store on which the decoder fails
    with an error of another class is left as it is. *)
Theorem update_target_file_unusable_store
    env path alias new_target w :
  let run := update_target_file env path alias new_target in
  fst (run w) = inr tt
  /\ (io_fault env path = false ->
      unusable (files w !! path) = true ->
      files (snd (run w))
      = <[path := Document (JList (appended new_target))]> (files w)
      /\ files (snd (run w))
         = files (snd (run (mkWorld (ledger w)
                             (<[path := Document (JList [])]> (files w))
                             (trace w)))))
  /\ (decodable (files w !! path) = false ->
      files (snd (run w)) = files w).
Proof.
  cbv zeta.
  destruct (update_target_file_run env path alias new_target w) as [tr ->].
  destruct (update_target_file_run env path alias new_target
              (mkWorld (ledger w) (<[path := Document (JList [])]> (files w))
                 (trace w))) as [tr' ->].
  cbn [fst snd files]. split; [reflexivity|]. split.
  - intros Hio Hbad.
    assert (Hc : collection (files w) path = []).
    { unfold collection. unfold unusable in Hbad.
      destruct (files w !! path) as [[| |[]|]|]; try reflexivity; discriminate. }
    assert (Hdec : decodable (files w !! path) = true).
    { unfold unusable in Hbad.
      destruct (files w !! path) as [[| |[]|]|]; try reflexivity; discriminate. }
    unfold apply_update, update_outcome.
    rewrite Hio, Hdec, Hc, collection_insert, lookup_insert_eq.
    cbn [negb decodable drop_alias]. rewrite insert_insert_eq. auto.
  - apply apply_update_undecodable.
Qed.

End TargetFacts.

(** ** Running the handlers *)

Lemma bind_ok {A B : Type} (m : M A) (k : A -> M B) w x w' :
  m w = (inr x, w') -> bind m k w = k x w'.
Proof. intros H. unfold bind. now rewrite H. Qed.

Lemma bind_err {A B : Type} (m : M A) (k : A -> M B) w e w' :
  m w = (inl e, w') -> bind m k w = (inl e, w').
Proof. intros H. unfold bind. now rewrite H. Qed.

(** ** Commands the shell is handed *)

Lemma contains_char_cons c b s :
  PyStr.contains (String c EmptyString) (String b s)
  = Ascii.eqb c b || PyStr.contains (String c EmptyString) s.
Proof.
  cbn [PyStr.contains PyStr.starts_with]. destruct s; now rewrite andb_true_r.
Qed.

Lemma contains_char_app c s t :
  PyStr.contains (String c EmptyString) (s +:+ t)
  = PyStr.contains (String c EmptyString) s
    || PyStr.contains (String c EmptyString) t.
Proof.
  induction s as [|b s IH]; [reflexivity|].
  change (String b s +:+ t) with (String b (s +:+ t)).
  rewrite !contains_char_cons, IH. apply orb_assoc.
Qed.

Lemma startable_app s t : startable (s +:+ t) = startable s && startable t.
Proof.
  unfold startable, NUL. rewrite contains_char_app. apply negb_orb.
Qed.

Lemma startable_reset alias : startable (reset_cmd alias) = startable alias.
Proof. unfold reset_cmd. now rewrite startable_app. Qed.

Lemma startable_concat (l : list string) :
  startable (PyStr.join " " l) = forallb startable l.
Proof.
  unfold PyStr.join. induction l as [|a l IH]; [reflexivity|].
  destruct l as [|b l].
  - cbn [String.concat forallb]. now rewrite andb_true_r.
  - change (String.concat " " (a :: b :: l))
      with (a +:+ " " +:+ String.concat " " (b :: l)).
    rewrite !startable_app, IH. reflexivity.
Qed.

(** The join command can be started exactly when every reset command
    can: both hold the aliases and nothing else a request chooses. *)
Lemma startable_join (l : list string) :
  startable (join_cmd l) = forallb (fun a => startable (reset_cmd a)) l.
Proof.
  unfold join_cmd. rewrite startable_app, startable_concat.
  change (startable "mc admin replicate add ") with true. cbn [andb].
  induction l as [|a l IH]; [reflexivity|].
  cbn [forallb]. now rewrite startable_reset, IH.
Qed.

Lemma subprocess_run_started env cmd w :
  startable cmd = true ->
  subprocess_run env cmd w
  = (inr (shell env cmd),
     mkWorld (ledger w) (files w) (trace w ++ [EvShell cmd])).
Proof.
  unfold startable, subprocess_run. intros H. apply negb_true_iff in H.
  rewrite H. reflexivity.
Qed.

Lemma subprocess_run_refused env cmd w :
  startable cmd = false ->
  subprocess_run env cmd w = (inl (PyError ValueError "embedded null byte"), w).
Proof.
  unfold startable, subprocess_run. intros H. apply negb_false_iff in H.
  rewrite H. reflexivity.
Qed.

Lemma startable_list_cmd : startable LIST_CMD = true.
Proof. reflexivity. Qed.

#[local] Arguments update_target_file : simpl never.
#[local] Opaque Cypher.merge_node Cypher.delete_node Cypher.merge_cluster
  Cypher.link_members.

(** Replaces a run of the target-file helper in the goal by its outcome. *)
Ltac run_update :=
  match goal with
  | |- context [update_target_file ?e ?p ?a ?n ?w] =>
      let tr := fresh "tr" in
      destruct (update_target_file_run e p a n w) as [tr ->]; simpl
  end.

Section HandlerFacts.

Variable json_loads : string -> option json.
Variable http_exception_str : Z -> string -> string.

(** A registration with the ledger answering: it succeeds, upserts the
    node with the status derived from the two probes, and updates both
    target files. *)
Lemma register_node_run env name ip node_port w :
  ledger_up env ->
  exists tr,
    register_node http_exception_str env name ip node_port w
    = (inr (registered_response env name ip),
       mkWorld
         (Cypher.merge_node ip name
            (node_status_of (probe env ip 9001) (probe env ip 9003))
            (now env) (ledger w))
         (register_files env name ip node_port (files w))
         (trace w ++ tr)).
Proof.
  intros [Hc Hq]. destruct w as [L fs tr0].
  unfold register_node, check_minio_health, get_db_session, session_run,
    try_except, bind, emit, ret, raise. simpl.
  rewrite Hc, Hq. simpl.
  run_update. run_update.
  unfold registered_response, register_files, probe, health_url. simpl.
  close_trace.
Qed.

(** A registration with the ledger failing: status 500, and neither the
    ledger nor the target files change. *)
Lemma register_node_ledger_down env name ip node_port w :
  connect_fails env = true \/ query_error env 0 <> None ->
  exists detail tr,
    register_node http_exception_str env name ip node_port w
    = (inl (HTTPException 500 detail),
       mkWorld (ledger w) (files w) (trace w ++ tr)).
Proof.
  intros H. destruct w as [L fs tr0].
  unfold register_node, check_minio_health, get_db_session, session_run,
    try_except, bind, emit, ret, raise. simpl.
  destruct (connect_fails env) eqn:Hc; simpl.
  - eexists. close_trace.
  - destruct H as [H|H]; [discriminate|].
    destruct (query_error env 0) as [msg|]; [|congruence]. simpl.
    eexists. close_trace.
Qed.

Lemma merge_node_at_ip ip name status now L n :
  List.In n (at_ip ip (Cypher.merge_node ip name status now L)) ->
  node_name n = name /\ node_status n = status /\ node_last_seen n = now.
Proof.
  destruct (existsb (Cypher.has_ip ip) (nodes L)) eqn:Hex.
  - rewrite at_ip_merge_node_hit by exact Hex.
    intros Hin. apply List.in_map_iff in Hin. destruct Hin as [n0 [<- Hin]].
    unfold at_ip in Hin. apply List.filter_In in Hin. destruct Hin as [_ Hip].
    unfold retarget. rewrite Hip. auto.
  - rewrite at_ip_merge_node_miss by exact Hex.
    unfold at_ip. rewrite (filter_none _ _ Hex), String.eqb_refl. simpl.
    intros [<-|[]]. auto.
Qed.

Lemma merge_node_at_ip_nonempty ip name status now L :
  at_ip ip (Cypher.merge_node ip name status now L) <> [].
Proof.
  destruct (existsb (Cypher.has_ip ip) (nodes L)) eqn:Hex.
  - rewrite at_ip_merge_node_hit by exact Hex.
    pose proof (filter_some _ _ Hex) as Hne. unfold at_ip.
    destruct (List.filter (Cypher.has_ip ip) (nodes L)); [congruence|discriminate].
  - rewrite at_ip_merge_node_miss by exact Hex.
    rewrite String.eqb_refl. intros H. apply List.app_eq_nil in H.
    destruct H as [_ H]. discriminate.
Qed.

(** C4. With the ledger answering, a registration succeeds whatever the
    probes say, and every record it leaves at the address carries the
    status computed from the two probes: active exactly when both
    succeeded, degraded exactly when one of them failed, never
    offline. *)
Theorem register_node_status env name ip node_port w :
  ledger_up env ->
  let r := register_node http_exception_str env name ip node_port w in
  let a := probe env ip 9001 in
  let b := probe env ip 9003 in
  fst r = inr (registered_response env name ip)
  /\ at_ip ip (ledger (snd r)) <> []
  /\ forall n, List.In n (at_ip ip (ledger (snd r))) ->
       (node_status n = "active" <-> a = true /\ b = true)
       /\ (node_status n = "degraded" <-> a = false \/ b = false)
       /\ node_status n <> "offline".
Proof.
  intros Hup. cbv zeta.
  destruct (register_node_run env name ip node_port w Hup) as [tr ->].
  simpl. split; [reflexivity|]. split; [apply merge_node_at_ip_nonempty|].
  intros n Hin. apply merge_node_at_ip in Hin. destruct Hin as [_ [-> _]].
  unfold node_status_of.
  destruct (probe env ip 9001), (probe env ip 9003); simpl;
    (split; [|split]); try discriminate; split; intros H;
    try discriminate; try reflexivity; auto;
    try (destruct H; discriminate).
Qed.

(** C3. Two registrations at one address, each with the ledger
    answering, leave exactly one record for the address: the record the
    first one left is updated in place (same graph node) with the second
    name, status and time, and the ledger holds no more node records
    than before the second registration. *)
Theorem register_same_address_twice
    env1 env2 name1 name2 ip port1 port2 w :
  unique_ips (ledger w) ->
  ledger_up env1 ->
  ledger_up env2 ->
  let w1 := snd (register_node http_exception_str env1 name1 ip port1 w) in
  let w2 := snd (register_node http_exception_str env2 name2 ip port2 w1) in
  exists id,
    at_ip ip (ledger w1)
    = [mkNode id ip name1
         (node_status_of (probe env1 ip 9001) (probe env1 ip 9003)) (now env1)]
    /\ at_ip ip (ledger w2)
       = [mkNode id ip name2
            (node_status_of (probe env2 ip 9001) (probe env2 ip 9003)) (now env2)]
    /\ length (nodes (ledger w2)) = length (nodes (ledger w1)).
Proof.
  intros Huniq Hup1 Hup2. cbv zeta.
  destruct (register_node_run env1 name1 ip port1 w Hup1) as [tr1 ->].
  simpl.
  match goal with
  | |- context [register_node _ env2 name2 ip port2 ?w1] =>
      destruct (register_node_run env2 name2 ip port2 w1 Hup2) as [tr2 ->]
  end.
  simpl.
  set (st1 := node_status_of (probe env1 ip 9001) (probe env1 ip 9003)).
  set (st2 := node_status_of (probe env2 ip 9001) (probe env2 ip 9003)).
  destruct (merge_node_single ip name1 st1 (now env1) (ledger w) Huniq)
    as [id [H1 _]].
  pose proof (merge_node_unique ip name1 st1 (now env1) (ledger w) Huniq)
    as Huniq1.
  destruct (merge_node_single ip name2 st2 (now env2) _ Huniq1)
    as [id' [H2 [Hid _]]].
  specialize (Hid _ H1). simpl in Hid. subst id'.
  exists id. split; [exact H1|]. split; [exact H2|].
  apply merge_node_length_hit. rewrite H1. discriminate.
Qed.

Lemma length_append (s t : string) :
  String.length (s +:+ t) = (String.length s + String.length t)%nat.
Proof. induction s as [|c s IH]; simpl; [reflexivity|now rewrite IH]. Qed.

(** Two addresses followed by the same port suffix are the same address. *)
Lemma append_inj_l (s1 s2 t : string) : s1 +:+ t = s2 +:+ t -> s1 = s2.
Proof.
  revert s2. induction s1 as [|c s1 IH]; intros [|c2 s2] H.
  - reflexivity.
  - exfalso. apply (f_equal String.length) in H.
    rewrite !length_append in H. simpl in H. lia.
  - exfalso. apply (f_equal String.length) in H.
    rewrite !length_append in H. simpl in H. lia.
  - simpl in H. inversion H. f_equal. now apply IH.
Qed.

Lemma target_files_differ : TARGETS_NODE_FILE <> TARGETS_MINIO_FILE.
Proof. discriminate. Qed.

Lemma register_files_minio env name ip node_port fs :
  feed_up env -> feeds_wellformed fs ->
  collection (register_files env name ip node_port fs) TARGETS_MINIO_FILE
  = List.filter (other name) (collection fs TARGETS_MINIO_FILE)
    ++ [JDict (minio_target name ip)].
Proof.
  intros [Hm _] [Wm _]. unfold register_files.
  rewrite collection_apply_update_other
    by (intros E; symmetry in E; exact (target_files_differ E)).
  now rewrite collection_apply_update.
Qed.

Lemma register_files_node env name ip node_port fs :
  feed_up env -> feeds_wellformed fs ->
  collection (register_files env name ip node_port fs) TARGETS_NODE_FILE
  = List.filter (other name) (collection fs TARGETS_NODE_FILE)
    ++ [JDict (node_target name ip node_port)].
Proof.
  intros [_ Hn] [_ Wn]. unfold register_files.
  rewrite collection_apply_update.
  - rewrite collection_apply_update_other by exact target_files_differ.
    reflexivity.
  - exact Hn.
  - rewrite inspectable_apply_update_other by exact target_files_differ.
    exact Wn.
Qed.

Lemma register_files_wellformed env name ip node_port fs :
  feed_up env -> feeds_wellformed fs ->
  feeds_wellformed (register_files env name ip node_port fs).
Proof.
  intros Hup [Wm Wn]. unfold register_files. split.
  - rewrite inspectable_apply_update_other
      by (intros E; symmetry in E; exact (target_files_differ E)).
    now apply inspectable_apply_update.
  - apply inspectable_apply_update; [reflexivity|].
    now rewrite inspectable_apply_update_other by exact target_files_differ.
Qed.

Lemma labelled_minio_target name ip :
  labelled name (JDict (minio_target name ip)) = true.
Proof. simpl. apply String.eqb_refl. Qed.

Lemma labelled_node_target name ip node_port :
  labelled name (JDict (node_target name ip node_port)) = true.
Proof. simpl. apply String.eqb_refl. Qed.

(** C10, as the code has it.  Two registrations under one name at two
    different addresses, with the ledger answering: both report success
    and the ledger ends with one record per address, both carrying the
    name.  When the file system answers and the helper can work on both
    target stores, each target collection ends with a single entry
    labelled with the name, the one of the second registration; the
    storage targets of the first address are gone from the feed. *)
Theorem register_same_name_two_addresses
    env1 env2 name ip1 ip2 port1 port2 w :
  unique_ips (ledger w) ->
  ip1 <> ip2 ->
  ledger_up env1 -> ledger_up env2 ->
  let r1 := register_node http_exception_str env1 name ip1 port1 w in
  let r2 := register_node http_exception_str env2 name ip2 port2 (snd r1) in
  let w2 := snd r2 in
  fst r1 = inr (registered_response env1 name ip1)
  /\ fst r2 = inr (registered_response env2 name ip2)
  /\ (exists n1 n2,
         at_ip ip1 (ledger w2) = [n1] /\ at_ip ip2 (ledger w2) = [n2]
         /\ node_name n1 = name /\ node_name n2 = name
         /\ node_ip n1 = ip1 /\ node_ip n2 = ip2
         /\ n1 <> n2
         /\ List.In n1 (nodes (ledger w2)) /\ List.In n2 (nodes (ledger w2)))
  /\ (feed_up env1 -> feed_up env2 ->
      feeds_wellformed (files w) ->
      List.filter (labelled name) (collection (files w2) TARGETS_MINIO_FILE)
      = [JDict (minio_target name ip2)]
      /\ List.filter (labelled name) (collection (files w2) TARGETS_NODE_FILE)
         = [JDict (node_target name ip2 port2)]
      /\ ~ List.In (JDict (minio_target name ip1))
            (collection (files w2) TARGETS_MINIO_FILE)).
Proof.
  intros Huniq Hne Hup1 Hup2. cbv zeta.
  destruct (register_node_run env1 name ip1 port1 w Hup1) as [tr1 ->].
  simpl.
  match goal with
  | |- context [register_node _ env2 name ip2 port2 ?w1] =>
      destruct (register_node_run env2 name ip2 port2 w1 Hup2) as [tr2 ->]
  end.
  simpl.
  set (st1 := node_status_of (probe env1 ip1 9001) (probe env1 ip1 9003)).
  set (st2 := node_status_of (probe env2 ip2 9001) (probe env2 ip2 9003)).
  set (L1 := Cypher.merge_node ip1 name st1 (now env1) (ledger w)).
  set (L2 := Cypher.merge_node ip2 name st2 (now env2) L1).
  split; [reflexivity|]. split; [reflexivity|]. split.
  - destruct (merge_node_single ip1 name st1 (now env1) (ledger w) Huniq)
      as [id1 [H1 _]].
    pose proof (merge_node_unique ip1 name st1 (now env1) (ledger w) Huniq)
      as Huniq1.
    destruct (merge_node_single ip2 name st2 (now env2) L1 Huniq1)
      as [id2 [H2 _]].
    assert (H1' : at_ip ip1 L2 = [mkNode id1 ip1 name st1 (now env1)]).
    { unfold L2. rewrite merge_node_other by exact Hne. exact H1. }
    exists (mkNode id1 ip1 name st1 (now env1)),
           (mkNode id2 ip2 name st2 (now env2)).
    repeat split; try assumption; try reflexivity.
    + intros E. apply Hne. now inversion E.
    + assert (Hin : List.In (mkNode id1 ip1 name st1 (now env1)) (at_ip ip1 L2))
        by (rewrite H1'; left; reflexivity).
      unfold at_ip in Hin. apply List.filter_In in Hin. exact (proj1 Hin).
    + assert (Hin : List.In (mkNode id2 ip2 name st2 (now env2)) (at_ip ip2 L2))
        by (fold L2 in H2; rewrite H2; left; reflexivity).
      unfold at_ip in Hin. apply List.filter_In in Hin. exact (proj1 Hin).
  - intros Hf1 Hf2 Hwf.
    pose proof (register_files_wellformed env1 name ip1 port1 _ Hf1 Hwf) as Hwf1.
    assert (Hminio :
      List.filter (labelled name)
        (collection
           (register_files env2 name ip2 port2
              (register_files env1 name ip1 port1 (files w)))
           TARGETS_MINIO_FILE)
      = [JDict (minio_target name ip2)]).
    { rewrite register_files_minio by assumption.
      rewrite List.filter_app, filter_labelled_other. simpl.
      now rewrite String.eqb_refl. }
    split; [exact Hminio|]. split.
    + rewrite register_files_node by assumption.
      rewrite List.filter_app, filter_labelled_other. simpl.
      now rewrite String.eqb_refl.
    + intros Hin.
      assert (Hin' : List.In (JDict (minio_target name ip1))
                       [JDict (minio_target name ip2)]).
      { rewrite <- Hminio. apply List.filter_In. split; [exact Hin|].
        apply labelled_minio_target. }
      destruct Hin' as [E|[]]. unfold minio_target in E.
      inversion E as [E']. apply append_inj_l in E'. congruence.
Qed.

(** A removal for a name no record carries, with the ledger answering:
    status 404, and the world is left as it was apart from the two
    ledger calls in the trace. *)
Lemma delete_node_absent_run env name w :
  ledger_up env ->
  existsb (Cypher.has_name name) (nodes (ledger w)) = false ->
  delete_node http_exception_str env name w
  = (inl (HTTPException 404 ("Node '" +:+ name +:+ "' not found in registry.")),
     mkWorld (ledger w) (files w)
       (trace w ++ [EvConnect; EvQuery DELETE_NODE])).
Proof.
  intros [Hc Hq] Habs. destruct w as [L fs tr0]. simpl in Habs.
  unfold delete_node, get_db_session, session_run, try_except, bind, emit,
    ret, raise. simpl.
  rewrite Hc, Hq. simpl.
  rewrite (delete_node_absent name L Habs). simpl.
  rewrite <- List.app_assoc. reflexivity.
Qed.

(** Whatever the ledger does, a removal that ends in an exception has
    not touched the target files. *)
Lemma delete_node_raises_files env name w e :
  fst (delete_node http_exception_str env name w) = inl e ->
  files (snd (delete_node http_exception_str env name w)) = files w.
Proof.
  destruct w as [L fs tr0].
  unfold delete_node, get_db_session, session_run, try_except, bind, emit,
    ret, raise. simpl.
  destruct (connect_fails env); simpl; [reflexivity|].
  destruct (query_error env 0); simpl; [reflexivity|].
  destruct (Cypher.delete_node name L) as [k L'] eqn:Hd. simpl.
  destruct (Nat.eqb k 0); simpl; [reflexivity|].
  run_update. run_update. discriminate.
Qed.

(** C8. Removing a name that no node record carries, with the ledger
    answering, ends in status 404 and leaves the target files (hence
    both target collections) and the ledger exactly as they were. *)
Theorem delete_node_not_found env name w :
  ledger_up env ->
  existsb (Cypher.has_name name) (nodes (ledger w)) = false ->
  let r := delete_node http_exception_str env name w in
  fst r = inl (HTTPException 404
                 ("Node '" +:+ name +:+ "' not found in registry."))
  /\ files (snd r) = files w
  /\ collection (files (snd r)) TARGETS_MINIO_FILE
     = collection (files w) TARGETS_MINIO_FILE
  /\ collection (files (snd r)) TARGETS_NODE_FILE
     = collection (files w) TARGETS_NODE_FILE
  /\ ledger (snd r) = ledger w.
Proof.
  intros Hup Habs. cbv zeta.
  rewrite (delete_node_absent_run env name w Hup Habs). simpl.
  repeat split; reflexivity.
Qed.

Lemma for_each_resets env (l : list string) w :
  forallb (fun a => startable (reset_cmd a)) l = true ->
  for_each
    (fun alias =>
       let! _ := subprocess_run env
                   ("mc admin replicate rm --all --force " +:+ alias) in
       ret tt) l w
  = (inr tt,
     mkWorld (ledger w) (files w) (trace w ++ map (fun a => EvShell (reset_cmd a)) l)).
Proof.
  revert w. induction l as [|a l IH]; intros [L fs tr0] Hl.
  - simpl. unfold ret. now rewrite List.app_nil_r.
  - cbn [forallb] in Hl. apply andb_prop in Hl. destruct Hl as [Ha Hl].
    cbn [for_each]. unfold bind at 1. unfold bind at 1.
    fold (reset_cmd a). rewrite (subprocess_run_started env _ _ Ha).
    unfold ret at 1. cbn [ledger files trace].
    rewrite (IH _ Hl). cbn [ledger files trace map].
    rewrite <- List.app_assoc. reflexivity.
Qed.

(** The reset loop stops at the first command the shell refuses; the
    commands before it have run. *)
Lemma for_each_resets_refused env (l : list string) w :
  forallb (fun a => startable (reset_cmd a)) l = false ->
  exists tr,
    for_each
      (fun alias =>
         let! _ := subprocess_run env
                     ("mc admin replicate rm --all --force " +:+ alias) in
         ret tt) l w
    = (inl (PyError ValueError "embedded null byte"),
       mkWorld (ledger w) (files w) (trace w ++ tr)).
Proof.
  revert w. induction l as [|a l IH]; intros [L fs tr0] Hl; [discriminate|].
  cbn [forallb] in Hl. cbn [for_each]. unfold bind at 1. unfold bind at 1.
  fold (reset_cmd a).
  destruct (startable (reset_cmd a)) eqn:Ha.
  - rewrite (subprocess_run_started env _ _ Ha). unfold ret at 1.
    cbn [ledger files trace]. cbn [andb] in Hl.
    destruct (IH (mkWorld L fs (tr0 ++ [EvShell (reset_cmd a)])) Hl) as [tr E].
    rewrite E. cbn [ledger files trace]. eexists.
    rewrite <- List.app_assoc. reflexivity.
  - rewrite (subprocess_run_refused env _ _ Ha). exists [].
    cbn [ledger files trace]. now rewrite List.app_nil_r.
Qed.

(** Too few aliases: status 400 before anything else happens. *)
Lemma create_cluster_invalid env name aliases w :
  (length (parse_aliases aliases) < 2)%nat ->
  create_cluster json_loads env name aliases w
  = (inl (HTTPException 400 "Cluster requires at least 2 aliases."), w).
Proof.
  intros H. unfold create_cluster.
  destruct (Nat.ltb_spec (length (parse_aliases aliases)) 2); [reflexivity|lia].
Qed.

(** An alias that holds a NUL character: the reset loop is left with
    the error of the process library, before the join, the listing and
    the ledger step; ledger and files are untouched. *)
Lemma create_cluster_refused env name aliases w :
  (2 <= length (parse_aliases aliases))%nat ->
  startable (join_cmd (parse_aliases aliases)) = false ->
  exists tr,
    create_cluster json_loads env name aliases w
    = (inl (PyError ValueError "embedded null byte"),
       mkWorld (ledger w) (files w) (trace w ++ tr)).
Proof.
  intros Hlen Hno. unfold create_cluster.
  destruct (Nat.ltb_spec (length (parse_aliases aliases)) 2); [lia|].
  rewrite startable_join in Hno.
  destruct (for_each_resets_refused env _ w Hno) as [tr E].
  rewrite (bind_err _ _ _ _ _ E). now exists tr.
Qed.

(** The join ran and is rejected: status 500 right after the join
    command. *)
Lemma create_cluster_rejected env name aliases w :
  (2 <= length (parse_aliases aliases))%nat ->
  startable (join_cmd (parse_aliases aliases)) = true ->
  join_accepted env (parse_aliases aliases) = false ->
  create_cluster json_loads env name aliases w
  = (inl (HTTPException 500
            ("Cluster formation failed: "
             +:+ stderr (shell env (join_cmd (parse_aliases aliases))))),
     mkWorld (ledger w) (files w)
       (trace w
        ++ map (fun a => EvShell (reset_cmd a)) (parse_aliases aliases)
        ++ [EvShell (join_cmd (parse_aliases aliases))])).
Proof.
  intros Hlen Hst Hrej. unfold create_cluster.
  destruct (Nat.ltb_spec (length (parse_aliases aliases)) 2); [lia|].
  pose proof Hst as Hall. rewrite startable_join in Hall.
  rewrite (bind_ok _ _ _ _ _ (for_each_resets env _ w Hall)).
  unfold join_accepted in Hrej. rewrite Hst in Hrej. cbn [andb] in Hrej.
  apply orb_false_elim in Hrej.
  destruct Hrej as [Hrc Hmsg]. fold (join_cmd (parse_aliases aliases)).
  rewrite (bind_ok _ _ _ _ _ (subprocess_run_started env _ _ Hst)).
  unfold bind, ret, raise. cbn [ledger files trace].
  rewrite Hrc, Hmsg. cbn [negb].
  rewrite <- List.app_assoc. reflexivity.
Qed.

(** The listing is read with one command and never raises. *)
Lemma resolve_aliases_run env alias_list w :
  resolve_aliases json_loads env alias_list w
  = (inr (resolved json_loads env alias_list),
     mkWorld (ledger w) (files w) (trace w ++ [EvShell LIST_CMD])).
Proof.
  unfold resolve_aliases, try_except, bind at 1.
  fold LIST_CMD. rewrite (subprocess_run_started env _ _ startable_list_cmd).
  reflexivity.
Qed.

(** The join is accepted: the listing is read, the ledger step runs
    under its guard, and the response reports success. *)
Lemma create_cluster_run env name aliases w :
  (2 <= length (parse_aliases aliases))%nat ->
  join_accepted env (parse_aliases aliases) = true ->
  exists tr,
    create_cluster json_loads env name aliases w
    = (inr (cluster_response name (parse_aliases aliases)
              (resolved json_loads env (parse_aliases aliases))),
       mkWorld
         (cluster_ledger env name
            (Py.dict_values (resolved json_loads env (parse_aliases aliases))) (ledger w))
         (files w)
         (trace w
          ++ map (fun a => EvShell (reset_cmd a)) (parse_aliases aliases)
          ++ EvShell (join_cmd (parse_aliases aliases))
             :: EvShell LIST_CMD :: EvConnect :: tr)).
Proof.
  intros Hlen Hacc. unfold create_cluster.
  destruct (Nat.ltb_spec (length (parse_aliases aliases)) 2); [lia|].
  unfold join_accepted in Hacc. apply andb_prop in Hacc.
  destruct Hacc as [Hst Hacc].
  pose proof Hst as Hall. rewrite startable_join in Hall.
  rewrite (bind_ok _ _ _ _ _ (for_each_resets env _ w Hall)).
  fold (join_cmd (parse_aliases aliases)).
  set (al := parse_aliases aliases) in *.
  assert (Hjoin :
    (if negb (Z.eqb (returncode (shell env (join_cmd al))) 0)
     then if negb (PyStr.contains "already"
                     (PyStr.lower (stderr (shell env (join_cmd al)))))
          then raise (HTTPException 500
                        ("Cluster formation failed: "
                         +:+ stderr (shell env (join_cmd al))))
          else ret tt
     else ret tt) = (ret tt : M unit)).
  { destruct (Z.eqb (returncode (shell env (join_cmd al))) 0); [reflexivity|].
    simpl in Hacc. rewrite Hacc. reflexivity. }
  rewrite (bind_ok _ _ _ _ _ (subprocess_run_started env _ _ Hst)).
  rewrite Hjoin. unfold bind at 1. unfold ret at 1.
  rewrite (bind_ok _ _ _ _ _ (resolve_aliases_run env al _)).
  unfold cluster_response, cluster_ledger, get_db_session, session_run,
    try_except, bind, emit, ret, raise. cbn [ledger files trace].
  destruct (connect_fails env); cbn [ledger files trace].
  { exists []. rewrite <- !List.app_assoc. reflexivity. }
  destruct (query_error env 0); cbn [ledger files trace].
  { eexists. rewrite <- !List.app_assoc. reflexivity. }
  destruct (Py.dict_values (resolved json_loads env al)) as [|x found];
    cbn [ledger files trace].
  { eexists. rewrite <- !List.app_assoc. reflexivity. }
  destruct (query_error env 1); cbn [ledger files trace].
  { eexists. rewrite <- !List.app_assoc. reflexivity. }
  eexists. rewrite <- !List.app_assoc. reflexivity.
Qed.

(** With the ledger answering both queries, every cluster record of the
    given name carries the time of this request after a formation,
    whether it existed before or not. *)
Lemma create_cluster_created_at env name aliases w c :
  (2 <= length (parse_aliases aliases))%nat ->
  join_accepted env (parse_aliases aliases) = true ->
  ledger_up env -> query_error env 1 = None ->
  List.In c (clusters (ledger (snd (create_cluster json_loads env name aliases w)))) ->
  Cypher.is_cluster name c = true ->
  cluster_created_at c = now env.
Proof.
  intros Hlen Hacc [Hc Hq] Hq1.
  destruct (create_cluster_run env name aliases w Hlen Hacc) as [tr ->].
  cbn [snd ledger]. unfold cluster_ledger. rewrite Hc, Hq, Hq1.
  destruct (Py.dict_values (resolved json_loads env (parse_aliases aliases)));
    rewrite ?link_members_clusters; apply merge_cluster_created_at.
Qed.

(** C5. A formation request with fewer than two aliases left after
    trimming ends in status 400 and leaves the world, trace of outside
    calls included, exactly as it was: no command is run, no listing is
    read, the ledger is not contacted. *)
Theorem create_cluster_requires_two_aliases env name aliases w :
  (length (parse_aliases aliases) < 2)%nat ->
  let r := create_cluster json_loads env name aliases w in
  fst r = inl (HTTPException 400 "Cluster requires at least 2 aliases.")
  /\ snd r = w
  /\ trace (snd r) = trace w.
Proof.
  intros H. cbv zeta. rewrite (create_cluster_invalid env name aliases w H).
  auto.
Qed.


(** C2, as the code has it. A valid formation request whose join is
    accepted reports success whatever the ledger does: a failure to
    connect or of either query is caught inside the ledger step.  The
    ledger is then left as the queries that did run left it; in
    particular it is unchanged when the connection or the first query
    fails. *)
Theorem create_cluster_ledger_failure_caught env name aliases w :
  (2 <= length (parse_aliases aliases))%nat ->
  join_accepted env (parse_aliases aliases) = true ->
  let alias_list := parse_aliases aliases in
  let r := create_cluster json_loads env name aliases w in
  fst r = inr (cluster_response name alias_list (resolved json_loads env alias_list))
  /\ ledger (snd r)
     = cluster_ledger env name (Py.dict_values (resolved json_loads env alias_list))
         (ledger w)
  /\ (connect_fails env = true \/ query_error env 0 <> None ->
      ledger (snd r) = ledger w).
Proof.
  intros Hlen Hacc. cbv zeta.
  destruct (create_cluster_run env name aliases w Hlen Hacc) as [tr ->].
  cbn [fst snd ledger]. split; [reflexivity|]. split; [reflexivity|].
  intros H. unfold cluster_ledger.
  destruct (connect_fails env); [reflexivity|].
  destruct H as [H|H]; [discriminate|].
  destruct (query_error env 0); [reflexivity|congruence].
Qed.

(** *** One record per address, along every run

    The three handlers that write to the ledger keep [unique_ips]; the
    remaining endpoints of the service create no node record. *)

Lemma register_node_keeps_unique env name ip node_port w :
  unique_ips (ledger w) ->
  unique_ips (ledger (snd (register_node http_exception_str env name ip
                             node_port w))).
Proof.
  intros Hu.
  destruct (connect_fails env) eqn:Hc.
  - destruct (register_node_ledger_down env name ip node_port w
                (or_introl Hc)) as [d [tr ->]].
    exact Hu.
  - destruct (query_error env 0) as [msg|] eqn:Hq.
    + assert (Hdown : connect_fails env = true \/ query_error env 0 <> None)
        by (right; rewrite Hq; discriminate).
      destruct (register_node_ledger_down env name ip node_port w Hdown)
        as [d [tr ->]].
      exact Hu.
    + destruct (register_node_run env name ip node_port w (conj Hc Hq))
        as [tr ->].
      apply merge_node_unique. exact Hu.
Qed.

Lemma delete_node_keeps_unique env name w :
  unique_ips (ledger w) ->
  unique_ips (ledger (snd (delete_node http_exception_str env name w))).
Proof.
  intros Hu. destruct w as [L fs tr0]. simpl in Hu.
  unfold delete_node, get_db_session, session_run, try_except, bind, emit,
    ret, raise. simpl.
  destruct (connect_fails env); simpl; [exact Hu|].
  destruct (query_error env 0); simpl; [exact Hu|].
  pose proof (delete_node_unique name L Hu) as Hu'.
  destruct (Cypher.delete_node name L) as [k L'] eqn:Hd. simpl in *.
  destruct (Nat.eqb k 0); simpl; [exact Hu'|].
  run_update. run_update. exact Hu'.
Qed.

Lemma cluster_ledger_nodes env name found_ips L :
  nodes (cluster_ledger env name found_ips L) = nodes L.
Proof.
  unfold cluster_ledger.
  destruct (connect_fails env); [reflexivity|].
  destruct (query_error env 0); [reflexivity|].
  destruct found_ips; [apply merge_cluster_nodes|].
  destruct (query_error env 1);
    rewrite ?link_members_nodes; apply merge_cluster_nodes.
Qed.

(** A cluster formation never touches the node records. *)
Lemma create_cluster_keeps_nodes env name aliases w :
  nodes (ledger (snd (create_cluster json_loads env name aliases w)))
  = nodes (ledger w).
Proof.
  destruct (Nat.ltb_spec (length (parse_aliases aliases)) 2) as [Hlt|Hge].
  - now rewrite (create_cluster_invalid env name aliases w Hlt).
  - destruct (startable (join_cmd (parse_aliases aliases))) eqn:Hst.
    2: { destruct (create_cluster_refused env name aliases w Hge Hst)
           as [tr ->]. reflexivity. }
    destruct (join_accepted env (parse_aliases aliases)) eqn:Hacc.
    + destruct (create_cluster_run env name aliases w Hge Hacc) as [tr ->].
      apply cluster_ledger_nodes.
    + now rewrite (create_cluster_rejected env name aliases w Hge Hst Hacc).
Qed.

(** Every world the service can reach keeps one record per address. *)
Lemma reachable_unique_ips w :
  reachable json_loads http_exception_str w -> unique_ips (ledger w).
Proof.
  induction 1 as [fs tr|env req w Hw IH].
  - intros ip. simpl. lia.
  - destruct req as [name ip node_port|name|name aliases]; simpl.
    + apply register_node_keeps_unique. exact IH.
    + apply delete_node_keeps_unique. exact IH.
    + intros ip. unfold at_ip. rewrite create_cluster_keeps_nodes. apply IH.
Qed.

End HandlerFacts.

(** ** Worked instances *)

Example parse_aliases_trims : parse_aliases " a ,, b ," = ["a"; "b"].
Proof. reflexivity. Qed.

Example ip_part_of_url : ip_part "http://10.0.0.1:9000" = "10.0.0.1".
Proof. reflexivity. Qed.

Example resolved_listing :
  resolved Sample.loads Sample.env_up ["a"; "b"]
  = [("a", "10.0.0.1"); ("b", "10.0.0.2")].
Proof. vm_compute. reflexivity. Qed.

(** The spec's own example: node A at 10.0.0.1 registered with both
    instances reachable, then again with none reachable. *)
Lemma register_same_address_twice_witness :
  unique_ips (ledger Sample.w_empty)
  /\ ledger_up Sample.env_up
  /\ ledger_up Sample.env_later
  /\ let w1 := snd (register_node Sample.http_str Sample.env_up
                      "A" "10.0.0.1" 9100 Sample.w_empty) in
     let w2 := snd (register_node Sample.http_str Sample.env_later
                      "A" "10.0.0.1" 9100 w1) in
     exists id,
       at_ip "10.0.0.1" (ledger w1) = [mkNode id "10.0.0.1" "A" "active" 1000]
       /\ at_ip "10.0.0.1" (ledger w2) = [mkNode id "10.0.0.1" "A" "degraded" 2000]
       /\ length (nodes (ledger w2)) = length (nodes (ledger w1)).
Proof.
  assert (H0 : unique_ips (ledger Sample.w_empty)) by (intros ip; simpl; lia).
  assert (H1 : ledger_up Sample.env_up) by (split; reflexivity).
  assert (H2 : ledger_up Sample.env_later) by (split; reflexivity).
  split; [exact H0|]. split; [exact H1|]. split; [exact H2|].
  exact (register_same_address_twice Sample.http_str Sample.env_up
           Sample.env_later "A" "A" "10.0.0.1" 9100 9100 Sample.w_empty H0 H1 H2).
Defined.

Lemma register_node_status_witness :
  ledger_up Sample.env_later
  /\ let r := register_node Sample.http_str Sample.env_later
                "A" "10.0.0.1" 9100 Sample.w_empty in
     let a := probe Sample.env_later "10.0.0.1" 9001 in
     let b := probe Sample.env_later "10.0.0.1" 9003 in
     fst r = inr (registered_response Sample.env_later "A" "10.0.0.1")
     /\ at_ip "10.0.0.1" (ledger (snd r)) <> []
     /\ forall n, List.In n (at_ip "10.0.0.1" (ledger (snd r))) ->
          (node_status n = "active" <-> a = true /\ b = true)
          /\ (node_status n = "degraded" <-> a = false \/ b = false)
          /\ node_status n <> "offline".
Proof.
  assert (H : ledger_up Sample.env_later) by (split; reflexivity).
  split; [exact H|].
  exact (register_node_status Sample.http_str Sample.env_later
           "A" "10.0.0.1" 9100 Sample.w_empty H).
Defined.

Lemma register_same_name_two_addresses_witness :
  unique_ips (ledger Sample.w_empty)
  /\ "10.0.0.1" <> "10.0.0.2"
  /\ ledger_up Sample.env_up /\ ledger_up Sample.env_later
  /\ feed_up Sample.env_up /\ feed_up Sample.env_later
  /\ feeds_wellformed (files Sample.w_empty)
  /\ let r1 := register_node Sample.http_str Sample.env_up
                 "A" "10.0.0.1" 9100 Sample.w_empty in
     let r2 := register_node Sample.http_str Sample.env_later
                 "A" "10.0.0.2" 9100 (snd r1) in
     let w2 := snd r2 in
     fst r1 = inr (registered_response Sample.env_up "A" "10.0.0.1")
     /\ fst r2 = inr (registered_response Sample.env_later "A" "10.0.0.2")
     /\ (exists n1 n2,
            at_ip "10.0.0.1" (ledger w2) = [n1] /\ at_ip "10.0.0.2" (ledger w2) = [n2]
            /\ node_name n1 = "A" /\ node_name n2 = "A"
            /\ node_ip n1 = "10.0.0.1" /\ node_ip n2 = "10.0.0.2"
            /\ n1 <> n2
            /\ List.In n1 (nodes (ledger w2)) /\ List.In n2 (nodes (ledger w2)))
     /\ List.filter (labelled "A") (collection (files w2) TARGETS_MINIO_FILE)
        = [JDict (minio_target "A" "10.0.0.2")]
     /\ List.filter (labelled "A") (collection (files w2) TARGETS_NODE_FILE)
        = [JDict (node_target "A" "10.0.0.2" 9100)]
     /\ ~ List.In (JDict (minio_target "A" "10.0.0.1"))
           (collection (files w2) TARGETS_MINIO_FILE).
Proof.
  assert (H0 : unique_ips (ledger Sample.w_empty)) by (intros ip; simpl; lia).
  assert (Hne : "10.0.0.1" <> "10.0.0.2") by discriminate.
  assert (H1 : ledger_up Sample.env_up) by (split; reflexivity).
  assert (H2 : ledger_up Sample.env_later) by (split; reflexivity).
  assert (F1 : feed_up Sample.env_up) by (split; reflexivity).
  assert (F2 : feed_up Sample.env_later) by (split; reflexivity).
  assert (W : feeds_wellformed (files Sample.w_empty)) by (split; reflexivity).
  repeat (split; [assumption|]).
  destruct (register_same_name_two_addresses Sample.http_str Sample.env_up
              Sample.env_later "A" "10.0.0.1" "10.0.0.2" 9100 9100 Sample.w_empty
              H0 Hne H1 H2) as [R1 [R2 [HL Hfeed]]].
  split; [exact R1|]. split; [exact R2|]. split; [exact HL|].
  exact (Hfeed F1 F2 W).
Defined.

(** C10 as stated does not hold: over a storage feed whose only entry is
    a number, with the ledger and the file system answering, both
    registrations succeed and the ledger ends with the two records, but
    the helper gives up on the store both times and the storage feed
    ends with no entry labelled with the name. *)
Lemma register_same_name_feed_not_updated :
  let r1 := register_node Sample.http_str Sample.env_up
              "A" "10.0.0.1" 9100 Sample.w_seven in
  let r2 := register_node Sample.http_str Sample.env_later
              "A" "10.0.0.2" 9100 (snd r1) in
  let w2 := snd r2 in
  collection (files Sample.w_seven) TARGETS_MINIO_FILE = [JInt 7]
  /\ fst r1 = inr (registered_response Sample.env_up "A" "10.0.0.1")
  /\ fst r2 = inr (registered_response Sample.env_later "A" "10.0.0.2")
  /\ map node_ip (nodes (ledger w2)) = ["10.0.0.1"; "10.0.0.2"]
  /\ map node_name (nodes (ledger w2)) = ["A"; "A"]
  /\ collection (files w2) TARGETS_MINIO_FILE = [JInt 7]
  /\ List.filter (labelled "A") (collection (files w2) TARGETS_MINIO_FILE) = []
  /\ List.filter (labelled "A") (collection (files w2) TARGETS_MINIO_FILE)
     <> [JDict (minio_target "A" "10.0.0.2")].
Proof.
  cbv zeta. repeat split; try (vm_compute; reflexivity).
  vm_compute. discriminate.
Qed.

Lemma delete_node_not_found_witness :
  ledger_up Sample.env_up
  /\ existsb (Cypher.has_name "ghost") (nodes (ledger Sample.w_prod)) = false
  /\ let r := delete_node Sample.http_str Sample.env_up "ghost" Sample.w_prod in
     fst r = inl (HTTPException 404 ("Node '" +:+ "ghost" +:+ "' not found in registry."))
     /\ files (snd r) = files Sample.w_prod
     /\ collection (files (snd r)) TARGETS_MINIO_FILE
        = collection (files Sample.w_prod) TARGETS_MINIO_FILE
     /\ collection (files (snd r)) TARGETS_NODE_FILE
        = collection (files Sample.w_prod) TARGETS_NODE_FILE
     /\ ledger (snd r) = ledger Sample.w_prod.
Proof.
  assert (H : ledger_up Sample.env_up) by (split; reflexivity).
  assert (Habs : existsb (Cypher.has_name "ghost") (nodes (ledger Sample.w_prod))
                 = false) by reflexivity.
  split; [exact H|]. split; [exact Habs|].
  exact (delete_node_not_found Sample.http_str Sample.env_up "ghost"
           Sample.w_prod H Habs).
Defined.

Lemma update_target_file_unusable_store_witness :
  io_fault Sample.env_up TARGETS_MINIO_FILE = false
  /\ unusable (files Sample.w_object !! TARGETS_MINIO_FILE) = true
  /\ decodable (files Sample.w_digits !! TARGETS_MINIO_FILE) = false
  /\ let run := update_target_file Sample.env_up TARGETS_MINIO_FILE "A"
                  (Some (minio_target "A" "10.0.0.1")) in
     fst (run Sample.w_object) = inr tt
     /\ files (snd (run Sample.w_object))
        = <[TARGETS_MINIO_FILE :=
              Document (JList (appended (Some (minio_target "A" "10.0.0.1"))))]>
            (files Sample.w_object)
     /\ files (snd (run Sample.w_object))
        = files (snd (run (mkWorld (ledger Sample.w_object)
                             (<[TARGETS_MINIO_FILE := Document (JList [])]>
                                (files Sample.w_object))
                             (trace Sample.w_object))))
     /\ fst (run Sample.w_digits) = inr tt
     /\ files (snd (run Sample.w_digits)) = files Sample.w_digits.
Proof.
  assert (Hio : io_fault Sample.env_up TARGETS_MINIO_FILE = false) by reflexivity.
  assert (Hbad : unusable (files Sample.w_object !! TARGETS_MINIO_FILE) = true)
    by (vm_compute; reflexivity).
  assert (Hdec : decodable (files Sample.w_digits !! TARGETS_MINIO_FILE) = false)
    by (vm_compute; reflexivity).
  split; [exact Hio|]. split; [exact Hbad|]. split; [exact Hdec|].
  destruct (update_target_file_unusable_store Sample.env_up TARGETS_MINIO_FILE "A"
              (Some (minio_target "A" "10.0.0.1")) Sample.w_object)
    as [R [Hempty _]].
  destruct (update_target_file_unusable_store Sample.env_up TARGETS_MINIO_FILE "A"
              (Some (minio_target "A" "10.0.0.1")) Sample.w_digits)
    as [R' [_ Hkept]].
  destruct (Hempty Hio Hbad) as [E1 E2].
  split; [exact R|]. split; [exact E1|]. split; [exact E2|].
  split; [exact R'|exact (Hkept Hdec)].
Defined.

(** C9 as stated does not hold: a store that holds one integer literal
    longer than the interpreter converts is not a JSON list, yet an
    upsert over it writes nothing, where over an empty collection it
    writes the new entry.  The helper still returns normally. *)
Lemma update_target_file_store_not_read_as_empty :
  let run := update_target_file Sample.env_up TARGETS_MINIO_FILE "A"
               (Some (minio_target "A" "10.0.0.1")) in
  let w0 := mkWorld (ledger Sample.w_digits)
              (<[TARGETS_MINIO_FILE := Document (JList [])]>
                 (files Sample.w_digits))
              (trace Sample.w_digits) in
  io_fault Sample.env_up TARGETS_MINIO_FILE = false
  /\ files Sample.w_digits !! TARGETS_MINIO_FILE = Some (Excessive false)
  /\ fst (run Sample.w_digits) = inr tt
  /\ files (snd (run Sample.w_digits)) !! TARGETS_MINIO_FILE
     = Some (Excessive false)
  /\ files (snd (run w0)) !! TARGETS_MINIO_FILE
     = Some (Document (JList [JDict (minio_target "A" "10.0.0.1")]))
  /\ files (snd (run Sample.w_digits)) <> files (snd (run w0)).
Proof.
  cbv zeta. repeat split; try (vm_compute; reflexivity).
  intros E.
  apply (f_equal (fun fs : gmap string file_content => fs !! TARGETS_MINIO_FILE))
    in E.
  vm_compute in E. discriminate.
Qed.

Lemma create_cluster_requires_two_aliases_witness :
  (length (parse_aliases "solo, ,") < 2)%nat
  /\ let r := create_cluster Sample.loads Sample.env_up "prod" "solo, ,"
                Sample.w_empty in
     fst r = inl (HTTPException 400 "Cluster requires at least 2 aliases.")
     /\ snd r = Sample.w_empty
     /\ trace (snd r) = trace Sample.w_empty.
Proof.
  assert (H : (length (parse_aliases "solo, ,") < 2)%nat) by (vm_compute; lia).
  split; [exact H|].
  exact (create_cluster_requires_two_aliases Sample.loads Sample.env_up "prod"
           "solo, ," Sample.w_empty H).
Defined.


Lemma create_cluster_ledger_failure_caught_witness :
  (2 <= length (parse_aliases "a, b"))%nat
  /\ join_accepted Sample.env_down (parse_aliases "a, b") = true
  /\ let alias_list := parse_aliases "a, b" in
     let r := create_cluster Sample.loads Sample.env_down "prod" "a, b"
                Sample.w_prod in
     fst r = inr (cluster_response "prod" alias_list
                    (resolved Sample.loads Sample.env_down alias_list))
     /\ ledger (snd r)
        = cluster_ledger Sample.env_down "prod"
            (Py.dict_values (resolved Sample.loads Sample.env_down alias_list))
            (ledger Sample.w_prod)
     /\ (connect_fails Sample.env_down = true
         \/ query_error Sample.env_down 0 <> None ->
         ledger (snd r) = ledger Sample.w_prod).
Proof.
  assert (Hlen : (2 <= length (parse_aliases "a, b"))%nat) by (vm_compute; lia).
  assert (Hacc : join_accepted Sample.env_down (parse_aliases "a, b") = true)
    by (vm_compute; reflexivity).
  split; [exact Hlen|]. split; [exact Hacc|].
  exact (create_cluster_ledger_failure_caught Sample.loads Sample.env_down "prod"
           "a, b" Sample.w_prod Hlen Hacc).
Defined.

(** C2 as stated does not hold: with the ledger unreachable, a valid
    formation request whose join succeeds is answered with the success
    response, not with an exception, and the ledger is left without the
    cluster update. *)
Lemma create_cluster_ledger_down_reports_success :
  let r := create_cluster Sample.loads Sample.env_down "prod" "a, b"
             Sample.w_empty in
  connect_fails Sample.env_down = true
  /\ (2 <= length (parse_aliases "a, b"))%nat
  /\ fst r = inr (cluster_response "prod" ["a"; "b"]
                    [("a", "10.0.0.1"); ("b", "10.0.0.2")])
  /\ ~ (exists e, fst r = inl e)
  /\ ledger (snd r) = empty_ledger.
Proof.
  cbv zeta.
  assert (E : fst (create_cluster Sample.loads Sample.env_down "prod" "a, b"
                     Sample.w_empty)
              = inr (cluster_response "prod" ["a"; "b"]
                       [("a", "10.0.0.1"); ("b", "10.0.0.2")]))
    by (vm_compute; reflexivity).
  split; [reflexivity|]. split; [vm_compute; lia|]. split; [exact E|].
  split.
  - intros [e He]. rewrite E in He. discriminate.
  - vm_compute. reflexivity.
Qed.

(** C1 on the code: the cluster "prod" was created at time 100; forming
    it again from the same aliases at time 2000 (the join answering
    "already configured") succeeds, adds no membership edge, and leaves the
    cluster record with [created_at] 2000. *)
Theorem create_cluster_overwrites_created_at :
  let r := create_cluster Sample.loads Sample.env_later "prod" "a, b"
             Sample.w_prod in
  clusters (ledger Sample.w_prod) = [mkCluster 2 "prod" 100]
  /\ fst r = inr (cluster_response "prod" ["a"; "b"]
                    [("a", "10.0.0.1"); ("b", "10.0.0.2")])
  /\ clusters (ledger (snd r)) = [mkCluster 2 "prod" 2000]
  /\ member_of (ledger (snd r)) = member_of (ledger Sample.w_prod)
  /\ nodes (ledger (snd r)) = nodes (ledger Sample.w_prod).
Proof.
  cbv zeta. repeat split; vm_compute; reflexivity.
Qed.

(** * Further properties of the code *)

(** ** The target-file helper: upsert and removal *)

Section TargetMore.

Lemma labelled_wellformed alias t :
  labelled alias t = true -> entry_wellformed t = true.
Proof.
  unfold labelled, entry_wellformed.
  destruct t as [| | | | |l|d]; try discriminate.
  destruct (Py.dict_lookup "labels" d) as [[| | | | |l|labels]|];
    try discriminate; reflexivity.
Qed.

Lemma labelled_truthy alias t :
  labelled alias (JDict t) = true -> Py.truthy (JDict t) = true.
Proof. destruct t; [discriminate|reflexivity]. Qed.

Lemma filter_other_labelled alias t :
  labelled alias t = true -> List.filter (other alias) [t] = [].
Proof. intros H. cbn [List.filter]. unfold other. now rewrite H. Qed.

Lemma filter_labelled_single alias t :
  labelled alias t = true -> List.filter (labelled alias) [t] = [t].
Proof. intros H. cbn [List.filter]. now rewrite H. Qed.

Lemma drop_alias_blocked alias data :
  forallb entry_wellformed data = false ->
  exists e, drop_alias alias data = inl e.
Proof.
  induction data as [|t rest IH]; simpl; [discriminate|].
  intros H. destruct (entry_wellformed t) eqn:Ht; simpl in H.
  - destruct (entry_alias_wellformed t Ht) as [a ->].
    destruct (IH H) as [e ->]. eauto.
  - destruct (entry_alias t) as [e|a] eqn:Ea; [eauto|].
    exfalso. unfold entry_alias, entry_wellformed, Py.get_or in *.
    destruct t as [| | | | |l|d]; try discriminate.
    destruct (Py.dict_lookup "labels" d) as [[| | | | |l|labels]|];
      discriminate.
Qed.

Lemma wellformed_after_upsert alias t (l : list json) :
  forallb entry_wellformed l = true ->
  labelled alias t = true ->
  forallb entry_wellformed (List.filter (other alias) l ++ [t]) = true.
Proof.
  intros Hwf Hlab.
  rewrite List.forallb_app, (forallb_wellformed_filter _ _ Hwf).
  cbn [forallb]. now rewrite (labelled_wellformed alias _ Hlab).
Qed.

(** What the helper writes on a store it can work on. *)
Lemma apply_update_inspectable env path alias new_target fs :
  io_fault env path = false ->
  inspectable fs path = true ->
  apply_update env path alias new_target fs
  = <[path := Document
               (JList (List.filter (other alias) (collection fs path)
                       ++ appended new_target))]> fs.
Proof.
  intros Hio Hwf. apply andb_prop in Hwf. destruct Hwf as [Hdec Hwf].
  unfold apply_update, update_outcome. rewrite Hio, Hdec. cbn [negb].
  now rewrite (drop_alias_wellformed alias _ Hwf).
Qed.

Lemma appended_labelled alias t :
  labelled alias (JDict t) = true -> appended (Some t) = [JDict t].
Proof. intros Hlab. unfold appended. now rewrite (labelled_truthy alias t Hlab). Qed.

Lemma collection_after_upsert env path alias t w :
  io_fault env path = false ->
  inspectable (files w) path = true ->
  labelled alias (JDict t) = true ->
  collection (files (snd (update_target_file env path alias (Some t) w))) path
  = List.filter (other alias) (collection (files w) path) ++ [JDict t].
Proof.
  intros Hio Hwf Hlab.
  destruct (update_target_file_run env path alias (Some t) w) as [tr ->].
  cbn [snd files].
  rewrite collection_apply_update by assumption.
  now rewrite (appended_labelled alias t Hlab).
Qed.

Lemma inspectable_after_upsert env path alias t w :
  inspectable (files w) path = true ->
  labelled alias (JDict t) = true ->
  inspectable (files (snd (update_target_file env path alias (Some t) w))) path
  = true.
Proof.
  intros Hwf Hlab.
  destruct (update_target_file_run env path alias (Some t) w) as [tr ->].
  cbn [snd files]. apply inspectable_apply_update; [|exact Hwf].
  rewrite (appended_labelled alias t Hlab). cbn [forallb].
  now rewrite (labelled_wellformed alias _ Hlab).
Qed.

(** An upsert replaces: on a store the helper can work on (the decoder
    gets through it and every entry can be inspected), with the file
    system answering, the written collection is the other aliases'
    entries followed by the new entry, which is then the only entry
    labelled with the alias. *)
Theorem upsert_replaces_entry env path alias t w :
  io_fault env path = false ->
  inspectable (files w) path = true ->
  labelled alias (JDict t) = true ->
  let w' := snd (update_target_file env path alias (Some t) w) in
  collection (files w') path
  = List.filter (other alias) (collection (files w) path) ++ [JDict t]
  /\ List.filter (labelled alias) (collection (files w') path) = [JDict t].
Proof.
  intros Hio Hwf Hlab. cbv zeta.
  destruct (update_target_file_run env path alias (Some t) w) as [tr ->].
  cbn [snd files].
  rewrite collection_apply_update by assumption.
  rewrite (appended_labelled alias t Hlab).
  split; [reflexivity|].
  rewrite List.filter_app, filter_labelled_other.
  now rewrite (filter_labelled_single alias _ Hlab).
Qed.

(** A store with an entry the helper cannot inspect is left as it
    is. *)
Lemma apply_update_blocked env path alias new_target fs :
  forallb entry_wellformed (collection fs path) = false ->
  apply_update env path alias new_target fs = fs.
Proof.
  intros Hbad. unfold apply_update, update_outcome.
  destruct (io_fault env path); [reflexivity|].
  destruct (negb (decodable (fs !! path))); [reflexivity|].
  now destruct (drop_alias_blocked alias _ Hbad) as [e ->].
Qed.

(** Upserting the same entry a second time, with the file system
    answering both times, changes nothing in the files; on a store the
    helper cannot work on neither upsert writes. *)
Theorem upsert_twice_is_upsert_once env1 env2 path alias t w :
  io_fault env1 path = false ->
  io_fault env2 path = false ->
  labelled alias (JDict t) = true ->
  let w1 := snd (update_target_file env1 path alias (Some t) w) in
  let w2 := snd (update_target_file env2 path alias (Some t) w1) in
  files w2 = files w1.
Proof.
  intros Hio1 Hio2 Hlab. cbv zeta.
  destruct (update_target_file_run env1 path alias (Some t) w) as [tr1 ->].
  cbn [snd].
  match goal with
  | |- context [update_target_file env2 path alias (Some t) ?w1] =>
      destruct (update_target_file_run env2 path alias (Some t) w1) as [tr2 ->]
  end.
  cbn [snd files].
  destruct (decodable (files w !! path)) eqn:Hdec.
  2: { rewrite (apply_update_undecodable env1 path alias (Some t) (files w) Hdec).
       apply apply_update_undecodable. exact Hdec. }
  destruct (forallb entry_wellformed (collection (files w) path)) eqn:Hwf.
  2: { rewrite (apply_update_blocked env1 path alias (Some t) (files w) Hwf).
       apply apply_update_blocked. exact Hwf. }
  assert (Hins : inspectable (files w) path = true)
    by (unfold inspectable; now rewrite Hdec, Hwf).
  rewrite (apply_update_inspectable env1 path alias (Some t) (files w) Hio1 Hins).
  rewrite (appended_labelled alias t Hlab).
  set (l1 := List.filter (other alias) (collection (files w) path) ++ [JDict t]).
  assert (Hins1 : inspectable (<[path := Document (JList l1)]> (files w)) path
                  = true).
  { rewrite inspectable_insert. unfold l1.
    now apply wellformed_after_upsert. }
  rewrite (apply_update_inspectable env2 path alias (Some t) _ Hio2 Hins1).
  rewrite collection_insert, (appended_labelled alias t Hlab).
  unfold l1 at 1.
  rewrite List.filter_app, filter_other_idem,
    (filter_other_labelled alias _ Hlab), List.app_nil_r.
  fold l1. apply insert_insert_eq.
Qed.

(** A removal after an upsert, on a store the helper can work on and
    with the file system answering both times: no entry labelled with
    the alias is left and the rest is kept; the removal undoes the
    upsert up to the entries that alias had before. *)
Theorem remove_after_upsert env1 env2 path alias t w :
  io_fault env1 path = false ->
  io_fault env2 path = false ->
  inspectable (files w) path = true ->
  labelled alias (JDict t) = true ->
  let w1 := snd (update_target_file env1 path alias (Some t) w) in
  let w2 := snd (update_target_file env2 path alias None w1) in
  collection (files w2) path
  = List.filter (other alias) (collection (files w) path)
  /\ List.filter (labelled alias) (collection (files w2) path) = []
  /\ (List.filter (labelled alias) (collection (files w) path) = [] ->
      collection (files w2) path = collection (files w) path).
Proof.
  intros Hio1 Hio2 Hwf Hlab. cbv zeta.
  pose proof (collection_after_upsert env1 path alias t w Hio1 Hwf Hlab)
    as Hc1.
  pose proof (inspectable_after_upsert env1 path alias t w Hwf Hlab) as Hwf1.
  destruct (update_target_file_run env2 path alias None
              (snd (update_target_file env1 path alias (Some t) w)))
    as [tr2 ->].
  cbn [snd files].
  rewrite collection_apply_update by assumption.
  rewrite Hc1. simpl. rewrite List.app_nil_r.
  rewrite List.filter_app, filter_other_idem,
    (filter_other_labelled alias _ Hlab), List.app_nil_r.
  split; [reflexivity|]. split; [apply filter_labelled_other|].
  intros Hnone.
  rewrite <- (filter_all (labelled alias) _ Hnone) at 2. reflexivity.
Qed.

(** One entry the helper cannot inspect (not an object, or with [labels]
    that is not an object) blocks every upsert and removal on that
    store: the helper returns normally and the files stay as they
    were. *)
Theorem uninspectable_entry_blocks_update env path alias new_target w l :
  files w !! path = Some (Document (JList l)) ->
  forallb entry_wellformed l = false ->
  let r := update_target_file env path alias new_target w in
  fst r = inr tt /\ files (snd r) = files w /\ ledger (snd r) = ledger w.
Proof.
  intros Hf Hbad. cbv zeta.
  destruct (update_target_file_run env path alias new_target w) as [tr ->].
  cbn [fst snd files ledger]. split; [reflexivity|]. split; [|reflexivity].
  unfold apply_update, update_outcome, collection. rewrite Hf.
  destruct (io_fault env path); [reflexivity|].
  destruct (drop_alias_blocked alias l Hbad) as [e ->]. reflexivity.
Qed.

End TargetMore.

(** ** More facts about the ledger queries *)

#[local] Transparent Cypher.merge_node Cypher.delete_node Cypher.merge_cluster
  Cypher.link_members.

Section LedgerMore.

Local Abbreviation merge_all := (fold_left (fun es e => Cypher.merge_edge e es)).

Lemma delete_node_count name L :
  fst (Cypher.delete_node name L)
  = length (List.filter (Cypher.has_name name) (nodes L)).
Proof. reflexivity. Qed.

Lemma delete_node_nodes name L :
  nodes (snd (Cypher.delete_node name L))
  = List.filter (fun n => negb (Cypher.has_name name n)) (nodes L).
Proof. reflexivity. Qed.

Lemma delete_node_clusters name L :
  clusters (snd (Cypher.delete_node name L)) = clusters L.
Proof. reflexivity. Qed.

(** [DETACH]: no edge that survives starts at a deleted record. *)
Lemma delete_node_edges name L e :
  List.In e (member_of (snd (Cypher.delete_node name L))) ->
  List.In e (member_of L)
  /\ forall n, List.In n (nodes L) -> node_name n = name -> node_id n <> fst e.
Proof.
  cbn [Cypher.delete_node snd member_of]. intros H.
  apply List.filter_In in H. destruct H as [Hin Hneg]. split; [exact Hin|].
  intros n Hn Hname Hid. apply negb_true_iff in Hneg.
  assert (Hex : existsb (Nat.eqb (fst e))
                  (map node_id (List.filter (Cypher.has_name name) (nodes L)))
                = true).
  { apply List.existsb_exists. exists (node_id n). split.
    - apply List.in_map. apply List.filter_In. split; [exact Hn|].
      unfold Cypher.has_name. now apply String.eqb_eq.
    - apply Nat.eqb_eq. now symmetry. }
  congruence.
Qed.

Lemma is_cluster_touch name' name now c :
  Cypher.is_cluster name' (touch name now c) = Cypher.is_cluster name' c.
Proof. unfold touch. destruct (Cypher.is_cluster name c); reflexivity. Qed.

Lemma cluster_id_touch name now c : cluster_id (touch name now c) = cluster_id c.
Proof. unfold touch. destruct (Cypher.is_cluster name c); reflexivity. Qed.

Lemma merge_cluster_hit name now L :
  existsb (Cypher.is_cluster name) (clusters L) = true ->
  Cypher.merge_cluster name now L
  = mkLedger (nodes L) (map (touch name now) (clusters L)) (member_of L)
      (next_id L).
Proof. intros H. unfold Cypher.merge_cluster. now rewrite H. Qed.

Lemma merge_cluster_miss name now L :
  existsb (Cypher.is_cluster name) (clusters L) = false ->
  Cypher.merge_cluster name now L
  = mkLedger (nodes L) (clusters L ++ [mkCluster (next_id L) name now])
      (member_of L) (S (next_id L)).
Proof. intros H. unfold Cypher.merge_cluster. now rewrite H. Qed.

Lemma merge_cluster_member_of name now L :
  member_of (Cypher.merge_cluster name now L) = member_of L.
Proof. unfold Cypher.merge_cluster. destruct (existsb _ _); reflexivity. Qed.

Lemma merge_cluster_exists name now L :
  existsb (Cypher.is_cluster name) (clusters (Cypher.merge_cluster name now L))
  = true.
Proof.
  destruct (existsb (Cypher.is_cluster name) (clusters L)) eqn:Hex.
  - rewrite merge_cluster_hit by exact Hex. cbn [clusters].
    apply List.existsb_exists in Hex. destruct Hex as [c [Hin Hc]].
    apply List.existsb_exists. exists (touch name now c). split.
    + now apply List.in_map.
    + now rewrite is_cluster_touch.
  - rewrite merge_cluster_miss by exact Hex. cbn [clusters].
    rewrite List.existsb_app. cbn [existsb]. unfold Cypher.is_cluster at 2.
    cbn [cluster_name]. rewrite String.eqb_refl. apply orb_true_r.
Qed.


Lemma named_merge_cluster name' name now L :
  named name' (Cypher.merge_cluster name now L)
  = if existsb (Cypher.is_cluster name) (clusters L)
    then map (touch name now) (named name' L)
    else named name' L
         ++ (if String.eqb name name' then [mkCluster (next_id L) name now]
             else []).
Proof.
  unfold named.
  destruct (existsb (Cypher.is_cluster name) (clusters L)) eqn:Hex.
  - rewrite merge_cluster_hit by exact Hex. cbn [clusters].
    apply filter_map_commute. intros c. apply is_cluster_touch.
  - rewrite merge_cluster_miss by exact Hex. cbn [clusters].
    rewrite List.filter_app. cbn [List.filter]. unfold Cypher.is_cluster at 2.
    cbn [cluster_name]. reflexivity.
Qed.

Lemma merge_cluster_unique name now L :
  unique_clusters L -> unique_clusters (Cypher.merge_cluster name now L).
Proof.
  intros HL name'. rewrite named_merge_cluster.
  destruct (existsb (Cypher.is_cluster name) (clusters L)) eqn:Hex.
  - rewrite length_map. apply HL.
  - rewrite length_app. destruct (String.eqb name name') eqn:E; cbn [length].
    + apply String.eqb_eq in E. subst name'.
      unfold named. rewrite (filter_none _ _ Hex). cbn [length]. lia.
    + specialize (HL name'). lia.
Qed.

Lemma merge_cluster_ids_again name now L :
  existsb (Cypher.is_cluster name) (clusters L) = true ->
  map cluster_id (clusters (Cypher.merge_cluster name now L))
  = map cluster_id (clusters L).
Proof.
  intros Hex. rewrite merge_cluster_hit by exact Hex. cbn [clusters].
  rewrite List.map_map. apply List.map_ext. intros c. apply cluster_id_touch.
Qed.

Lemma link_members_member_of name ips L :
  member_of (Cypher.link_members name ips L)
  = merge_all (link_rows name ips L) (member_of L).
Proof. reflexivity. Qed.

Lemma merge_edge_present e es :
  edge_in e es = true -> Cypher.merge_edge e es = es.
Proof. unfold edge_in, Cypher.merge_edge. now intros ->. Qed.

Lemma merge_edge_absent e es :
  edge_in e es = false -> Cypher.merge_edge e es = es ++ [e].
Proof. unfold edge_in, Cypher.merge_edge. now intros ->. Qed.

Lemma edge_in_app e es es' :
  edge_in e (es ++ es') = edge_in e es || edge_in e es'.
Proof. unfold edge_in. apply List.existsb_app. Qed.

Lemma edge_in_self e : edge_in e [e] = true.
Proof. unfold edge_in. cbn [existsb]. now rewrite !Nat.eqb_refl. Qed.

Lemma edge_in_merge_edge e e' es :
  edge_in e es = true -> edge_in e (Cypher.merge_edge e' es) = true.
Proof.
  intros H. destruct (edge_in e' es) eqn:E.
  - now rewrite merge_edge_present.
  - rewrite merge_edge_absent by exact E. rewrite edge_in_app, H. reflexivity.
Qed.

Lemma edge_in_merge_self e es : edge_in e (Cypher.merge_edge e es) = true.
Proof.
  destruct (edge_in e es) eqn:E.
  - now rewrite merge_edge_present.
  - rewrite merge_edge_absent by exact E.
    rewrite edge_in_app, edge_in_self. apply orb_true_r.
Qed.

Lemma merge_all_keeps e rows es :
  edge_in e es = true -> edge_in e (merge_all rows es) = true.
Proof.
  revert es. induction rows as [|r rows IH]; intros es H; [exact H|].
  cbn [fold_left]. apply IH. now apply edge_in_merge_edge.
Qed.

Lemma merge_all_adds e rows es :
  List.In e rows -> edge_in e (merge_all rows es) = true.
Proof.
  revert es. induction rows as [|r rows IH]; intros es H; [destruct H|].
  cbn [fold_left]. destruct H as [->|H].
  - apply merge_all_keeps. apply edge_in_merge_self.
  - now apply IH.
Qed.

Lemma merge_all_fixed rows es :
  (forall e, List.In e rows -> edge_in e es = true) -> merge_all rows es = es.
Proof.
  induction rows as [|r rows IH]; intros H; [reflexivity|].
  cbn [fold_left]. rewrite merge_edge_present by (apply H; now left).
  apply IH. intros e He. apply H. now right.
Qed.

(** Linking the same pairs again adds nothing. *)
Lemma merge_all_idem rows es :
  merge_all rows (merge_all rows es) = merge_all rows es.
Proof. apply merge_all_fixed. intros e He. now apply merge_all_adds. Qed.



(** The pairs depend on the cluster records only through their names and
    identities. *)
Lemma link_rows_touch name now ips ns cs es es' k k' :
  link_rows name ips (mkLedger ns (map (touch name now) cs) es k)
  = link_rows name ips (mkLedger ns cs es' k').
Proof.
  unfold link_rows. cbn [clusters nodes].
  induction cs as [|c cs IH]; [reflexivity|].
  cbn [map List.filter]. rewrite is_cluster_touch.
  destruct (Cypher.is_cluster name c); [|exact IH].
  rewrite !bind_cons, IH, cluster_id_touch. reflexivity.
Qed.

Lemma delete_cluster_named name L :
  named name (CypherMore.delete_cluster name L) = [].
Proof.
  unfold named. cbn [CypherMore.delete_cluster clusters].
  induction (clusters L) as [|c l IH]; [reflexivity|].
  cbn [List.filter]. destruct (Cypher.is_cluster name c) eqn:E; cbn [negb].
  - exact IH.
  - cbn [List.filter]. now rewrite E.
Qed.

Lemma delete_cluster_others name' name L :
  name' <> name ->
  named name' (CypherMore.delete_cluster name L) = named name' L.
Proof.
  intros Hne. unfold named. cbn [CypherMore.delete_cluster clusters].
  induction (clusters L) as [|c l IH]; [reflexivity|].
  cbn [List.filter]. destruct (Cypher.is_cluster name c) eqn:E; cbn [negb].
  - rewrite IH. destruct (Cypher.is_cluster name' c) eqn:E'; [|reflexivity].
    unfold Cypher.is_cluster in E, E'.
    apply String.eqb_eq in E. apply String.eqb_eq in E'. congruence.
  - cbn [List.filter]. now rewrite IH.
Qed.

(** [DETACH]: no edge that survives ends at a deleted cluster. *)
Lemma delete_cluster_edges name L e :
  List.In e (member_of (CypherMore.delete_cluster name L)) ->
  List.In e (member_of L)
  /\ forall c, List.In c (clusters L) -> cluster_name c = name ->
               cluster_id c <> snd e.
Proof.
  cbn [CypherMore.delete_cluster member_of]. intros H.
  apply List.filter_In in H. destruct H as [Hin Hneg]. split; [exact Hin|].
  intros c Hc Hname Hid. apply negb_true_iff in Hneg.
  assert (Hex : existsb (Nat.eqb (snd e))
                  (map cluster_id
                     (List.filter (Cypher.is_cluster name) (clusters L)))
                = true).
  { apply List.existsb_exists. exists (cluster_id c). split.
    - apply List.in_map. apply List.filter_In. split; [exact Hc|].
      unfold Cypher.is_cluster. now apply String.eqb_eq.
    - apply Nat.eqb_eq. now symmetry. }
  congruence.
Qed.

Lemma delete_cluster_unique name L :
  unique_clusters L -> unique_clusters (CypherMore.delete_cluster name L).
Proof.
  intros HL name'. specialize (HL name'). unfold named in *.
  cbn [CypherMore.delete_cluster clusters].
  assert (H : forall l : list ClusterRec,
             (length (List.filter (Cypher.is_cluster name')
                        (List.filter (fun c => negb (Cypher.is_cluster name c)) l))
              <= length (List.filter (Cypher.is_cluster name') l))%nat).
  { induction l as [|c l IH]; cbn [List.filter length]; [lia|].
    destruct (Cypher.is_cluster name c); cbn [negb List.filter];
      destruct (Cypher.is_cluster name' c); cbn [length]; lia. }
  specialize (H (clusters L)). lia.
Qed.

Lemma merge_node_statuses ip name a b now L :
  statuses_known L ->
  statuses_known (Cypher.merge_node ip name (node_status_of a b) now L).
Proof.
  intros HL n Hin.
  assert (Hst : node_status_of a b = "active" \/ node_status_of a b = "degraded")
    by (unfold node_status_of; destruct (a && b); auto).
  unfold Cypher.merge_node in Hin.
  destruct (existsb (Cypher.has_ip ip) (nodes L)); cbn [nodes] in Hin.
  - apply List.in_map_iff in Hin. destruct Hin as [n0 [<- Hin]].
    destruct (Cypher.has_ip ip n0); cbn [node_status]; [exact Hst|now apply HL].
  - apply List.in_app_iff in Hin. destruct Hin as [Hin|[<-|[]]];
      [now apply HL|exact Hst].
Qed.

(** The three invariants pass through every ledger query of the
    service. *)
Lemma ledger_step_unique_ips L L' :
  ledger_step L L' -> unique_ips L -> unique_ips L'.
Proof.
  induction 1; intros HL; auto.
  - now apply merge_node_unique.
  - now apply delete_node_unique.
  - intros ip'. unfold at_ip. rewrite merge_cluster_nodes. apply HL.
Qed.

Lemma ledger_step_statuses L L' :
  ledger_step L L' -> statuses_known L -> statuses_known L'.
Proof.
  induction 1; intros HL; auto.
  - now apply merge_node_statuses.
  - intros n Hin. rewrite delete_node_nodes in Hin.
    apply List.filter_In in Hin. apply HL. tauto.
  - intros n Hin. rewrite merge_cluster_nodes in Hin. now apply HL.
Qed.

Lemma merge_node_clusters ip name status now L :
  clusters (Cypher.merge_node ip name status now L) = clusters L.
Proof. unfold Cypher.merge_node. destruct (existsb _ _); reflexivity. Qed.

Lemma ledger_step_unique_clusters L L' :
  ledger_step L L' -> unique_clusters L -> unique_clusters L'.
Proof.
  induction 1; intros HL; auto.
  - intros name'. unfold named. rewrite merge_node_clusters. apply HL.
  - now apply merge_cluster_unique.
  - now apply delete_cluster_unique.
Qed.

End LedgerMore.

#[local] Opaque Cypher.merge_node Cypher.delete_node Cypher.merge_cluster
  Cypher.link_members.

(** ** Registration and removal beyond the success path *)

Section RegistrationMore.

Variable http_exception_str : Z -> string -> string.

(** A registration whose ledger step fails ends in status 500 (also when
    the session itself answered 503), after both probes were made, and
    writes neither the ledger nor the target files. *)
Theorem register_node_ledger_failure env name ip node_port w :
  connect_fails env = true \/ query_error env 0 <> None ->
  let r := register_node http_exception_str env name ip node_port w in
  fst r = inl (HTTPException 500 ("Neo4j Error: "
                              +:+ ledger_failure_text http_exception_str env))
  /\ ledger (snd r) = ledger w
  /\ files (snd r) = files w
  /\ exists tr,
       trace (snd r)
       = trace w ++ EvHttpGet (health_url ip 9001)
                 :: EvHttpGet (health_url ip 9003) :: EvConnect :: tr.
Proof.
  intros H. cbv zeta. destruct w as [L fs tr0].
  unfold register_node, check_minio_health, get_db_session, session_run,
    try_except, bind, emit, ret, raise, ledger_failure_text, str_exn,
    health_url.
  cbn [ledger files trace fst snd].
  destruct (connect_fails env) eqn:Hc; cbn [ledger files trace fst snd].
  - repeat split. exists []. now rewrite <- !List.app_assoc.
  - destruct H as [H|H]; [discriminate|].
    destruct (query_error env 0) as [msg|]; [|congruence].
    cbn [ledger files trace fst snd].
    repeat split. eexists. now rewrite <- !List.app_assoc.
Qed.

(** A registration with the ledger answering but the file system failing
    on both target files still reports success: the node is in the
    ledger, the target files are as before. *)
Theorem register_node_feed_failure env name ip node_port w :
  ledger_up env ->
  io_fault env TARGETS_MINIO_FILE = true ->
  io_fault env TARGETS_NODE_FILE = true ->
  let r := register_node http_exception_str env name ip node_port w in
  fst r = inr (registered_response env name ip)
  /\ at_ip ip (ledger (snd r)) <> []
  /\ files (snd r) = files w.
Proof.
  intros Hup Hm Hn. cbv zeta.
  destruct (register_node_run http_exception_str env name ip node_port w Hup)
    as [tr ->].
  cbn [fst snd ledger files]. split; [reflexivity|].
  split; [apply merge_node_at_ip_nonempty|].
  unfold register_files, apply_update, update_outcome. now rewrite Hn, Hm.
Qed.

Lemma delete_node_present_run env name w :
  ledger_up env ->
  existsb (Cypher.has_name name) (nodes (ledger w)) = true ->
  exists tr,
    delete_node http_exception_str env name w
    = (inr (JDict [("status", JStr "deleted"); ("node", JStr name)]),
       mkWorld (snd (Cypher.delete_node name (ledger w)))
         (deregister_files env name (files w))
         (trace w ++ tr)).
Proof.
  intros [Hc Hq] Hex. destruct w as [L fs tr0]. cbn [ledger] in Hex.
  unfold delete_node, get_db_session, session_run, try_except, bind, emit,
    ret, raise. cbn [ledger files trace].
  rewrite Hc, Hq. cbn [ledger files trace].
  destruct (Cypher.delete_node name L) as [k L'] eqn:Hd.
  assert (Hk : k = length (List.filter (Cypher.has_name name) (nodes L)))
    by (rewrite <- (delete_node_count name L), Hd; reflexivity).
  assert (Hpos : Nat.eqb k 0 = false).
  { apply Nat.eqb_neq. subst k.
    pose proof (filter_some _ _ Hex) as Hne.
    destruct (List.filter (Cypher.has_name name) (nodes L));
      [congruence|discriminate]. }
  cbn [fst snd ledger files trace]. rewrite Hpos. cbn [snd].
  run_update. run_update.
  unfold deregister_files. cbn [ledger files trace].
  eexists. rewrite <- !List.app_assoc. reflexivity.
Qed.

Lemma deregister_files_minio env name fs :
  feed_up env -> feeds_wellformed fs ->
  collection (deregister_files env name fs) TARGETS_MINIO_FILE
  = List.filter (other name) (collection fs TARGETS_MINIO_FILE).
Proof.
  intros [Hm _] [Wm _]. unfold deregister_files.
  rewrite collection_apply_update_other
    by (intros E; symmetry in E; exact (target_files_differ E)).
  rewrite collection_apply_update by assumption.
  apply List.app_nil_r.
Qed.

Lemma deregister_files_node env name fs :
  feed_up env -> feeds_wellformed fs ->
  collection (deregister_files env name fs) TARGETS_NODE_FILE
  = List.filter (other name) (collection fs TARGETS_NODE_FILE).
Proof.
  intros [_ Hn] [_ Wn]. unfold deregister_files.
  rewrite collection_apply_update.
  - rewrite collection_apply_update_other by exact target_files_differ.
    apply List.app_nil_r.
  - exact Hn.
  - rewrite inspectable_apply_update_other by exact target_files_differ.
    exact Wn.
Qed.

(** A removal of a name some record carries, with the ledger
    answering: every record of that name goes, with the edges that start
    at it; clusters and other records stay.  When the file system
    answers and the helper can work on both target stores, both target
    collections lose exactly the entries labelled with the name. *)
Theorem delete_node_removes env name w :
  ledger_up env ->
  existsb (Cypher.has_name name) (nodes (ledger w)) = true ->
  let r := delete_node http_exception_str env name w in
  fst r = inr (JDict [("status", JStr "deleted"); ("node", JStr name)])
  /\ nodes (ledger (snd r))
     = List.filter (fun n => negb (Cypher.has_name name n)) (nodes (ledger w))
  /\ clusters (ledger (snd r)) = clusters (ledger w)
  /\ (forall e, List.In e (member_of (ledger (snd r))) ->
        List.In e (member_of (ledger w))
        /\ forall n, List.In n (nodes (ledger w)) -> node_name n = name ->
                     node_id n <> fst e)
  /\ (feed_up env -> feeds_wellformed (files w) ->
      collection (files (snd r)) TARGETS_MINIO_FILE
      = List.filter (other name) (collection (files w) TARGETS_MINIO_FILE)
      /\ collection (files (snd r)) TARGETS_NODE_FILE
         = List.filter (other name) (collection (files w) TARGETS_NODE_FILE)).
Proof.
  intros Hup Hex. cbv zeta.
  destruct (delete_node_present_run env name w Hup Hex) as [tr ->].
  cbn [fst snd ledger files].
  split; [reflexivity|]. split; [apply delete_node_nodes|].
  split; [apply delete_node_clusters|].
  split; [intros e; apply delete_node_edges|].
  intros Hfeed Hwf.
  split; [now apply deregister_files_minio|now apply deregister_files_node].
Qed.

(** A removal whose ledger step fails touches nothing.  A session that
    cannot be opened surfaces as status 503, unchanged; a failing query
    surfaces as status 500. *)
Theorem delete_node_ledger_failure env name w :
  connect_fails env = true \/ query_error env 0 <> None ->
  let r := delete_node http_exception_str env name w in
  fst r
  = inl (if connect_fails env
         then HTTPException 503 "Ledger is warming up, please wait."
         else HTTPException 500
                ("Neo4j Delete Failed: "
                 +:+ ledger_failure_text http_exception_str env))
  /\ ledger (snd r) = ledger w
  /\ files (snd r) = files w.
Proof.
  intros H. cbv zeta. destruct w as [L fs tr0].
  unfold delete_node, get_db_session, session_run, try_except, bind, emit,
    ret, raise, ledger_failure_text, str_exn.
  cbn [ledger files trace fst snd].
  destruct (connect_fails env) eqn:Hc; cbn [ledger files trace fst snd].
  - repeat split.
  - destruct H as [H|H]; [discriminate|].
    destruct (query_error env 0) as [msg|]; [|congruence].
    cbn [ledger files trace fst snd]. repeat split.
Qed.

(** Registering a name and then removing it, with the ledger answering
    both times: no record of that name is left and the address is free
    again.  When the file system answers both times and the helper can
    work on both target stores, both target collections are back to
    what they held for the other aliases. *)
Theorem register_then_delete env1 env2 name ip node_port w :
  ledger_up env1 -> ledger_up env2 ->
  let w1 := snd (register_node http_exception_str env1 name ip node_port w) in
  let r := delete_node http_exception_str env2 name w1 in
  fst r = inr (JDict [("status", JStr "deleted"); ("node", JStr name)])
  /\ (forall n, List.In n (nodes (ledger (snd r))) -> node_name n <> name)
  /\ at_ip ip (ledger (snd r)) = []
  /\ (feed_up env1 -> feed_up env2 ->
      feeds_wellformed (files w) ->
      collection (files (snd r)) TARGETS_MINIO_FILE
      = List.filter (other name) (collection (files w) TARGETS_MINIO_FILE)
      /\ collection (files (snd r)) TARGETS_NODE_FILE
         = List.filter (other name) (collection (files w) TARGETS_NODE_FILE)).
Proof.
  intros Hup1 Hup2. cbv zeta.
  destruct (register_node_run http_exception_str env1 name ip node_port w Hup1)
    as [tr1 E1].
  rewrite E1. cbn [snd].
  set (L1 := Cypher.merge_node ip name
               (node_status_of (probe env1 ip 9001) (probe env1 ip 9003))
               (now env1) (ledger w)).
  set (fs1 := register_files env1 name ip node_port (files w)).
  assert (Hnamed : forall n, List.In n (at_ip ip L1) -> node_name n = name)
    by (intros n Hn; now apply merge_node_at_ip in Hn).
  assert (Hex : existsb (Cypher.has_name name) (nodes L1) = true).
  { pose proof (merge_node_at_ip_nonempty ip name
                  (node_status_of (probe env1 ip 9001) (probe env1 ip 9003))
                  (now env1) (ledger w)) as Hne.
    fold L1 in Hne. destruct (at_ip ip L1) as [|n l] eqn:Hat; [congruence|].
    assert (Hin : List.In n (at_ip ip L1)) by (rewrite Hat; now left).
    apply List.existsb_exists. exists n. split.
    - unfold at_ip in Hin. apply List.filter_In in Hin. exact (proj1 Hin).
    - unfold Cypher.has_name. apply String.eqb_eq. apply Hnamed. now left. }
  destruct (delete_node_present_run env2 name
              (mkWorld L1 fs1 (trace w ++ tr1)) Hup2 Hex) as [tr2 ->].
  cbn [fst snd ledger files].
  pose proof (delete_node_nodes name L1) as Hn.
  split; [reflexivity|]. split; [|split].
  - intros n Hin. rewrite Hn in Hin. apply List.filter_In in Hin.
    destruct Hin as [_ Hneg]. apply negb_true_iff in Hneg.
    unfold Cypher.has_name in Hneg. now apply String.eqb_neq in Hneg.
  - unfold at_ip. rewrite Hn.
    destruct (List.filter (Cypher.has_ip ip)
                (List.filter (fun n => negb (Cypher.has_name name n)) (nodes L1)))
      as [|n l] eqn:Hfil; [reflexivity|exfalso].
    assert (Hin : List.In n (n :: l)) by now left.
    rewrite <- Hfil in Hin. apply List.filter_In in Hin.
    destruct Hin as [Hin Hip]. apply List.filter_In in Hin.
    destruct Hin as [Hin Hneg]. apply negb_true_iff in Hneg.
    assert (Hname : node_name n = name).
    { apply Hnamed. unfold at_ip. apply List.filter_In. now split. }
    unfold Cypher.has_name in Hneg. apply String.eqb_neq in Hneg. congruence.
  - intros Hf1 Hf2 Hwf.
    pose proof (register_files_wellformed env1 name ip node_port _ Hf1 Hwf)
      as Hwf1.
    fold fs1 in Hwf1. split.
    + rewrite (deregister_files_minio env2 name fs1 Hf2 Hwf1).
      unfold fs1. rewrite register_files_minio by assumption.
      rewrite List.filter_app, filter_other_idem.
      rewrite (filter_other_labelled name _ (labelled_minio_target name ip)).
      apply List.app_nil_r.
    + rewrite (deregister_files_node env2 name fs1 Hf2 Hwf1).
      unfold fs1. rewrite register_files_node by assumption.
      rewrite List.filter_app, filter_other_idem.
      rewrite (filter_other_labelled name _
                 (labelled_node_target name ip node_port)).
      apply List.app_nil_r.
Qed.

End RegistrationMore.

(** ** Cluster formation: frame, edges, re-formation *)

Section ClusterMore.

Variable json_loads : string -> option json.

Local Abbreviation merge_all := (fold_left (fun es e => Cypher.merge_edge e es)).

Lemma cluster_ledger_step env name ips L :
  ledger_step L (cluster_ledger env name ips L).
Proof.
  unfold cluster_ledger.
  destruct (connect_fails env); [constructor|].
  destruct (query_error env 0); [constructor|].
  destruct ips as [|ip ips]; [constructor|].
  destruct (query_error env 1); [constructor|].
  eapply step_then; constructor.
Qed.



(** Where a formation request leaves the world: the files as they were,
    the ledger as it was or as the guarded ledger step leaves it. *)
Lemma create_cluster_world env name aliases w :
  let r := create_cluster json_loads env name aliases w in
  files (snd r) = files w
  /\ (ledger (snd r) = ledger w
      \/ ledger (snd r)
         = cluster_ledger env name
             (Py.dict_values (resolved json_loads env (parse_aliases aliases)))
             (ledger w)).
Proof.
  cbv zeta.
  destruct (Nat.ltb_spec (length (parse_aliases aliases)) 2) as [Hlt|Hge].
  - rewrite (create_cluster_invalid json_loads env name aliases w Hlt). auto.
  - destruct (startable (join_cmd (parse_aliases aliases))) eqn:Hst.
    2: { destruct (create_cluster_refused json_loads env name aliases w Hge Hst)
           as [tr ->]. cbn [snd files ledger]. auto. }
    destruct (join_accepted env (parse_aliases aliases)) eqn:Hacc.
    + destruct (create_cluster_run json_loads env name aliases w Hge Hacc)
        as [tr ->]. cbn [snd files ledger]. auto.
    + rewrite (create_cluster_rejected json_loads env name aliases w Hge Hst
                 Hacc).
      cbn [snd files ledger]. auto.
Qed.





(** With the ledger answering, an accepted formation always declares the
    cluster, also when the listing resolves no alias; in that case no
    membership edge is added. *)
Theorem create_cluster_declares_cluster env name aliases w :
  (2 <= length (parse_aliases aliases))%nat ->
  join_accepted env (parse_aliases aliases) = true ->
  ledger_up env ->
  let r := create_cluster json_loads env name aliases w in
  (exists c, List.In c (clusters (ledger (snd r)))
             /\ cluster_name c = name /\ cluster_created_at c = now env)
  /\ (resolved json_loads env (parse_aliases aliases) = [] ->
      member_of (ledger (snd r)) = member_of (ledger w)).
Proof.
  intros Hlen Hacc [Hc Hq]. cbv zeta.
  destruct (create_cluster_run json_loads env name aliases w Hlen Hacc)
    as [tr ->].
  cbn [snd ledger]. unfold cluster_ledger. rewrite Hc, Hq.
  split.
  - pose proof (merge_cluster_exists name (now env) (ledger w)) as Hex.
    apply List.existsb_exists in Hex. destruct Hex as [c [Hin Hname]].
    exists c.
    split; [|split].
    + destruct (Py.dict_values _); [exact Hin|].
      destruct (query_error env 1); [exact Hin|].
      now rewrite link_members_clusters.
    + unfold Cypher.is_cluster in Hname. now apply String.eqb_eq.
    + now apply (merge_cluster_created_at name (now env) (ledger w)).
  - intros ->. cbn [Py.dict_values map]. apply merge_cluster_member_of.
Qed.

(** Forming a cluster a second time, with the same aliases resolving to
    the same addresses and the ledger answering: no membership edge and
    no cluster record is added. *)
Theorem create_cluster_twice_keeps_edges env1 env2 name aliases w :
  (2 <= length (parse_aliases aliases))%nat ->
  join_accepted env1 (parse_aliases aliases) = true ->
  join_accepted env2 (parse_aliases aliases) = true ->
  ledger_all_up env1 ->
  ledger_all_up env2 ->
  resolved json_loads env2 (parse_aliases aliases)
  = resolved json_loads env1 (parse_aliases aliases) ->
  let w1 := snd (create_cluster json_loads env1 name aliases w) in
  let w2 := snd (create_cluster json_loads env2 name aliases w1) in
  member_of (ledger w2) = member_of (ledger w1)
  /\ map cluster_id (clusters (ledger w2)) = map cluster_id (clusters (ledger w1))
  /\ nodes (ledger w2) = nodes (ledger w1).
Proof.
  intros Hlen Hacc1 Hacc2 [Hc1 Hq1] [Hc2 Hq2] Hres. cbv zeta.
  destruct (create_cluster_run json_loads env1 name aliases w Hlen Hacc1)
    as [tr1 ->].
  cbn [snd].
  match goal with
  | |- context [create_cluster json_loads env2 name aliases ?w1] =>
      destruct (create_cluster_run json_loads env2 name aliases w1 Hlen Hacc2)
        as [tr2 ->]
  end.
  cbn [snd ledger]. rewrite Hres.
  set (ips := Py.dict_values (resolved json_loads env1 (parse_aliases aliases))).
  unfold cluster_ledger. rewrite Hc1, Hc2, !Hq1, !Hq2.
  set (M1 := Cypher.merge_cluster name (now env1) (ledger w)).
  assert (Hex : existsb (Cypher.is_cluster name) (clusters M1) = true)
    by apply merge_cluster_exists.
  destruct ips as [|ip ips].
  - rewrite merge_cluster_member_of, merge_cluster_nodes.
    rewrite (merge_cluster_ids_again name (now env2) M1 Hex). auto.
  - set (L1 := Cypher.link_members name (ip :: ips) M1).
    assert (HexL1 : existsb (Cypher.is_cluster name) (clusters L1) = true)
      by (unfold L1; now rewrite link_members_clusters).
    rewrite link_members_clusters, link_members_nodes, merge_cluster_nodes.
    rewrite (merge_cluster_ids_again name (now env2) L1 HexL1).
    split; [|auto].
    rewrite link_members_member_of, merge_cluster_member_of.
    rewrite (merge_cluster_hit name (now env2) L1 HexL1).
    unfold L1 at 1 2. rewrite link_members_nodes, link_members_clusters.
    rewrite (link_rows_touch name (now env2) (ip :: ips) (nodes M1) (clusters M1)
               (member_of L1) (member_of M1) (next_id L1) (next_id M1)).
    replace (mkLedger (nodes M1) (clusters M1) (member_of M1) (next_id M1))
      with M1 by (destruct M1; reflexivity).
    unfold L1. rewrite link_members_member_of. apply merge_all_idem.
Qed.

End ClusterMore.

(** ** Alias parsing and resolution *)

Section AliasMore.

Variable json_loads : string -> option json.

Lemma lstrip_idem s : PyStr.lstrip (PyStr.lstrip s) = PyStr.lstrip s.
Proof.
  induction s as [|c s IH]; [reflexivity|].
  cbn [PyStr.lstrip]. destruct (PyStr.is_space c) eqn:E; [exact IH|].
  cbn [PyStr.lstrip]. now rewrite E.
Qed.

Lemma lstrip_length s :
  (String.length (PyStr.lstrip s) <= String.length s)%nat.
Proof.
  induction s as [|c s IH]; [reflexivity|].
  cbn [PyStr.lstrip]. destruct (PyStr.is_space c); cbn [String.length]; lia.
Qed.

Lemma rstrip_cons c s :
  PyStr.rstrip (String c s)
  = match PyStr.rstrip s with
    | EmptyString =>
        if PyStr.is_space c then EmptyString else String c EmptyString
    | r => String c r
    end.
Proof. reflexivity. Qed.

Lemma rstrip_idem s : PyStr.rstrip (PyStr.rstrip s) = PyStr.rstrip s.
Proof.
  induction s as [|c s IH]; [reflexivity|].
  rewrite rstrip_cons. destruct (PyStr.rstrip s) as [|d r] eqn:Er.
  - destruct (PyStr.is_space c) eqn:E; [reflexivity|].
    rewrite rstrip_cons. cbn [PyStr.rstrip]. now rewrite E.
  - rewrite rstrip_cons, IH. reflexivity.
Qed.

Lemma lstrip_rstrip t :
  PyStr.lstrip t = t -> PyStr.lstrip (PyStr.rstrip t) = PyStr.rstrip t.
Proof.
  destruct t as [|c t]; [reflexivity|].
  cbn [PyStr.lstrip]. destruct (PyStr.is_space c) eqn:E.
  - intros H. exfalso. pose proof (lstrip_length t) as Hl.
    rewrite H in Hl. cbn [String.length] in Hl. lia.
  - intros _. rewrite rstrip_cons.
    destruct (PyStr.rstrip t); rewrite ?E; cbn [PyStr.lstrip]; now rewrite E.
Qed.

(** Stripping twice is stripping once. *)
Lemma strip_idem s : PyStr.strip (PyStr.strip s) = PyStr.strip s.
Proof.
  unfold PyStr.strip.
  rewrite (lstrip_rstrip (PyStr.lstrip s) (lstrip_idem s)).
  apply rstrip_idem.
Qed.

(** No piece of a split on one character contains that character. *)
Lemma split_go_char c acc s :
  PyStr.contains (String c EmptyString) acc = false ->
  List.Forall (fun p => PyStr.contains (String c EmptyString) p = false)
    (PyStr.split_go (String c EmptyString) 0 acc s).
Proof.
  revert acc. induction s as [|b s IH]; intros acc Hacc.
  - cbn [PyStr.split_go]. constructor; [exact Hacc|constructor].
  - cbn [PyStr.split_go PyStr.starts_with String.length Nat.sub].
    rewrite andb_true_r.
    destruct (Ascii.eqb c b) eqn:E.
    + constructor; [exact Hacc|]. now apply IH.
    + apply IH. rewrite contains_char_app, Hacc, contains_char_cons, E.
      reflexivity.
Qed.

Lemma split_char c s :
  List.Forall (fun p => PyStr.contains (String c EmptyString) p = false)
    (PyStr.split (String c EmptyString) s).
Proof. unfold PyStr.split. now apply split_go_char. Qed.

Lemma lstrip_no_char c s :
  PyStr.contains (String c EmptyString) s = false ->
  PyStr.contains (String c EmptyString) (PyStr.lstrip s) = false.
Proof.
  induction s as [|b s IH]; [auto|].
  intros H. cbn [PyStr.lstrip]. destruct (PyStr.is_space b); [|exact H].
  apply IH. rewrite contains_char_cons in H.
  now apply orb_false_elim in H.
Qed.

Lemma rstrip_no_char c s :
  PyStr.contains (String c EmptyString) s = false ->
  PyStr.contains (String c EmptyString) (PyStr.rstrip s) = false.
Proof.
  induction s as [|b s IH]; [auto|].
  intros H. rewrite contains_char_cons in H.
  apply orb_false_elim in H. destruct H as [Hb Hs].
  rewrite rstrip_cons. specialize (IH Hs).
  destruct (PyStr.rstrip s) as [|d r].
  - destruct (PyStr.is_space b); [reflexivity|].
    now rewrite contains_char_cons, Hb.
  - now rewrite contains_char_cons, Hb, IH.
Qed.

Lemma strip_no_char c s :
  PyStr.contains (String c EmptyString) s = false ->
  PyStr.contains (String c EmptyString) (PyStr.strip s) = false.
Proof.
  intros H. unfold PyStr.strip. now apply rstrip_no_char, lstrip_no_char.
Qed.

(** Every alias the parser returns is non-empty, carries no white space
    at either end and contains no comma. *)
Theorem parse_aliases_trimmed aliases :
  List.Forall
    (fun a => a <> EmptyString
              /\ PyStr.strip a = a
              /\ PyStr.contains "," a = false)
    (parse_aliases aliases).
Proof.
  apply List.Forall_forall. intros a Ha.
  unfold parse_aliases in Ha. apply list_elem_of_In in Ha.
  apply list_elem_of_bind in Ha. destruct Ha as [piece [Ha Hpiece]].
  apply list_elem_of_In in Hpiece.
  pose proof (split_char "," aliases) as Hsplit.
  rewrite List.Forall_forall in Hsplit. specialize (Hsplit piece Hpiece).
  destruct (String.eqb (PyStr.strip piece) EmptyString) eqn:E;
    cbn [negb] in Ha; apply list_elem_of_In in Ha; [destruct Ha|].
  destruct Ha as [<-|[]].
  split; [|split].
  - now apply String.eqb_neq.
  - apply strip_idem.
  - now apply strip_no_char.
Qed.

Lemma ip_part_no_colon url : PyStr.contains ":" (ip_part url) = false.
Proof.
  unfold ip_part.
  pose proof (split_char ":" (List.last (PyStr.split "://" url) EmptyString))
    as H.
  destruct (PyStr.split ":" (List.last (PyStr.split "://" url) EmptyString));
    [reflexivity|].
  now inversion H.
Qed.

Lemma mem_In x l : PyStr.mem x l = true -> List.In x l.
Proof.
  unfold PyStr.mem. intros H. apply List.existsb_exists in H.
  destruct H as [y [Hy E]]. apply String.eqb_eq in E. now subst.
Qed.

Lemma dict_set_keys {A : Type} (k a : string) (v : A) m :
  List.In k (map fst (Py.dict_set a v m)) -> k = a \/ List.In k (map fst m).
Proof.
  induction m as [|[k' v'] m IH]; cbn [Py.dict_set map fst List.In].
  - intros [<-|[]]. now left.
  - destruct (String.eqb a k') eqn:E; cbn [map fst List.In].
    + apply String.eqb_eq in E. subst k'.
      intros [<-|H]; [now left|right; now right].
    + intros [<-|H]; [right; now left|].
      apply IH in H. destruct H as [->|H]; [now left|right; now right].
Qed.

(** Assigning to a key keeps every key single. *)
Lemma dict_set_NoDup {A : Type} (a : string) (v : A) m :
  List.NoDup (map fst m) -> List.NoDup (map fst (Py.dict_set a v m)).
Proof.
  induction m as [|[k' v'] m IH]; cbn [Py.dict_set map fst]; intros H.
  - constructor; [intros []|constructor].
  - inversion H as [|x l Hnin Hnd]; subst.
    destruct (String.eqb a k') eqn:E; cbn [map fst].
    + apply String.eqb_eq in E. subst k'. now constructor.
    + constructor; [|now apply IH].
      intros Hin. apply dict_set_keys in Hin. destruct Hin as [->|Hin].
      * now rewrite String.eqb_refl in E.
      * contradiction.
Qed.

Lemma dict_set_Forall {A : Type} (P : string * A -> Prop) a v m :
  P (a, v) -> List.Forall P m -> List.Forall P (Py.dict_set a v m).
Proof.
  intros Hp. induction m as [|[k' v'] m IH]; cbn [Py.dict_set]; intros H.
  - now constructor.
  - inversion H; subst. destruct (String.eqb a k'); constructor; auto.
Qed.

Lemma resolve_line_ok alias_list m line :
  alias_map_ok alias_list m ->
  alias_map_ok alias_list (resolve_line json_loads alias_list m line).
Proof.
  intros [Hnd Hall]. unfold resolve_line.
  destruct (json_loads line) as [[| | | | |l|data]|]; try (split; assumption).
  destruct (Py.in_strs (Py.get "alias" data) alias_list
            && Py.truthy
                 (Py.or_else (Py.get_or "URL" (JStr EmptyString) data)
                    (Py.get_or "url" (JStr EmptyString) data))) eqn:E;
    [|split; assumption].
  apply andb_prop in E. destruct E as [Hmem _].
  destruct (Py.get "alias" data) as [| | | |a| |]; try (split; assumption).
  destruct (Py.or_else _ _) as [| | | |u| |]; try (split; assumption).
  split.
  - now apply dict_set_NoDup.
  - apply dict_set_Forall; [|exact Hall]. cbn [fst snd].
    split; [now apply mem_In|apply ip_part_no_colon].
Qed.

Lemma fold_resolve_ok alias_list lines m :
  alias_map_ok alias_list m ->
  alias_map_ok alias_list
    (fold_left (resolve_line json_loads alias_list) lines m).
Proof.
  revert m. induction lines as [|line lines IH]; intros m H; [exact H|].
  cbn [fold_left]. apply IH. now apply resolve_line_ok.
Qed.

(** The alias resolution never raises and runs the listing command once;
    the map it returns has each key once, every key is one of the
    requested aliases, and no address in it contains a colon (the port is
    cut off). *)
Theorem resolve_aliases_map env alias_list w :
  exists m,
    resolve_aliases json_loads env alias_list w
    = (inr m,
       mkWorld (ledger w) (files w)
         (trace w ++ [EvShell "mc alias list --json"]))
    /\ List.NoDup (map fst m)
    /\ List.Forall
         (fun kv => List.In (fst kv) alias_list
                    /\ PyStr.contains ":" (snd kv) = false) m.
Proof.
  unfold resolve_aliases, subprocess_run, bind, emit, ret.
  eexists. split; [reflexivity|].
  destruct (Z.eqb (returncode (shell env "mc alias list --json")) 0).
  - apply fold_resolve_ok. split; [constructor|constructor].
  - split; constructor.
Qed.

End AliasMore.

(** ** The read-only and command endpoints *)

Section EndpointsMore.

Variable json_loads : string -> option json.
Variable json_loads_error : string -> err_kind * string.
Variable http_exception_str : Z -> string -> string.
Variable py_str : json -> string.

Lemma health_check_node_run env ip port w :
  health_check_node env ip port w
  = (if probe env ip port
     then inr (JDict [("status", JStr "online");
                      ("target", JStr (ip +:+ ":" +:+ PyStr.of_int port))])
     else inl (HTTPException 503
                 ("Node " +:+ ip +:+ ":" +:+ PyStr.of_int port
                  +:+ " is unreachable")),
     mkWorld (ledger w) (files w) (trace w ++ [EvHttpGet (health_url ip port)])).
Proof.
  unfold health_check_node, check_minio_health, bind, emit, ret, raise, probe,
    health_url.
  cbn [ledger files trace].
  destruct (http_get env _) as [code|]; [destruct (Z.eqb code 200)|];
    reflexivity.
Qed.


Lemma get_nodes_run env w :
  ledger_up env ->
  get_nodes http_exception_str env w
  = (inr (JList (map node_entry (nodes (ledger w)))),
     mkWorld (ledger w) (files w) (trace w ++ [EvConnect; EvQuery MATCH_NODES])).
Proof.
  intros [Hc Hq]. destruct w as [L fs tr0].
  unfold get_nodes, get_db_session, session_run, try_except, bind, emit, ret,
    raise. cbn [ledger files trace]. rewrite Hc, Hq.
  cbn [ledger files trace]. now rewrite <- List.app_assoc.
Qed.

(** A registered node is listed: after a registration with the ledger
    answering, the node listing has one element per node record, among
    them the one for this address with the name and status just written,
    and reading the listing changes neither ledger nor files. *)
Theorem registered_node_is_listed env1 env2 name ip node_port w :
  unique_ips (ledger w) ->
  ledger_up env1 -> ledger_up env2 ->
  let w1 := snd (register_node http_exception_str env1 name ip node_port w) in
  let r := get_nodes http_exception_str env2 w1 in
  exists id l,
    fst r = inr (JList l)
    /\ length l = length (nodes (ledger w1))
    /\ List.In
         (node_entry
            (mkNode id ip name
               (node_status_of (probe env1 ip 9001) (probe env1 ip 9003))
               (now env1))) l
    /\ ledger (snd r) = ledger w1
    /\ files (snd r) = files w1.
Proof.
  intros Hu Hup1 Hup2. cbv zeta.
  destruct (register_node_run http_exception_str env1 name ip node_port w Hup1)
    as [tr ->].
  cbn [snd]. rewrite (get_nodes_run env2 _ Hup2).
  cbn [fst snd ledger files].
  destruct (merge_node_single ip name
              (node_status_of (probe env1 ip 9001) (probe env1 ip 9003))
              (now env1) (ledger w) Hu) as [id [Hat _]].
  exists id. eexists. split; [reflexivity|].
  split; [apply length_map|]. split; [|split; reflexivity].
  apply List.in_map.
  assert (Hin : List.In
                  (mkNode id ip name
                     (node_status_of (probe env1 ip 9001) (probe env1 ip 9003))
                     (now env1))
                  (at_ip ip
                     (Cypher.merge_node ip name
                        (node_status_of (probe env1 ip 9001) (probe env1 ip 9003))
                        (now env1) (ledger w))))
    by (rewrite Hat; now left).
  unfold at_ip in Hin. apply List.filter_In in Hin. exact (proj1 Hin).
Qed.

(** Both listings answer a ledger failure with status 500, also when the
    session itself reported 503, and leave ledger and files alone. *)
Theorem listings_ledger_failure env w :
  connect_fails env = true \/ query_error env 0 <> None ->
  let detail := "Database Query Failed: "
                +:+ ledger_failure_text http_exception_str env in
  let rn := get_nodes http_exception_str env w in
  let rc := get_clusters http_exception_str env w in
  fst rn = inl (HTTPException 500 detail)
  /\ fst rc = inl (HTTPException 500 detail)
  /\ ledger (snd rn) = ledger w /\ files (snd rn) = files w
  /\ ledger (snd rc) = ledger w /\ files (snd rc) = files w.
Proof.
  intros H. cbv zeta. destruct w as [L fs tr0].
  unfold get_nodes, get_clusters, get_db_session, session_run, try_except,
    bind, emit, ret, raise, ledger_failure_text, str_exn.
  cbn [ledger files trace fst snd].
  destruct (connect_fails env); cbn [ledger files trace fst snd].
  - repeat split.
  - destruct H as [H|H]; [discriminate|].
    destruct (query_error env 0) as [msg|]; [|congruence].
    cbn [ledger files trace fst snd]. repeat split.
Qed.

Lemma unique_clusters_NoDup L :
  unique_clusters L -> List.NoDup (map cluster_name (clusters L)).
Proof.
  unfold unique_clusters, named.
  induction (clusters L) as [|c l IH]; intros H; [constructor|].
  cbn [map]. constructor.
  - intros Hin. apply List.in_map_iff in Hin. destruct Hin as [c' [Hname Hc']].
    specialize (H (cluster_name c)). cbn [List.filter] in H.
    unfold Cypher.is_cluster at 1 in H. rewrite String.eqb_refl in H.
    assert (Hne : List.filter (Cypher.is_cluster (cluster_name c)) l <> []).
    { apply filter_some. apply List.existsb_exists. exists c'.
      split; [exact Hc'|]. unfold Cypher.is_cluster. now apply String.eqb_eq. }
    destruct (List.filter (Cypher.is_cluster (cluster_name c)) l);
      [congruence|cbn [length] in H; lia].
  - apply IH. intros name. specialize (H name). cbn [List.filter] in H.
    destruct (Cypher.is_cluster name c); cbn [length] in H; lia.
Qed.

Lemma group_add_fresh key ms groups :
  (forall g, List.In g groups -> CypherMore.key_eqb (fst g) key = false) ->
  CypherMore.group_add key ms groups = groups ++ [(key, ms)].
Proof.
  induction groups as [|[k ms0] groups IH]; intros H; [reflexivity|].
  cbn [CypherMore.group_add app].
  pose proof (H (k, ms0) (or_introl eq_refl)) as Hk. cbn [fst] in Hk.
  rewrite Hk.
  f_equal. apply IH. intros g Hg. apply H. now right.
Qed.

(** With one record per cluster name, the aggregation makes one row per
    cluster record. *)
Lemma cluster_rows_unique L :
  unique_clusters L ->
  CypherMore.cluster_rows L
  = map (fun c => ((cluster_name c, cluster_created_at c),
                   CypherMore.members_of L c)) (clusters L).
Proof.
  intros Hu. apply unique_clusters_NoDup in Hu. unfold CypherMore.cluster_rows.
  assert (H : forall cs acc,
             List.NoDup (map cluster_name cs) ->
             (forall c g, List.In c cs -> List.In g acc ->
                          fst (fst g) <> cluster_name c) ->
             fold_left
               (fun groups c =>
                  CypherMore.group_add (cluster_name c, cluster_created_at c)
                    (CypherMore.members_of L c) groups) cs acc
             = acc ++ map (fun c => ((cluster_name c, cluster_created_at c),
                                     CypherMore.members_of L c)) cs).
  { induction cs as [|c cs IH]; intros acc Hnd Hacc.
    - cbn [fold_left map]. now rewrite List.app_nil_r.
    - cbn [fold_left map]. inversion Hnd as [|x l Hnin Hnd']; subst.
      rewrite group_add_fresh.
      + rewrite IH; [now rewrite <- List.app_assoc|exact Hnd'|].
        intros c' g Hc' Hg. apply List.in_app_iff in Hg.
        destruct Hg as [Hg|[<-|[]]].
        * apply Hacc; [now right|exact Hg].
        * cbn [fst]. intros E. apply Hnin. rewrite E. now apply List.in_map.
      + intros g Hg. unfold CypherMore.key_eqb. cbn [fst snd].
        destruct (String.eqb (fst (fst g)) (cluster_name c)) eqn:E;
          [|reflexivity].
        apply String.eqb_eq in E. exfalso.
        apply (Hacc c g); [now left|exact Hg|exact E]. }
  rewrite (H (clusters L) [] Hu); [reflexivity|]. intros c g _ [].
Qed.

(** With the ledger answering and one record per cluster name, the
    cluster listing has one element per cluster record, in ledger order,
    each with the members found edge by edge and their count; reading it
    changes neither ledger nor files. *)
Theorem get_clusters_lists_each_cluster env w :
  ledger_up env ->
  unique_clusters (ledger w) ->
  let r := get_clusters http_exception_str env w in
  fst r
  = inr (JList
           (map (fun c =>
                   let members :=
                     map member_entry (CypherMore.members_of (ledger w) c) in
                   JDict
                     [("name", JStr (cluster_name c));
                      ("created_at", JInt (cluster_created_at c));
                      ("node_count", JInt (Z.of_nat (length members)));
                      ("nodes", JList members)])
              (clusters (ledger w))))
  /\ ledger (snd r) = ledger w
  /\ files (snd r) = files w.
Proof.
  intros [Hc Hq] Hu. cbv zeta. destruct w as [L fs tr0].
  unfold get_clusters, get_db_session, session_run, try_except, bind, emit,
    ret, raise. cbn [ledger files trace]. rewrite Hc, Hq.
  cbn [ledger files trace fst snd] in *.
  rewrite (cluster_rows_unique L Hu), List.map_map.
  repeat split.
Qed.

Lemma dict_lookup_In {A : Type} k (d : list (string * A)) v :
  Py.dict_lookup k d = Some v -> List.In (k, v) d.
Proof.
  induction d as [|[k' v'] d IH]; [discriminate|]. cbn [Py.dict_lookup].
  destruct (String.eqb k k') eqn:E.
  - intros [= ->]. apply String.eqb_eq in E. subst k'. now left.
  - intros H. right. now apply IH.
Qed.

(** The reset loop of a dismantling whose aliases can all go on a
    command line: it does not raise, runs shell commands only, and logs
    one line per member address. *)
Lemma reset_members_run env alias_map cluster_ips w :
  aliases_startable py_str alias_map = true ->
  exists logs tr,
    reset_members py_str env alias_map cluster_ips w
    = (inr logs, mkWorld (ledger w) (files w) (trace w ++ tr))
    /\ length logs = length cluster_ips
    /\ forall ev, List.In ev tr -> exists cmd, ev = EvShell cmd.
Proof.
  intros Hst.
  revert w. induction cluster_ips as [|ip ips IH]; intros [L fs tr0].
  - exists [], []. cbn [reset_members ledger files trace]. unfold ret.
    rewrite List.app_nil_r. repeat split. intros ev [].
  - cbn [reset_members].
    destruct (Py.dict_lookup ip alias_map) as [v|] eqn:Hv.
    2: { cbn [Py.truthy]. unfold bind at 1. unfold ret at 1.
         destruct (IH (mkWorld L fs tr0)) as [logs [tr [E [Hlen Hev]]]].
         unfold bind. rewrite E. cbn [ledger files trace].
         eexists. exists tr.
         split; [reflexivity|].
         split; [cbn [length]; now rewrite Hlen|exact Hev]. }
    destruct (Py.truthy v).
    + assert (Hv' : startable ("mc admin replicate rm --all --force "
                               +:+ format_value py_str v) = true).
      { unfold aliases_startable in Hst.
        rewrite List.forallb_forall in Hst.
        exact (Hst _ (dict_lookup_In _ _ _ Hv)). }
      unfold bind at 1. unfold bind at 1.
      rewrite (subprocess_run_started env _ _ Hv').
      cbn [ledger files trace]. unfold ret at 1.
      match goal with
      | |- context [bind (reset_members py_str env alias_map ips) _ ?w1] =>
          destruct (IH w1) as [logs [tr [E [Hlen Hev]]]]
      end.
      unfold bind. rewrite E. cbn [ledger files trace].
      eexists. eexists. split; [rewrite <- List.app_assoc; reflexivity|].
      split; [cbn [length]; now rewrite Hlen|].
      intros ev [<-|Hin]; [eexists; reflexivity|now apply Hev].
    + unfold bind at 1. unfold ret at 1.
      destruct (IH (mkWorld L fs tr0)) as [logs [tr [E [Hlen Hev]]]].
      unfold bind. rewrite E. cbn [ledger files trace].
      eexists. exists tr.
      split; [reflexivity|]. split; [cbn [length]; now rewrite Hlen|exact Hev].
Qed.

(** Whatever the aliases, the reset loop touches neither ledger nor
    files. *)
Lemma reset_members_world env alias_map cluster_ips w :
  exists res tr,
    reset_members py_str env alias_map cluster_ips w
    = (res, mkWorld (ledger w) (files w) (trace w ++ tr)).
Proof.
  revert w. induction cluster_ips as [|ip ips IH]; intros [L fs tr0].
  - exists (inr []), []. cbn [reset_members ledger files trace]. unfold ret.
    now rewrite List.app_nil_r.
  - cbn [reset_members].
    destruct (Py.truthy
                match Py.dict_lookup ip alias_map with
                | Some v => v
                | None => JNull
                end).
    + unfold bind at 1. unfold bind at 1.
      match goal with
      | |- context [subprocess_run env ?cmd ?w0] =>
          destruct (startable cmd) eqn:Hc;
            [rewrite (subprocess_run_started env cmd w0 Hc)
            |rewrite (subprocess_run_refused env cmd w0 Hc)]
      end.
      * cbn [ledger files trace]. unfold ret at 1.
        match goal with
        | |- context [bind (reset_members py_str env alias_map ips) _ ?w1] =>
            destruct (IH w1) as [res [tr E]]
        end.
        unfold bind. rewrite E. cbn [ledger files trace].
        destruct res; eexists; eexists; rewrite <- List.app_assoc; reflexivity.
      * eexists. exists []. cbn [ledger files trace].
        now rewrite List.app_nil_r.
    + unfold bind at 1. unfold ret at 1.
      destruct (IH (mkWorld L fs tr0)) as [res [tr E]].
      unfold bind. rewrite E. cbn [ledger files trace].
      destruct res; eexists; exists tr; reflexivity.
Qed.

(** The listing of a dismantling is read with one command and never
    raises. *)
Lemma reverse_aliases_run env w :
  reverse_aliases json_loads env w
  = (inr (reversed json_loads env),
     mkWorld (ledger w) (files w) (trace w ++ [EvShell LIST_CMD])).
Proof.
  unfold reverse_aliases, try_except, bind at 1.
  fold LIST_CMD. rewrite (subprocess_run_started env _ _ startable_list_cmd).
  reflexivity.
Qed.

(** Dismantling a cluster the ledger does not hold ends in status 404
    after the existence check: no command is run, no listing is read, and
    ledger and files are as before. *)
Theorem delete_cluster_not_found env name w :
  ledger_up env ->
  named name (ledger w) = [] ->
  delete_cluster json_loads http_exception_str py_str env name w
  = (inl (HTTPException 404 ("Cluster '" +:+ name +:+ "' not found.")),
     mkWorld (ledger w) (files w)
       (trace w ++ [EvConnect; EvQuery MATCH_CLUSTER])).
Proof.
  intros [Hc Hq] Habs. destruct w as [L fs tr0]. cbn [ledger] in Habs.
  unfold delete_cluster, get_db_session, session_run, try_except, bind, emit,
    ret, raise. cbn [ledger files trace]. rewrite Hc, Hq.
  cbn [ledger files trace]. unfold CypherMore.match_cluster.
  unfold named in Habs. rewrite Habs. cbn [ledger files trace].
  now rewrite <- List.app_assoc.
Qed.

(** The ledger after the last step of a dismantling. *)
Lemma delete_cluster_found_run env name w :
  connect_fails env = false ->
  query_error env 0 = None ->
  query_error env 1 = None ->
  named name (ledger w) <> [] ->
  aliases_startable py_str (reversed json_loads env) = true ->
  exists logs tr,
    delete_cluster json_loads http_exception_str py_str env name w
    = (inr (JDict
              [("status", JStr "deleted");
               ("cluster", JStr name);
               ("member_count",
                 JInt (Z.of_nat (length (CypherMore.member_ips name (ledger w)))));
               ("logs", JList (map JStr logs))]),
       mkWorld
         (match query_error env 2 with
          | Some _ => ledger w
          | None => CypherMore.delete_cluster name (ledger w)
          end)
         (files w) (trace w ++ tr))
    /\ length logs = length (CypherMore.member_ips name (ledger w)).
Proof.
  intros Hc Hq0 Hq1 Hex Hst. destruct w as [L fs tr0]. cbn [ledger] in Hex.
  unfold delete_cluster. unfold bind at 1.
  unfold get_db_session, session_run, try_except, bind, emit, ret, raise.
  cbn [ledger files trace]. rewrite Hc, Hq0. cbn [ledger files trace].
  unfold CypherMore.match_cluster. unfold named in Hex.
  destruct (List.filter (Cypher.is_cluster name) (clusters L)) as [|c cs] eqn:Hf;
    [congruence|].
  rewrite Hq1. cbn [ledger files trace].
  rewrite reverse_aliases_run. cbn [ledger files trace].
  match goal with
  | |- context [reset_members py_str env ?m ?ips ?w1] =>
      destruct (reset_members_run env m ips w1 Hst) as [logs [tr [E [Hlen _]]]]
  end.
  rewrite E. cbn [ledger files trace].
  destruct (query_error env 2); cbn [ledger files trace];
    exists logs; eexists; (split; [rewrite <- !List.app_assoc; reflexivity|]);
    exact Hlen.
Qed.

(** A dismantling with the ledger answering throughout and a listing
    whose aliases can all go on a command line: the response counts the
    member addresses and logs one line per address; no cluster of that
    name is left, clusters of other names and all node records stay, the
    surviving edges are old edges that do not end at a removed cluster,
    and the files are untouched. *)
Theorem delete_cluster_removes env name w :
  ledger_all_up env ->
  named name (ledger w) <> [] ->
  aliases_startable py_str (reversed json_loads env) = true ->
  let r := delete_cluster json_loads http_exception_str py_str env name w in
  (exists logs,
      fst r = inr (JDict
                     [("status", JStr "deleted");
                      ("cluster", JStr name);
                      ("member_count",
                        JInt (Z.of_nat
                                (length (CypherMore.member_ips name (ledger w)))));
                      ("logs", JList (map JStr logs))])
      /\ length logs = length (CypherMore.member_ips name (ledger w)))
  /\ named name (ledger (snd r)) = []
  /\ (forall name', name' <> name ->
        named name' (ledger (snd r)) = named name' (ledger w))
  /\ nodes (ledger (snd r)) = nodes (ledger w)
  /\ (forall e, List.In e (member_of (ledger (snd r))) ->
        List.In e (member_of (ledger w))
        /\ forall c, List.In c (clusters (ledger w)) -> cluster_name c = name ->
                     cluster_id c <> snd e)
  /\ files (snd r) = files w.
Proof.
  intros [Hc Hq] Hex Hst. cbv zeta.
  destruct (delete_cluster_found_run env name w Hc (Hq 0%nat) (Hq 1%nat) Hex
              Hst)
    as [logs [tr [-> Hlen]]].
  rewrite (Hq 2%nat). cbn [fst snd ledger files].
  split; [exists logs; auto|].
  split; [apply delete_cluster_named|].
  split; [intros name' Hne; now apply delete_cluster_others|].
  split; [reflexivity|].
  split; [intros e; apply delete_cluster_edges|reflexivity].
Qed.

(** A failure of the last ledger query of a dismantling that got
    through its reset commands is caught: the response still says
    deleted, although the ledger is unchanged and the cluster record is
    still there. *)
Theorem delete_cluster_last_failure_caught env name w msg :
  connect_fails env = false ->
  query_error env 0 = None ->
  query_error env 1 = None ->
  query_error env 2 = Some msg ->
  named name (ledger w) <> [] ->
  aliases_startable py_str (reversed json_loads env) = true ->
  let r := delete_cluster json_loads http_exception_str py_str env name w in
  (exists logs,
      fst r = inr (JDict
                     [("status", JStr "deleted");
                      ("cluster", JStr name);
                      ("member_count",
                        JInt (Z.of_nat
                                (length (CypherMore.member_ips name (ledger w)))));
                      ("logs", JList (map JStr logs))]))
  /\ ledger (snd r) = ledger w
  /\ named name (ledger (snd r)) <> [].
Proof.
  intros Hc Hq0 Hq1 Hq2 Hex Hst. cbv zeta.
  destruct (delete_cluster_found_run env name w Hc Hq0 Hq1 Hex Hst)
    as [logs [tr [-> Hlen]]].
  rewrite Hq2. cbn [fst snd ledger].
  split; [exists logs; reflexivity|]. split; [reflexivity|exact Hex].
Qed.



Lemma wipe_alias_run env alias w :
  exists res tr,
    wipe_alias http_exception_str env alias w
    = (res, mkWorld (ledger w) (files w) (trace w ++ tr)).
Proof.
  destruct w as [L fs tr0].
  unfold wipe_alias, try_except. unfold bind at 1. unfold bind at 1.
  destruct (startable ("mc rb --force --dangerous " +:+ alias)) eqn:Hst.
  - rewrite (subprocess_run_started env _ _ Hst).
    unfold bind, ret, raise. cbn [ledger files trace].
    destruct (Z.eqb (returncode (shell env _)) 0); cbn [negb andb].
    + eexists. eexists. reflexivity.
    + destruct (PyStr.contains "does not exist" (stderr (shell env _)));
        cbn [negb]; eexists; eexists; reflexivity.
  - rewrite (subprocess_run_refused env _ _ Hst). unfold raise.
    eexists. exists []. cbn [ledger files trace]. now rewrite List.app_nil_r.
Qed.


(** The loop over the lines, as a function of the lines: it stops at the
    first line on which the decoder fails otherwise than by rejecting
    the text, and collects the decoded lines in order when there is
    none. *)
Lemma decode_lines_spec lines aliases w :
  decode_lines json_loads json_loads_error lines aliases w
  = (match first_fatal json_loads json_loads_error lines with
     | Some line =>
         inl (PyError (fst (json_loads_error line)) (snd (json_loads_error line)))
     | None => inr (aliases ++ omap json_loads lines)
     end, w).
Proof.
  revert aliases. induction lines as [|line lines IH]; intros aliases.
  - cbn [decode_lines first_fatal List.find omap list_omap]. unfold ret.
    now rewrite List.app_nil_r.
  - cbn [decode_lines]. unfold first_fatal. cbn [List.find omap list_omap].
    fold (first_fatal json_loads json_loads_error lines).
    unfold bind at 1. unfold try_except_kind, try_except, loads_line.
    destruct (json_loads line) as [v|].
    + unfold bind, ret. rewrite IH. now rewrite <- List.app_assoc.
    + unfold bind, raise, ret. cbv beta iota.
      destruct (kind_eqb JSONDecodeError (fst (json_loads_error line)));
        cbn [negb]; cbv beta iota.
      * apply IH.
      * reflexivity.
Qed.

Lemma list_aliases_run env w :
  returncode (shell env "mc alias list --json") = 0 ->
  list_aliases json_loads json_loads_error env w
  = (let raw_output := PyStr.strip (stdout (shell env "mc alias list --json")) in
     let lines :=
       if String.eqb raw_output EmptyString then []
       else PyStr.split (String "010" EmptyString) raw_output in
     match first_fatal json_loads json_loads_error lines with
     | Some line =>
         inl (PyError (fst (json_loads_error line)) (snd (json_loads_error line)))
     | None =>
         inr (JDict [("count", JInt (Z.of_nat (length (omap json_loads lines))));
                     ("aliases", JList (omap json_loads lines))])
     end,
     mkWorld (ledger w) (files w) (trace w ++ [EvShell "mc alias list --json"])).
Proof.
  intros Hrc. cbv zeta. destruct w as [L fs tr0].
  unfold list_aliases. unfold bind at 1.
  rewrite (subprocess_run_started env _ _ startable_list_cmd).
  unfold LIST_CMD. rewrite Hrc. cbn [Z.eqb negb ledger files trace].
  destruct (String.eqb (PyStr.strip (stdout (shell env "mc alias list --json")))
              EmptyString); cbn [negb].
  - reflexivity.
  - unfold bind. rewrite decode_lines_spec.
    destruct (first_fatal json_loads json_loads_error _); reflexivity.
Qed.

(** When the listing command succeeds, the alias listing touches neither
    ledger nor files and answers from the lines of the output, which it
    decodes in order.  A line the decoder rejects as no JSON is left
    out, and the response holds the decoded lines with their number as
    count.  A line on which the decoder fails in another way ends the
    request with that error. *)
Theorem list_aliases_counts env w :
  returncode (shell env "mc alias list --json") = 0 ->
  let r := list_aliases json_loads json_loads_error env w in
  let raw_output := PyStr.strip (stdout (shell env "mc alias list --json")) in
  let lines :=
    if String.eqb raw_output EmptyString then []
    else PyStr.split (String "010" EmptyString) raw_output in
  fst r
  = match first_fatal json_loads json_loads_error lines with
    | Some line =>
        inl (PyError (fst (json_loads_error line)) (snd (json_loads_error line)))
    | None =>
        inr (JDict [("count", JInt (Z.of_nat (length (omap json_loads lines))));
                    ("aliases", JList (omap json_loads lines))])
    end
  /\ snd r = mkWorld (ledger w) (files w)
               (trace w ++ [EvShell "mc alias list --json"]).
Proof.
  intros Hrc. cbv zeta. rewrite (list_aliases_run env w Hrc).
  split; reflexivity.
Qed.

Lemma list_aliases_world env w :
  exists res tr,
    list_aliases json_loads json_loads_error env w
    = (res, mkWorld (ledger w) (files w) (trace w ++ tr)).
Proof.
  destruct w as [L fs tr0].
  unfold list_aliases. unfold bind at 1.
  rewrite (subprocess_run_started env _ _ startable_list_cmd).
  cbn [ledger files trace].
  destruct (negb _); [unfold raise; eexists; eexists; reflexivity|].
  destruct (negb _).
  - unfold bind. rewrite decode_lines_spec.
    destruct (first_fatal json_loads json_loads_error _);
      eexists; eexists; reflexivity.
  - unfold bind, ret. eexists. eexists. reflexivity.
Qed.

(** *** Invariants of the ledger along every run of the service *)

Lemma delete_cluster_ledger env name w :
  let r := delete_cluster json_loads http_exception_str py_str env name w in
  ledger (snd r) = ledger w
  \/ ledger (snd r) = CypherMore.delete_cluster name (ledger w).
Proof.
  cbv zeta. destruct w as [L fs tr0].
  unfold delete_cluster. unfold bind at 1.
  unfold get_db_session, session_run, try_except, bind, emit, ret, raise.
  cbn [ledger files trace].
  destruct (connect_fails env); cbn [ledger files trace snd]; [now left|].
  destruct (query_error env 0); cbn [ledger files trace snd]; [now left|].
  destruct (CypherMore.match_cluster name L); cbn [ledger files trace snd];
    [now left|].
  destruct (query_error env 1); cbn [ledger files trace snd]; [now left|].
  rewrite reverse_aliases_run. cbn [ledger files trace].
  match goal with
  | |- context [reset_members py_str env ?m ?ips ?w1] =>
      destruct (reset_members_world env m ips w1) as [res [tr E]]
  end.
  rewrite E. cbn [ledger files trace snd].
  destruct res as [e|logs]; cbn [ledger files trace snd]; [now left|].
  destruct (query_error env 2); cbn [ledger files trace snd]; auto.
Qed.

(** Every endpoint changes the ledger only through the queries of
    [ledger_step]. *)
Lemma serve_ledger_step env c w :
  ledger_step (ledger w)
    (ledger (snd (serve json_loads json_loads_error http_exception_str py_str
                    env c w))).
Proof.
  destruct c as [|ip port| | |name|name ip node_port|alias ip port user password
                | |alias|name aliases|name|alias]; cbn [serve].
  - constructor.
  - rewrite health_check_node_run. constructor.
  - destruct w as [L fs tr0].
    unfold get_nodes, get_db_session, session_run, try_except, bind, emit,
      ret, raise. cbn [ledger files trace].
    destruct (connect_fails env); cbn [ledger files trace snd]; [constructor|].
    destruct (query_error env 0); cbn [ledger files trace snd]; constructor.
  - destruct w as [L fs tr0].
    unfold get_clusters, get_db_session, session_run, try_except, bind, emit,
      ret, raise. cbn [ledger files trace].
    destruct (connect_fails env); cbn [ledger files trace snd]; [constructor|].
    destruct (query_error env 0); cbn [ledger files trace snd]; constructor.
  - destruct w as [L fs tr0].
    unfold delete_node, get_db_session, session_run, try_except, bind, emit,
      ret, raise. cbn [ledger files trace].
    destruct (connect_fails env); cbn [ledger files trace snd]; [constructor|].
    destruct (query_error env 0); cbn [ledger files trace snd]; [constructor|].
    pose proof (step_delete_node name L) as Hstep.
    destruct (Cypher.delete_node name L) as [k L']. cbn [snd] in Hstep.
    cbn [ledger files trace fst snd].
    destruct (Nat.eqb k 0); cbn [ledger files trace snd]; [exact Hstep|].
    run_update. run_update. exact Hstep.
  - destruct (connect_fails env) eqn:Hc.
    + destruct (register_node_ledger_down http_exception_str env name ip
                  node_port w (or_introl Hc)) as [d [tr ->]]. constructor.
    + destruct (query_error env 0) as [msg|] eqn:Hq.
      * assert (Hdown : connect_fails env = true \/ query_error env 0 <> None)
          by (right; rewrite Hq; discriminate).
        destruct (register_node_ledger_down http_exception_str env name ip
                    node_port w Hdown) as [d [tr ->]]. constructor.
      * destruct (register_node_run http_exception_str env name ip node_port w
                    (conj Hc Hq)) as [tr ->]. constructor.
  - destruct w as [L fs tr0].
    unfold create_alias, subprocess_run, bind, emit, ret, raise.
    destruct (PyStr.contains NUL _); cbn [ledger files trace snd];
      [constructor|].
    destruct (negb _); constructor.
  - destruct (list_aliases_world env w) as [res [tr ->]]. constructor.
  - destruct w as [L fs tr0].
    unfold remove_alias, subprocess_run, bind, emit, ret, raise.
    destruct (PyStr.contains NUL _); cbn [ledger files trace snd];
      [constructor|].
    destruct (negb _); constructor.
  - destruct (create_cluster_world json_loads env name aliases w)
      as [_ [HL|HL]]; cbv zeta in HL; rewrite HL;
      [constructor|apply cluster_ledger_step].
  - destruct (delete_cluster_ledger env name w) as [HL|HL]; cbv zeta in HL;
      rewrite HL; constructor.
  - destruct (wipe_alias_run env alias w) as [res [tr ->]]. constructor.
Qed.

(** In every world the service can reach, over all its endpoints, the
    ledger holds at most one node record per address. *)
Theorem served_unique_ips w :
  served json_loads json_loads_error http_exception_str py_str w -> unique_ips (ledger w).
Proof.
  induction 1 as [fs tr|env c w Hw IH].
  - intros ip. cbn [ledger empty_ledger at_ip nodes List.filter length]. lia.
  - exact (ledger_step_unique_ips _ _ (serve_ledger_step env c w) IH).
Qed.

(** In every world the service can reach, every node record carries the
    status active or degraded. *)
Theorem served_statuses_known w :
  served json_loads json_loads_error http_exception_str py_str w -> statuses_known (ledger w).
Proof.
  induction 1 as [fs tr|env c w Hw IH].
  - intros n [].
  - exact (ledger_step_statuses _ _ (serve_ledger_step env c w) IH).
Qed.

(** In every world the service can reach, the ledger holds at most one
    cluster record per name. *)
Theorem served_unique_clusters w :
  served json_loads json_loads_error http_exception_str py_str w -> unique_clusters (ledger w).
Proof.
  induction 1 as [fs tr|env c w Hw IH].
  - intros name. cbn [ledger empty_ledger named clusters List.filter length].
    lia.
  - exact (ledger_step_unique_clusters _ _ (serve_ledger_step env c w) IH).
Qed.

End EndpointsMore.
(** ** Worked instances of the further properties *)

Lemma upsert_replaces_entry_witness :
  (io_fault Sample.env_up TARGETS_MINIO_FILE = false)
  /\ (inspectable (files SampleMore.w_feed) TARGETS_MINIO_FILE = true)
  /\ (labelled "A" (JDict SampleMore.moved_a) = true)
  /\ (let w' := snd (update_target_file Sample.env_up TARGETS_MINIO_FILE "A" (Some SampleMore.moved_a) SampleMore.w_feed) in
     collection (files w') TARGETS_MINIO_FILE
     = List.filter (other "A") (collection (files SampleMore.w_feed) TARGETS_MINIO_FILE) ++ [JDict SampleMore.moved_a]
     /\ List.filter (labelled "A") (collection (files w') TARGETS_MINIO_FILE) = [JDict SampleMore.moved_a]).
Proof.
  assert (H1 : io_fault Sample.env_up TARGETS_MINIO_FILE = false)
    by (reflexivity).
  assert (H2 : inspectable (files SampleMore.w_feed) TARGETS_MINIO_FILE = true)
    by (vm_compute; reflexivity).
  assert (H3 : labelled "A" (JDict SampleMore.moved_a) = true)
    by (vm_compute; reflexivity).
  split; [exact H1|].
  split; [exact H2|].
  split; [exact H3|].
  exact (upsert_replaces_entry Sample.env_up TARGETS_MINIO_FILE "A" SampleMore.moved_a SampleMore.w_feed H1 H2 H3).
Defined.

Lemma upsert_twice_is_upsert_once_witness :
  (io_fault Sample.env_up TARGETS_MINIO_FILE = false)
  /\ (io_fault Sample.env_later TARGETS_MINIO_FILE = false)
  /\ (labelled "A" (JDict SampleMore.moved_a) = true)
  /\ (let w1 := snd (update_target_file Sample.env_up TARGETS_MINIO_FILE "A" (Some SampleMore.moved_a) SampleMore.w_feed) in
     let w2 := snd (update_target_file Sample.env_later TARGETS_MINIO_FILE "A" (Some SampleMore.moved_a) w1) in
     files w2 = files w1).
Proof.
  assert (H1 : io_fault Sample.env_up TARGETS_MINIO_FILE = false)
    by (reflexivity).
  assert (H2 : io_fault Sample.env_later TARGETS_MINIO_FILE = false)
    by (reflexivity).
  assert (H3 : labelled "A" (JDict SampleMore.moved_a) = true)
    by (vm_compute; reflexivity).
  split; [exact H1|].
  split; [exact H2|].
  split; [exact H3|].
  exact (upsert_twice_is_upsert_once Sample.env_up Sample.env_later TARGETS_MINIO_FILE "A" SampleMore.moved_a SampleMore.w_feed H1 H2 H3).
Defined.

Lemma remove_after_upsert_witness :
  (io_fault Sample.env_up TARGETS_MINIO_FILE = false)
  /\ (io_fault Sample.env_later TARGETS_MINIO_FILE = false)
  /\ (inspectable (files SampleMore.w_feed) TARGETS_MINIO_FILE = true)
  /\ (labelled "C" (JDict SampleMore.target_c) = true)
  /\ (let w1 := snd (update_target_file Sample.env_up TARGETS_MINIO_FILE "C" (Some SampleMore.target_c) SampleMore.w_feed) in
     let w2 := snd (update_target_file Sample.env_later TARGETS_MINIO_FILE "C" None w1) in
     collection (files w2) TARGETS_MINIO_FILE
     = List.filter (other "C") (collection (files SampleMore.w_feed) TARGETS_MINIO_FILE)
     /\ List.filter (labelled "C") (collection (files w2) TARGETS_MINIO_FILE) = []
     /\ (List.filter (labelled "C") (collection (files SampleMore.w_feed) TARGETS_MINIO_FILE) = [] ->
         collection (files w2) TARGETS_MINIO_FILE = collection (files SampleMore.w_feed) TARGETS_MINIO_FILE)).
Proof.
  assert (H1 : io_fault Sample.env_up TARGETS_MINIO_FILE = false)
    by (reflexivity).
  assert (H2 : io_fault Sample.env_later TARGETS_MINIO_FILE = false)
    by (reflexivity).
  assert (H3 : inspectable (files SampleMore.w_feed) TARGETS_MINIO_FILE = true)
    by (vm_compute; reflexivity).
  assert (H4 : labelled "C" (JDict SampleMore.target_c) = true)
    by (vm_compute; reflexivity).
  split; [exact H1|].
  split; [exact H2|].
  split; [exact H3|].
  split; [exact H4|].
  exact (remove_after_upsert Sample.env_up Sample.env_later TARGETS_MINIO_FILE "C" SampleMore.target_c SampleMore.w_feed H1 H2 H3 H4).
Defined.

Lemma uninspectable_entry_blocks_update_witness :
  (files SampleMore.w_foreign !! TARGETS_MINIO_FILE = Some (Document (JList SampleMore.foreign_entries)))
  /\ (forallb entry_wellformed SampleMore.foreign_entries = false)
  /\ (let r := update_target_file Sample.env_up TARGETS_MINIO_FILE "A" (Some SampleMore.moved_a) SampleMore.w_foreign in
     fst r = inr tt /\ files (snd r) = files SampleMore.w_foreign /\ ledger (snd r) = ledger SampleMore.w_foreign).
Proof.
  assert (H1 : files SampleMore.w_foreign !! TARGETS_MINIO_FILE = Some (Document (JList SampleMore.foreign_entries)))
    by (vm_compute; reflexivity).
  assert (H2 : forallb entry_wellformed SampleMore.foreign_entries = false)
    by (reflexivity).
  split; [exact H1|].
  split; [exact H2|].
  exact (uninspectable_entry_blocks_update Sample.env_up TARGETS_MINIO_FILE "A" (Some SampleMore.moved_a) SampleMore.w_foreign SampleMore.foreign_entries H1 H2).
Defined.

Lemma register_node_ledger_failure_witness :
  (connect_fails SampleMore.env_query_fails = true \/ query_error SampleMore.env_query_fails 0 <> None)
  /\ (let r := register_node Sample.http_str SampleMore.env_query_fails "A" "10.0.0.1" 9100 Sample.w_empty in
     fst r = inl (HTTPException 500 ("Neo4j Error: "
                                 +:+ ledger_failure_text Sample.http_str SampleMore.env_query_fails))
     /\ ledger (snd r) = ledger Sample.w_empty
     /\ files (snd r) = files Sample.w_empty
     /\ exists tr,
          trace (snd r)
          = trace Sample.w_empty ++ EvHttpGet (health_url "10.0.0.1" 9001)
                    :: EvHttpGet (health_url "10.0.0.1" 9003) :: EvConnect :: tr).
Proof.
  assert (H1 : connect_fails SampleMore.env_query_fails = true \/ query_error SampleMore.env_query_fails 0 <> None)
    by (right; discriminate).
  split; [exact H1|].
  exact (register_node_ledger_failure Sample.http_str SampleMore.env_query_fails "A" "10.0.0.1" 9100 Sample.w_empty H1).
Defined.

Lemma register_node_feed_failure_witness :
  (ledger_up SampleMore.env_io_down)
  /\ (io_fault SampleMore.env_io_down TARGETS_MINIO_FILE = true)
  /\ (io_fault SampleMore.env_io_down TARGETS_NODE_FILE = true)
  /\ (let r := register_node Sample.http_str SampleMore.env_io_down "A" "10.0.0.1" 9100 Sample.w_empty in
     fst r = inr (registered_response SampleMore.env_io_down "A" "10.0.0.1")
     /\ at_ip "10.0.0.1" (ledger (snd r)) <> []
     /\ files (snd r) = files Sample.w_empty).
Proof.
  assert (H1 : ledger_up SampleMore.env_io_down)
    by (split; reflexivity).
  assert (H2 : io_fault SampleMore.env_io_down TARGETS_MINIO_FILE = true)
    by (reflexivity).
  assert (H3 : io_fault SampleMore.env_io_down TARGETS_NODE_FILE = true)
    by (reflexivity).
  split; [exact H1|].
  split; [exact H2|].
  split; [exact H3|].
  exact (register_node_feed_failure Sample.http_str SampleMore.env_io_down "A" "10.0.0.1" 9100 Sample.w_empty H1 H2 H3).
Defined.

Lemma delete_node_ledger_failure_witness :
  (connect_fails Sample.env_down = true \/ query_error Sample.env_down 0 <> None)
  /\ (let r := delete_node Sample.http_str Sample.env_down "A" SampleMore.w_feed in
     fst r
     = inl (if connect_fails Sample.env_down
            then HTTPException 503 "Ledger is warming up, please wait."
            else HTTPException 500
                   ("Neo4j Delete Failed: "
                    +:+ ledger_failure_text Sample.http_str Sample.env_down))
     /\ ledger (snd r) = ledger SampleMore.w_feed
     /\ files (snd r) = files SampleMore.w_feed).
Proof.
  assert (H1 : connect_fails Sample.env_down = true \/ query_error Sample.env_down 0 <> None)
    by (left; reflexivity).
  split; [exact H1|].
  exact (delete_node_ledger_failure Sample.http_str Sample.env_down "A" SampleMore.w_feed H1).
Defined.

Lemma create_cluster_declares_cluster_witness :
  ((2 <= length (parse_aliases "a, b"))%nat)
  /\ (join_accepted Sample.env_up (parse_aliases "a, b") = true)
  /\ (ledger_up Sample.env_up)
  /\ (let r := create_cluster Sample.loads Sample.env_up "prod" "a, b" Sample.w_empty in
     (exists c, List.In c (clusters (ledger (snd r)))
                /\ cluster_name c = "prod" /\ cluster_created_at c = now Sample.env_up)
     /\ (resolved Sample.loads Sample.env_up (parse_aliases "a, b") = [] ->
         member_of (ledger (snd r)) = member_of (ledger Sample.w_empty))).
Proof.
  assert (H1 : (2 <= length (parse_aliases "a, b"))%nat)
    by (vm_compute; lia).
  assert (H2 : join_accepted Sample.env_up (parse_aliases "a, b") = true)
    by (vm_compute; reflexivity).
  assert (H3 : ledger_up Sample.env_up)
    by (split; reflexivity).
  split; [exact H1|].
  split; [exact H2|].
  split; [exact H3|].
  exact (create_cluster_declares_cluster Sample.loads Sample.env_up "prod" "a, b" Sample.w_empty H1 H2 H3).
Defined.

Lemma create_cluster_twice_keeps_edges_witness :
  ((2 <= length (parse_aliases "a, b"))%nat)
  /\ (join_accepted Sample.env_up (parse_aliases "a, b") = true)
  /\ (join_accepted Sample.env_later (parse_aliases "a, b") = true)
  /\ (ledger_all_up Sample.env_up)
  /\ (ledger_all_up Sample.env_later)
  /\ (resolved Sample.loads Sample.env_later (parse_aliases "a, b")
  = resolved Sample.loads Sample.env_up (parse_aliases "a, b"))
  /\ (let w1 := snd (create_cluster Sample.loads Sample.env_up "prod" "a, b" SampleMore.w_feed) in
     let w2 := snd (create_cluster Sample.loads Sample.env_later "prod" "a, b" w1) in
     member_of (ledger w2) = member_of (ledger w1)
     /\ map cluster_id (clusters (ledger w2)) = map cluster_id (clusters (ledger w1))
     /\ nodes (ledger w2) = nodes (ledger w1)).
Proof.
  assert (H1 : (2 <= length (parse_aliases "a, b"))%nat)
    by (vm_compute; lia).
  assert (H2 : join_accepted Sample.env_up (parse_aliases "a, b") = true)
    by (vm_compute; reflexivity).
  assert (H3 : join_accepted Sample.env_later (parse_aliases "a, b") = true)
    by (vm_compute; reflexivity).
  assert (H4 : ledger_all_up Sample.env_up)
    by (split; [reflexivity|intros k; reflexivity]).
  assert (H5 : ledger_all_up Sample.env_later)
    by (split; [reflexivity|intros k; reflexivity]).
  assert (H6 : resolved Sample.loads Sample.env_later (parse_aliases "a, b")
  = resolved Sample.loads Sample.env_up (parse_aliases "a, b"))
    by (vm_compute; reflexivity).
  split; [exact H1|].
  split; [exact H2|].
  split; [exact H3|].
  split; [exact H4|].
  split; [exact H5|].
  split; [exact H6|].
  exact (create_cluster_twice_keeps_edges Sample.loads Sample.env_up Sample.env_later "prod" "a, b" SampleMore.w_feed H1 H2 H3 H4 H5 H6).
Defined.


Lemma registered_node_is_listed_witness :
  (unique_ips (ledger Sample.w_empty))
  /\ (ledger_up Sample.env_up)
  /\ (ledger_up Sample.env_later)
  /\ (let w1 := snd (register_node Sample.http_str Sample.env_up "A" "10.0.0.1" 9100 Sample.w_empty) in
     let r := get_nodes Sample.http_str Sample.env_later w1 in
     exists id l,
       fst r = inr (JList l)
       /\ length l = length (nodes (ledger w1))
       /\ List.In
            (node_entry
               (mkNode id "10.0.0.1" "A"
                  (node_status_of (probe Sample.env_up "10.0.0.1" 9001) (probe Sample.env_up "10.0.0.1" 9003))
                  (now Sample.env_up))) l
       /\ ledger (snd r) = ledger w1
       /\ files (snd r) = files w1).
Proof.
  assert (H1 : unique_ips (ledger Sample.w_empty))
    by (intros ip; simpl; lia).
  assert (H2 : ledger_up Sample.env_up)
    by (split; reflexivity).
  assert (H3 : ledger_up Sample.env_later)
    by (split; reflexivity).
  split; [exact H1|].
  split; [exact H2|].
  split; [exact H3|].
  exact (registered_node_is_listed Sample.http_str Sample.env_up Sample.env_later "A" "10.0.0.1" 9100 Sample.w_empty H1 H2 H3).
Defined.

Lemma listings_ledger_failure_witness :
  (connect_fails Sample.env_down = true \/ query_error Sample.env_down 0 <> None)
  /\ (let detail := "Database Query Failed: "
                   +:+ ledger_failure_text Sample.http_str Sample.env_down in
     let rn := get_nodes Sample.http_str Sample.env_down Sample.w_prod in
     let rc := get_clusters Sample.http_str Sample.env_down Sample.w_prod in
     fst rn = inl (HTTPException 500 detail)
     /\ fst rc = inl (HTTPException 500 detail)
     /\ ledger (snd rn) = ledger Sample.w_prod /\ files (snd rn) = files Sample.w_prod
     /\ ledger (snd rc) = ledger Sample.w_prod /\ files (snd rc) = files Sample.w_prod).
Proof.
  assert (H1 : connect_fails Sample.env_down = true \/ query_error Sample.env_down 0 <> None)
    by (left; reflexivity).
  split; [exact H1|].
  exact (listings_ledger_failure Sample.http_str Sample.env_down Sample.w_prod H1).
Defined.

Lemma get_clusters_lists_each_cluster_witness :
  (ledger_up Sample.env_up)
  /\ (unique_clusters (ledger Sample.w_prod))
  /\ (let r := get_clusters Sample.http_str Sample.env_up Sample.w_prod in
     fst r
     = inr (JList
              (map (fun c =>
                      let members :=
                        map member_entry (CypherMore.members_of (ledger Sample.w_prod) c) in
                      JDict
                        [("name", JStr (cluster_name c));
                         ("created_at", JInt (cluster_created_at c));
                         ("node_count", JInt (Z.of_nat (length members)));
                         ("nodes", JList members)])
                 (clusters (ledger Sample.w_prod))))
     /\ ledger (snd r) = ledger Sample.w_prod
     /\ files (snd r) = files Sample.w_prod).
Proof.
  assert (H1 : ledger_up Sample.env_up)
    by (split; reflexivity).
  assert (H2 : unique_clusters (ledger Sample.w_prod))
    by (intros name; unfold named; simpl; destruct (Cypher.is_cluster name _); simpl; lia).
  split; [exact H1|].
  split; [exact H2|].
  exact (get_clusters_lists_each_cluster Sample.http_str Sample.env_up Sample.w_prod H1 H2).
Defined.

Lemma delete_cluster_not_found_witness :
  (ledger_up Sample.env_up)
  /\ (named "ghost" (ledger Sample.w_prod) = [])
  /\ (delete_cluster Sample.loads Sample.http_str SampleMore.py_str Sample.env_up "ghost" Sample.w_prod
     = (inl (HTTPException 404 ("Cluster '" +:+ "ghost" +:+ "' not found.")),
        mkWorld (ledger Sample.w_prod) (files Sample.w_prod)
          (trace Sample.w_prod ++ [EvConnect; EvQuery MATCH_CLUSTER]))).
Proof.
  assert (H1 : ledger_up Sample.env_up)
    by (split; reflexivity).
  assert (H2 : named "ghost" (ledger Sample.w_prod) = [])
    by (reflexivity).
  split; [exact H1|].
  split; [exact H2|].
  exact (delete_cluster_not_found Sample.loads Sample.http_str SampleMore.py_str Sample.env_up "ghost" Sample.w_prod H1 H2).
Defined.

Lemma delete_cluster_removes_witness :
  (ledger_all_up Sample.env_up)
  /\ (named "prod" (ledger Sample.w_prod) <> [])
  /\ (aliases_startable SampleMore.py_str (reversed Sample.loads Sample.env_up) = true)
  /\ (let r := delete_cluster Sample.loads Sample.http_str SampleMore.py_str Sample.env_up "prod" Sample.w_prod in
     (exists logs,
         fst r = inr (JDict
                        [("status", JStr "deleted");
                         ("cluster", JStr "prod");
                         ("member_count",
                           JInt (Z.of_nat
                                   (length (CypherMore.member_ips "prod" (ledger Sample.w_prod)))));
                         ("logs", JList (map JStr logs))])
         /\ length logs = length (CypherMore.member_ips "prod" (ledger Sample.w_prod)))
     /\ named "prod" (ledger (snd r)) = []
     /\ (forall name', name' <> "prod" ->
           named name' (ledger (snd r)) = named name' (ledger Sample.w_prod))
     /\ nodes (ledger (snd r)) = nodes (ledger Sample.w_prod)
     /\ (forall e, List.In e (member_of (ledger (snd r))) ->
           List.In e (member_of (ledger Sample.w_prod))
           /\ forall c, List.In c (clusters (ledger Sample.w_prod)) -> cluster_name c = "prod" ->
                        cluster_id c <> snd e)
     /\ files (snd r) = files Sample.w_prod).
Proof.
  assert (H1 : ledger_all_up Sample.env_up)
    by (split; [reflexivity|intros k; reflexivity]).
  assert (H2 : named "prod" (ledger Sample.w_prod) <> [])
    by (vm_compute; discriminate).
  assert (H3 : aliases_startable SampleMore.py_str (reversed Sample.loads Sample.env_up) = true)
    by (vm_compute; reflexivity).
  split; [exact H1|].
  split; [exact H2|].
  split; [exact H3|].
  exact (delete_cluster_removes Sample.loads Sample.http_str SampleMore.py_str Sample.env_up "prod" Sample.w_prod H1 H2 H3).
Defined.

Lemma delete_cluster_last_failure_caught_witness :
  (connect_fails SampleMore.env_last_query_fails = false)
  /\ (query_error SampleMore.env_last_query_fails 0 = None)
  /\ (query_error SampleMore.env_last_query_fails 1 = None)
  /\ (query_error SampleMore.env_last_query_fails 2 = Some "connection reset")
  /\ (named "prod" (ledger Sample.w_prod) <> [])
  /\ (aliases_startable SampleMore.py_str (reversed Sample.loads SampleMore.env_last_query_fails) = true)
  /\ (let r := delete_cluster Sample.loads Sample.http_str SampleMore.py_str SampleMore.env_last_query_fails "prod" Sample.w_prod in
     (exists logs,
         fst r = inr (JDict
                        [("status", JStr "deleted");
                         ("cluster", JStr "prod");
                         ("member_count",
                           JInt (Z.of_nat
                                   (length (CypherMore.member_ips "prod" (ledger Sample.w_prod)))));
                         ("logs", JList (map JStr logs))]))
     /\ ledger (snd r) = ledger Sample.w_prod
     /\ named "prod" (ledger (snd r)) <> []).
Proof.
  assert (H1 : connect_fails SampleMore.env_last_query_fails = false)
    by (reflexivity).
  assert (H2 : query_error SampleMore.env_last_query_fails 0 = None)
    by (reflexivity).
  assert (H3 : query_error SampleMore.env_last_query_fails 1 = None)
    by (reflexivity).
  assert (H4 : query_error SampleMore.env_last_query_fails 2 = Some "connection reset")
    by (reflexivity).
  assert (H5 : named "prod" (ledger Sample.w_prod) <> [])
    by (vm_compute; discriminate).
  assert (H6 : aliases_startable SampleMore.py_str (reversed Sample.loads SampleMore.env_last_query_fails) = true)
    by (vm_compute; reflexivity).
  split; [exact H1|].
  split; [exact H2|].
  split; [exact H3|].
  split; [exact H4|].
  split; [exact H5|].
  split; [exact H6|].
  exact (delete_cluster_last_failure_caught Sample.loads Sample.http_str SampleMore.py_str SampleMore.env_last_query_fails "prod" Sample.w_prod "connection reset" H1 H2 H3 H4 H5 H6).
Defined.


Lemma list_aliases_counts_witness :
  (returncode (shell Sample.env_up "mc alias list --json") = 0)
  /\ (let r := list_aliases Sample.loads SampleMore.loads_error Sample.env_up Sample.w_empty in
     let raw_output := PyStr.strip (stdout (shell Sample.env_up "mc alias list --json")) in
     let lines :=
       if String.eqb raw_output EmptyString then []
       else PyStr.split (String "010" EmptyString) raw_output in
     fst r
     = match first_fatal Sample.loads SampleMore.loads_error lines with
       | Some line =>
           inl (PyError (fst (SampleMore.loads_error line)) (snd (SampleMore.loads_error line)))
       | None =>
           inr (JDict [("count", JInt (Z.of_nat (length (omap Sample.loads lines))));
                       ("aliases", JList (omap Sample.loads lines))])
       end
     /\ snd r = mkWorld (ledger Sample.w_empty) (files Sample.w_empty)
                  (trace Sample.w_empty ++ [EvShell "mc alias list --json"])).
Proof.
  assert (H1 : returncode (shell Sample.env_up "mc alias list --json") = 0)
    by (reflexivity).
  split; [exact H1|].
  exact (list_aliases_counts Sample.loads SampleMore.loads_error Sample.env_up Sample.w_empty H1).
Defined.

Lemma served_unique_ips_witness :
  (served Sample.loads SampleMore.loads_error Sample.http_str SampleMore.py_str SampleMore.w_served)
  /\ (unique_ips (ledger SampleMore.w_served)).
Proof.
  assert (H1 : served Sample.loads SampleMore.loads_error Sample.http_str SampleMore.py_str SampleMore.w_served)
    by (apply served_step, served_start).
  split; [exact H1|].
  exact (served_unique_ips Sample.loads SampleMore.loads_error Sample.http_str SampleMore.py_str SampleMore.w_served H1).
Defined.

Lemma served_statuses_known_witness :
  (served Sample.loads SampleMore.loads_error Sample.http_str SampleMore.py_str SampleMore.w_served)
  /\ (statuses_known (ledger SampleMore.w_served)).
Proof.
  assert (H1 : served Sample.loads SampleMore.loads_error Sample.http_str SampleMore.py_str SampleMore.w_served)
    by (apply served_step, served_start).
  split; [exact H1|].
  exact (served_statuses_known Sample.loads SampleMore.loads_error Sample.http_str SampleMore.py_str SampleMore.w_served H1).
Defined.

Lemma served_unique_clusters_witness :
  (served Sample.loads SampleMore.loads_error Sample.http_str SampleMore.py_str SampleMore.w_served)
  /\ (unique_clusters (ledger SampleMore.w_served)).
Proof.
  assert (H1 : served Sample.loads SampleMore.loads_error Sample.http_str SampleMore.py_str SampleMore.w_served)
    by (apply served_step, served_start).
  split; [exact H1|].
  exact (served_unique_clusters Sample.loads SampleMore.loads_error Sample.http_str SampleMore.py_str SampleMore.w_served H1).
Defined.
Lemma delete_node_removes_witness :
  ledger_up Sample.env_up
  /\ existsb (Cypher.has_name "A") (nodes (ledger SampleMore.w_feed)) = true
  /\ feed_up Sample.env_up
  /\ feeds_wellformed (files SampleMore.w_feed)
  /\ let r := delete_node Sample.http_str Sample.env_up "A" SampleMore.w_feed in
     fst r = inr (JDict [("status", JStr "deleted"); ("node", JStr "A")])
     /\ nodes (ledger (snd r))
        = List.filter (fun n => negb (Cypher.has_name "A" n))
            (nodes (ledger SampleMore.w_feed))
     /\ clusters (ledger (snd r)) = clusters (ledger SampleMore.w_feed)
     /\ (forall e, List.In e (member_of (ledger (snd r))) ->
           List.In e (member_of (ledger SampleMore.w_feed))
           /\ forall n, List.In n (nodes (ledger SampleMore.w_feed)) ->
                        node_name n = "A" -> node_id n <> fst e)
     /\ collection (files (snd r)) TARGETS_MINIO_FILE
        = List.filter (other "A")
            (collection (files SampleMore.w_feed) TARGETS_MINIO_FILE)
     /\ collection (files (snd r)) TARGETS_NODE_FILE
        = List.filter (other "A")
            (collection (files SampleMore.w_feed) TARGETS_NODE_FILE).
Proof.
  assert (H1 : ledger_up Sample.env_up) by (split; reflexivity).
  assert (H2 : existsb (Cypher.has_name "A") (nodes (ledger SampleMore.w_feed))
               = true) by reflexivity.
  assert (H3 : feed_up Sample.env_up) by (split; reflexivity).
  assert (H4 : feeds_wellformed (files SampleMore.w_feed))
    by (split; vm_compute; reflexivity).
  split; [exact H1|]. split; [exact H2|]. split; [exact H3|].
  split; [exact H4|].
  destruct (delete_node_removes Sample.http_str Sample.env_up "A"
              SampleMore.w_feed H1 H2) as [R [N [C [E F]]]].
  destruct (F H3 H4) as [Fm Fn].
  split; [exact R|]. split; [exact N|]. split; [exact C|].
  split; [exact E|]. split; [exact Fm|exact Fn].
Defined.

Lemma register_then_delete_witness :
  ledger_up Sample.env_up /\ ledger_up Sample.env_later
  /\ feed_up Sample.env_up /\ feed_up Sample.env_later
  /\ feeds_wellformed (files SampleMore.w_feed)
  /\ let w1 := snd (register_node Sample.http_str Sample.env_up "C" "10.0.0.3"
                      9100 SampleMore.w_feed) in
     let r := delete_node Sample.http_str Sample.env_later "C" w1 in
     fst r = inr (JDict [("status", JStr "deleted"); ("node", JStr "C")])
     /\ (forall n, List.In n (nodes (ledger (snd r))) -> node_name n <> "C")
     /\ at_ip "10.0.0.3" (ledger (snd r)) = []
     /\ collection (files (snd r)) TARGETS_MINIO_FILE
        = List.filter (other "C")
            (collection (files SampleMore.w_feed) TARGETS_MINIO_FILE)
     /\ collection (files (snd r)) TARGETS_NODE_FILE
        = List.filter (other "C")
            (collection (files SampleMore.w_feed) TARGETS_NODE_FILE).
Proof.
  assert (H1 : ledger_up Sample.env_up) by (split; reflexivity).
  assert (H2 : ledger_up Sample.env_later) by (split; reflexivity).
  assert (H3 : feed_up Sample.env_up) by (split; reflexivity).
  assert (H4 : feed_up Sample.env_later) by (split; reflexivity).
  assert (H5 : feeds_wellformed (files SampleMore.w_feed))
    by (split; vm_compute; reflexivity).
  split; [exact H1|]. split; [exact H2|]. split; [exact H3|].
  split; [exact H4|]. split; [exact H5|].
  destruct (register_then_delete Sample.http_str Sample.env_up Sample.env_later
              "C" "10.0.0.3" 9100 SampleMore.w_feed H1 H2) as [R [N [A F]]].
  destruct (F H3 H4 H5) as [Fm Fn].
  split; [exact R|]. split; [exact N|]. split; [exact A|].
  split; [exact Fm|exact Fn].
Defined.

(** *** Commands the process library refuses, decoder limits *)

(** A wipe for an alias that holds a NUL character runs nothing. *)
Example wipe_alias_nul :
  wipe_alias Sample.http_str Sample.env_up ("a" +:+ NUL) Sample.w_prod
  = (inl (HTTPException 500 "Wipe failed: embedded null byte"), Sample.w_prod).
Proof. vm_compute. reflexivity. Qed.

(** A formation request with a NUL character in its second alias is left
    by the error of the process library in the reset loop, after the
    reset of the first alias: no join, no listing, no ledger call. *)
Example create_cluster_nul :
  create_cluster Sample.loads Sample.env_up "prod" SampleMore.aliases_nul
    Sample.w_prod
  = (inl (PyError ValueError "embedded null byte"),
     mkWorld (ledger Sample.w_prod) (files Sample.w_prod)
       [EvShell "mc admin replicate rm --all --force a"]).
Proof. vm_compute. reflexivity. Qed.

(** A listing with a line the decoder gives up on: the line that is no
    JSON before it is passed over, the request ends with the error. *)
Example list_aliases_digits :
  fst (list_aliases Sample.loads SampleMore.loads_error_digits
         SampleMore.env_digits Sample.w_empty)
  = inl (PyError ValueError "Exceeds the limit for integer string conversion").
Proof. vm_compute. reflexivity. Qed.

(** The same listing with a decoder that rejects that line as no JSON:
    the two aliases are returned. *)
Example list_aliases_rejected :
  fst (list_aliases Sample.loads SampleMore.loads_error
         SampleMore.env_digits Sample.w_empty)
  = inr (JDict
           [("count", JInt 2);
            ("aliases",
              JList [JDict [("alias", JStr "a"); ("URL", JStr "http://10.0.0.1:9000")];
                     JDict [("alias", JStr "b"); ("URL", JStr "http://10.0.0.2:9000")]])]).
Proof. vm_compute. reflexivity. Qed.
